(** * Edge-deployment orchestration of the defect-detection workshop

    A shallow embedding of the deployment part of
    [src/cloud/image_classification_pipeline.ipynb]: the two registry
    helpers, the compilation and edge-packaging cells with their polling
    loops, [split_s3_path] and the IoT job cell.

    Python strings are [string]s whose characters stand for the code points
    U+0000..U+00FF; Python integers are [Z]. The kernel's namespace, the
    answers of the remote services and the calls made to them are explicit:
    a cell is a function on a state that holds the names assigned so far and
    the calls made so far. The [print] statements are left out; every name
    they read is bound where they stand. *)

From Stdlib Require Import String Ascii List ZArith Lia Bool.
From Stdlib Require Import DecimalString DecimalZ.
From Stdlib Require QArith.
Import ListNotations.

Open Scope string_scope.
Open Scope list_scope.

(** ** Python exceptions and results *)

Inductive exn : Type :=
| ValueError (msg : string)
| NameError (name : string)
| IndexError (msg : string)
| ClientError (msg : string).

(** What running a piece of Python yields: a value, a raised exception, or
    no answer within the loop budget given to the model. *)
Inductive outcome (A : Type) : Type :=
| Ok (a : A)
| Raise (e : exn)
| Diverge.

Arguments Ok {A} a.
Arguments Raise {A} e.
Arguments Diverge {A}.

(** ** String primitives *)

Module PyStr.

(** [s.startswith(pat)] *)
Fixpoint starts_with (pat s : string) : bool :=
  match pat with
  | EmptyString => true
  | String a pat' =>
      match s with
      | EmptyString => false
      | String b s' => Ascii.eqb a b && starts_with pat' s'
      end
  end.

(** [pat in s] *)
Fixpoint contains (pat s : string) : bool :=
  starts_with pat s ||
  match s with
  | EmptyString => false
  | String _ s' => contains pat s'
  end.

(** [c in s] for a single character *)
Fixpoint has_char (c : ascii) (s : string) : bool :=
  match s with
  | EmptyString => false
  | String d s' => Ascii.eqb d c || has_char c s'
  end.

(** The scan of [s.replace(old, new)] for a non-empty [old]: occurrences are
    found left to right and do not overlap; [skip] characters of a match are
    still to be dropped. *)
Fixpoint replace_from (old new : string) (skip : nat) (s : string) : string :=
  match s with
  | EmptyString => EmptyString
  | String c s' =>
      match skip with
      | S n => replace_from old new n s'
      | O =>
          if starts_with old s
          then new ++ replace_from old new (String.length old - 1) s'
          else String c (replace_from old new 0 s')
      end
  end.

(** [s.replace(old, new)], [old] non-empty. *)
Definition replace (old new s : string) : string := replace_from old new 0 s.

(** [s.split(sep)] for a one-character separator: never the empty list. *)
Fixpoint split (sep : ascii) (s : string) : list string :=
  match s with
  | EmptyString => [EmptyString]
  | String c s' =>
      if Ascii.eqb c sep then EmptyString :: split sep s'
      else match split sep s' with
           | [] => [String c EmptyString]
           | w :: ws => String c w :: ws
           end
  end.

(** [sep.join(l)] *)
Fixpoint join (sep : string) (l : list string) : string :=
  match l with
  | [] => EmptyString
  | x :: rest =>
      match rest with
      | [] => x
      | _ :: _ => x ++ sep ++ join sep rest
      end
  end.

(** ['%d' % z] and [str(z)] for an integer. *)
Definition of_int (z : Z) : string := NilEmpty.string_of_int (Z.to_int z).

End PyStr.

(** [l.pop(0)]: the first element and the list that is left. *)
Definition list_pop0 {A : Type} (l : list A) : outcome (A * list A) :=
  match l with
  | [] => Raise (IndexError "pop from empty list")
  | x :: rest => Ok (x, rest)
  end.

(** ** The bucket/key splitter *)

Definition split_s3_path (s3_path : string) : outcome (string * string) :=
  let path_parts := PyStr.split "/" (PyStr.replace "s3://" "" s3_path) in
  match list_pop0 path_parts with
  | Ok (bucket, path_parts') =>
      let key := PyStr.join "/" path_parts' in
      Ok (bucket, key)
  | Raise e => Raise e
  | Diverge => Diverge
  end.

(** *** Facts about the string primitives *)

Section StringFacts.

Lemma starts_with_app (p s : string) : PyStr.starts_with p (p ++ s) = true.
Proof.
  induction p as [|c p IH]; simpl; [reflexivity|].
  now rewrite Ascii.eqb_refl.
Qed.

Lemma contains_cons_false (pat : string) (c : ascii) (s : string) :
  PyStr.contains pat (String c s) = false ->
  PyStr.starts_with pat (String c s) = false /\ PyStr.contains pat s = false.
Proof.
  cbn [PyStr.contains]. intros H. now apply orb_false_iff in H.
Qed.

Lemma replace_from_absent (old new s : string) :
  PyStr.contains old s = false -> PyStr.replace_from old new 0 s = s.
Proof.
  induction s as [|c s IH]; intros H; [reflexivity|].
  apply contains_cons_false in H as [Hp Hc].
  cbn [PyStr.replace_from]. rewrite Hp. f_equal. now apply IH.
Qed.

Lemma replace_s3_prefix (t : string) :
  PyStr.replace "s3://" "" ("s3://" ++ t) = PyStr.replace_from "s3://" "" 0 t.
Proof. reflexivity. Qed.

Lemma split_nonempty (sep : ascii) (s : string) : PyStr.split sep s <> [].
Proof.
  destruct s as [|c s]; simpl; [discriminate|].
  destruct (Ascii.eqb c sep); [discriminate|].
  destruct (PyStr.split sep s); discriminate.
Qed.

Lemma split_app_sep (sep : ascii) (b k : string) :
  PyStr.has_char sep b = false ->
  PyStr.split sep (b ++ String sep k) = b :: PyStr.split sep k.
Proof.
  induction b as [|c b IH]; simpl; intros H.
  - now rewrite Ascii.eqb_refl.
  - apply orb_false_iff in H as [Hc Hb].
    rewrite Hc, (IH Hb). reflexivity.
Qed.

Lemma join_split (sep : ascii) (s : string) :
  PyStr.join (String sep "") (PyStr.split sep s) = s.
Proof.
  induction s as [|c s IH]; [reflexivity|].
  cbn [PyStr.split].
  destruct (Ascii.eqb c sep) eqn:E.
  - apply Ascii.eqb_eq in E; subst c.
    pose proof (split_nonempty sep s) as Hne.
    destruct (PyStr.split sep s) as [|w ws] eqn:Es; [now elim Hne|].
    cbn [PyStr.join] in *. now rewrite IH.
  - pose proof (split_nonempty sep s) as Hne.
    destruct (PyStr.split sep s) as [|w ws] eqn:Es; [now elim Hne|].
    cbn [PyStr.join] in *. destruct ws; simpl; now rewrite <- IH.
Qed.

(** The splitter on a URI built from a bucket without ['/'] and a key such
    that ["s3://"] does not occur in what follows the scheme. *)
Lemma split_s3_path_built (b k : string) :
  PyStr.has_char "/" b = false ->
  PyStr.contains "s3://" (b ++ "/" ++ k) = false ->
  split_s3_path ("s3://" ++ b ++ "/" ++ k) = Ok (b, k).
Proof.
  intros Hb Hc. unfold split_s3_path.
  rewrite replace_s3_prefix, (replace_from_absent _ _ _ Hc).
  change (b ++ "/" ++ k)%string with (b ++ String "/" k)%string.
  rewrite (split_app_sep _ _ _ Hb). cbn [list_pop0].
  now rewrite (join_split "/" k).
Qed.

End StringFacts.

(** ** [max] and [json.dumps] *)

(** [max(l, key=key)]: the first element whose key is not exceeded by a later
    one; [ValueError] on an empty sequence. *)
Definition py_max {A : Type} (key : A -> Z) (l : list A) : outcome A :=
  match l with
  | [] => Raise (ValueError "max() arg is an empty sequence")
  | x :: rest =>
      Ok (fold_left (fun best y => if (key best <? key y)%Z then y else best)
                    rest x)
  end.

Module Json.

Definition quote : ascii := "034"%char.
Definition backslash : ascii := "092"%char.

Definition hex_digit (n : nat) : ascii :=
  nth n (list_ascii_of_string "0123456789abcdef") "0"%char.

(** One character as [json.dumps] writes it inside a string literal
    ([ensure_ascii] left at its default): the printable ASCII characters but
    the quote and the backslash stand for themselves. *)
Definition escape_char (c : ascii) : string :=
  let n := nat_of_ascii c in
  if Ascii.eqb c quote then String backslash (String quote EmptyString)
  else if Ascii.eqb c backslash then String backslash (String backslash EmptyString)
  else if Nat.eqb n 8 then String backslash "b"
  else if Nat.eqb n 9 then String backslash "t"
  else if Nat.eqb n 10 then String backslash "n"
  else if Nat.eqb n 12 then String backslash "f"
  else if Nat.eqb n 13 then String backslash "r"
  else if (Nat.leb 32 n && Nat.leb n 126)%bool then String c EmptyString
  else String backslash
         (String "u" (String "0" (String "0"
            (String (hex_digit (n / 16)) (String (hex_digit (n mod 16)) EmptyString))))).

Fixpoint escape (s : string) : string :=
  match s with
  | EmptyString => EmptyString
  | String c s' => escape_char c ++ escape s'
  end.

Definition dumps_str (s : string) : string :=
  String quote (escape s ++ String quote EmptyString).

Fixpoint dumps_items (items : list (string * string)) : string :=
  match items with
  | [] => EmptyString
  | (k, v) :: rest =>
      dumps_str k ++ ": " ++ dumps_str v ++
      match rest with
      | [] => EmptyString
      | _ :: _ => ", " ++ dumps_items rest
      end
  end.

(** [json.dumps(d)] for a dict [d] of strings, in insertion order. *)
Definition dumps (d : list (string * string)) : string :=
  "{" ++ dumps_items d ++ "}".

End Json.

(** ** The model registry, as the resolver sees it *)

Record ModelPackageSummary : Type := {
  ModelPackageVersion : Z;
  ModelPackageArn : string;
  ModelApprovalStatus : string
}.

Record Container : Type := { ModelDataUrl : string }.

(** The part of a [describe_model_package] response that is read:
    [['InferenceSpecification']['Containers']]. *)
Record ModelPackageDescription : Type := { Containers : list Container }.

(** A SageMaker client object, for the two registry queries:
    [list_model_packages(ModelPackageGroupName, ModelApprovalStatus)] gives
    the response's [ModelPackageSummaryList]. *)
Record SageMakerClient : Type := {
  list_model_packages : string -> string -> list ModelPackageSummary;
  describe_model_package : string -> outcome ModelPackageDescription
}.

Definition bind_outcome {A B : Type} (o : outcome A) (k : A -> outcome B) : outcome B :=
  match o with
  | Ok a => k a
  | Raise e => Raise e
  | Diverge => Diverge
  end.

(** [l[0]] *)
Definition list_index0 {A : Type} (l : list A) : outcome A :=
  match l with
  | [] => Raise (IndexError "list index out of range")
  | x :: _ => Ok x
  end.

Section Resolver.

(** The notebook's globals that the two helpers read instead of their
    parameters. *)
Variable sm_client : SageMakerClient.
Variable model_package_group_name : string.

Definition get_latest_approved_s3_model_location
    (client : SageMakerClient) (model_package_group : string) : outcome string :=
  let response := list_model_packages client model_package_group_name "Approved" in
  bind_outcome (py_max ModelPackageVersion response) (fun latest_version =>
  bind_outcome (describe_model_package sm_client (ModelPackageArn latest_version)) (fun d =>
  bind_outcome (list_index0 (Containers d)) (fun c =>
  let model_artifact_location := ModelDataUrl c in
  Ok model_artifact_location))).

Definition get_latest_approved_model_version
    (client : SageMakerClient) (model_package_group : string) : outcome Z :=
  let response := list_model_packages client model_package_group_name "Approved" in
  bind_outcome (py_max ModelPackageVersion response) (fun latest_version =>
  Ok (ModelPackageVersion latest_version)).

End Resolver.

(** A registry holding a fixed set of model packages, and the client that
    answers from it the way the service's interface describes: the listing
    keeps the packages of the named group whose approval status is the one
    asked for, the description is looked up by ARN. *)
Record ModelPackage : Type := {
  mp_group : string;
  mp_version : Z;
  mp_arn : string;
  mp_status : string;
  mp_model_data_url : string
}.

Definition summary_of (p : ModelPackage) : ModelPackageSummary :=
  {| ModelPackageVersion := mp_version p;
     ModelPackageArn := mp_arn p;
     ModelApprovalStatus := mp_status p |}.

Definition listed (g st : string) (p : ModelPackage) : bool :=
  (String.eqb (mp_group p) g && String.eqb (mp_status p) st)%bool.

Definition registry_client (reg : list ModelPackage) : SageMakerClient :=
  {| list_model_packages := fun g st => map summary_of (filter (listed g st) reg);
     describe_model_package := fun arn =>
       match find (fun p => String.eqb (mp_arn p) arn) reg with
       | Some p => Ok {| Containers := [ {| ModelDataUrl := mp_model_data_url p |} ] |}
       | None => Raise (ClientError "ModelPackage does not exist")
       end |}.

(** ** Remote jobs: requests, responses, and what the notebook does to the
    outside *)

(** The fields read from a [describe_compilation_job] response;
    [S3ModelArtifacts] is [resp['ModelArtifacts']['S3ModelArtifacts']]. *)
Record CompilationJobDescription : Type := {
  CompilationJobStatus : string;
  S3ModelArtifacts : string
}.

Record EdgePackagingJobDescription : Type := {
  EdgePackagingJobStatus : string;
  ModelArtifact : string
}.

Record CreateCompilationJobRequest : Type := {
  cc_CompilationJobName : string;
  cc_RoleArn : string;
  cc_S3Uri : string;
  cc_DataInputConfig : string;
  cc_Framework : string;
  cc_S3OutputLocation : string;
  cc_Os : string;
  cc_Arch : string;
  cc_MaxRuntimeInSeconds : Z
}.

Record CreateEdgePackagingJobRequest : Type := {
  ep_EdgePackagingJobName : string;
  ep_CompilationJobName : string;
  ep_ModelName : string;
  ep_ModelVersion : string;
  ep_RoleArn : string;
  ep_S3OutputLocation : string
}.

Record CreateJobRequest : Type := {
  jobId : string;
  targets : list string;
  document : string;
  targetSelection : string
}.

Inductive event : Type :=
| CreateCompilationJob (r : CreateCompilationJobRequest)
| DescribeCompilationJob (name : string)
| CreateEdgePackagingJob (r : CreateEdgePackagingJobRequest)
| DescribeEdgePackagingJob (name : string)
| IotCreateJob (r : CreateJobRequest)
| Sleep (seconds : Z).

(** What the outside answers: the [n]-th status poll of each kind, the
    [n]-th reading of [int(time.time()*1000)], the [n]-th [uuid.uuid4()]. *)
Record World : Type := {
  compilation_status : nat -> CompilationJobDescription;
  packaging_status : nat -> EdgePackagingJobDescription;
  clock_ms : nat -> Z;
  uuid4 : nat -> string
}.

(** The names the deployment cells assign. *)
Inductive var : Type :=
| s3_model_artifact_location
| model_name
| compilation_job_name
| s3_compiled_model_artifact_location_fullpath
| edge_packaging_job_name
| model_version
| s3_packaged_model_artifact_location_fullpath
| model_bucket
| model_key.

Definition var_eqb (x y : var) : bool :=
  match x, y with
  | s3_model_artifact_location, s3_model_artifact_location
  | model_name, model_name
  | compilation_job_name, compilation_job_name
  | s3_compiled_model_artifact_location_fullpath,
    s3_compiled_model_artifact_location_fullpath
  | edge_packaging_job_name, edge_packaging_job_name
  | model_version, model_version
  | s3_packaged_model_artifact_location_fullpath,
    s3_packaged_model_artifact_location_fullpath
  | model_bucket, model_bucket
  | model_key, model_key => true
  | _, _ => false
  end.

Definition var_name (x : var) : string :=
  match x with
  | s3_model_artifact_location => "s3_model_artifact_location"
  | model_name => "model_name"
  | compilation_job_name => "compilation_job_name"
  | s3_compiled_model_artifact_location_fullpath =>
      "s3_compiled_model_artifact_location_fullpath"
  | edge_packaging_job_name => "edge_packaging_job_name"
  | model_version => "model_version"
  | s3_packaged_model_artifact_location_fullpath =>
      "s3_packaged_model_artifact_location_fullpath"
  | model_bucket => "model_bucket"
  | model_key => "model_key"
  end.

(** The kernel's namespace for those names, how many answers of each kind
    the outside has given, and the calls made so far, oldest first. *)
Record State : Type := {
  vars : var -> option string;
  compilation_polls : nat;
  packaging_polls : nat;
  clock_reads : nat;
  uuid_draws : nat;
  trace : list event
}.

Definition fresh_kernel : State :=
  {| vars := fun _ => None;
     compilation_polls := 0; packaging_polls := 0;
     clock_reads := 0; uuid_draws := 0;
     trace := [] |}.

(** A statement: it may change the state and then return, raise or never
    finish; the state reached is kept in each case. *)
Definition M (A : Type) : Type := State -> outcome A * State.

Definition ret {A : Type} (a : A) : M A := fun st => (Ok a, st).

Definition bind {A B : Type} (m : M A) (k : A -> M B) : M B :=
  fun st =>
    match m st with
    | (Ok a, st') => k a st'
    | (Raise e, st') => (Raise e, st')
    | (Diverge, st') => (Diverge, st')
    end.

Declare Scope py_scope.
Delimit Scope py_scope with py.
Notation "x <- m ;; k" := (bind m (fun x => k))
  (at level 100, m at next level, right associativity) : py_scope.
Notation "m ;; k" := (bind m (fun _ => k))
  (at level 100, right associativity) : py_scope.

Definition lift {A : Type} (o : outcome A) : M A := fun st => (o, st).

Definition get_var (x : var) : M string :=
  fun st =>
    match vars st x with
    | Some v => (Ok v, st)
    | None => (Raise (NameError (var_name x)), st)
    end.

(** The namespace after [x = v]. *)
Definition set_var (x : var) (v : string) (ns : var -> option string) :
    var -> option string :=
  fun y => if var_eqb x y then Some v else ns y.

Definition assign (x : var) (v : string) : M unit :=
  fun st =>
    (Ok tt,
     {| vars := set_var x v (vars st);
        compilation_polls := compilation_polls st;
        packaging_polls := packaging_polls st;
        clock_reads := clock_reads st;
        uuid_draws := uuid_draws st;
        trace := trace st |}).

Definition emit (e : event) : M unit :=
  fun st =>
    (Ok tt,
     {| vars := vars st;
        compilation_polls := compilation_polls st;
        packaging_polls := packaging_polls st;
        clock_reads := clock_reads st;
        uuid_draws := uuid_draws st;
        trace := trace st ++ [e] |}).

(** [time.sleep(seconds)] *)
Definition time_sleep (seconds : Z) : M unit := emit (Sleep seconds).

(** ['%s-%d' % (name, stamp)] *)
Definition format_job_name (name : string) (stamp : Z) : string :=
  name ++ "-" ++ PyStr.of_int stamp.

(** [status in ['STARTING', 'INPROGRESS']] *)
Definition in_progress (status : string) : bool :=
  (String.eqb status "STARTING" || String.eqb status "INPROGRESS")%bool.

(** ** The notebook *)

(** What the set-up cell obtains from the account and the user. *)
Record Config : Type := {
  PROJECT_NAME : string;
  account_id : string;
  region : string;
  role : string;
  sm_client : SageMakerClient
}.

Inductive run_mode : Type :=
| RunAll        (* stop at the first cell that raises *)
| CellByCell.   (* every cell is run, whatever the earlier ones did *)

Section Notebook.

Variable cfg : Config.
Variable env : World.

Open Scope py_scope.

Definition bucket_name : string :=
  "sm-edge-workshop-" ++ PROJECT_NAME cfg ++ "-" ++ account_id cfg.
Definition model_package_group_name : string :=
  "defect-detection-img-classification-" ++ PROJECT_NAME cfg.
Definition job_prefix : string := "defect-detection-img-classification".

Definition compilation_output_sub_folder : string :=
  "models/" ++ job_prefix ++ "/compilation-output".
Definition edgepackaging_output_sub_folder : string :=
  "models/" ++ job_prefix ++ "/edge-packaging-output".
Definition s3_compilation_output_location : string :=
  "s3://" ++ bucket_name ++ "/" ++ compilation_output_sub_folder.
Definition s3_edgepackaging_output_location : string :=
  "s3://" ++ bucket_name ++ "/" ++ edgepackaging_output_sub_folder.

(** [int(time.time()*1000)] *)
Definition time_ms : M Z :=
  fun st =>
    (Ok (clock_ms env (clock_reads st)),
     {| vars := vars st;
        compilation_polls := compilation_polls st;
        packaging_polls := packaging_polls st;
        clock_reads := S (clock_reads st);
        uuid_draws := uuid_draws st;
        trace := trace st |}).

(** [str(uuid.uuid4())] *)
Definition uuid_uuid4 : M string :=
  fun st =>
    (Ok (uuid4 env (uuid_draws st)),
     {| vars := vars st;
        compilation_polls := compilation_polls st;
        packaging_polls := packaging_polls st;
        clock_reads := clock_reads st;
        uuid_draws := S (uuid_draws st);
        trace := trace st |}).

Definition describe_compilation_job (name : string) : M CompilationJobDescription :=
  fun st =>
    (Ok (compilation_status env (compilation_polls st)),
     {| vars := vars st;
        compilation_polls := S (compilation_polls st);
        packaging_polls := packaging_polls st;
        clock_reads := clock_reads st;
        uuid_draws := uuid_draws st;
        trace := trace st ++ [DescribeCompilationJob name] |}).

Definition describe_edge_packaging_job (name : string) : M EdgePackagingJobDescription :=
  fun st =>
    (Ok (packaging_status env (packaging_polls st)),
     {| vars := vars st;
        compilation_polls := compilation_polls st;
        packaging_polls := S (packaging_polls st);
        clock_reads := clock_reads st;
        uuid_draws := uuid_draws st;
        trace := trace st ++ [DescribeEdgePackagingJob name] |}).

(** The [while True] loop of the compilation cell; [fuel] bounds the number
    of polls. *)
Fixpoint poll_compilation_job (fuel : nat) : M CompilationJobDescription :=
  match fuel with
  | O => lift Diverge
  | S fuel' =>
      name <- get_var compilation_job_name ;;
      resp <- describe_compilation_job name ;;
      if in_progress (CompilationJobStatus resp)
      then (time_sleep 5 ;; poll_compilation_job fuel')
      else ret resp
  end.

Fixpoint poll_edge_packaging_job (fuel : nat) : M EdgePackagingJobDescription :=
  match fuel with
  | O => lift Diverge
  | S fuel' =>
      name <- get_var edge_packaging_job_name ;;
      resp <- describe_edge_packaging_job name ;;
      if in_progress (EdgePackagingJobStatus resp)
      then (time_sleep 5 ;; poll_edge_packaging_job fuel')
      else ret resp
  end.

(** ['{"data": [1,3,224,224]}'] *)
Definition data_input_config : string :=
  "{" ++ String Json.quote ("data" ++ String Json.quote ": [1,3,224,224]}").

(** The keyword arguments of [create_compilation_job]. *)
Definition compilation_request (job uri : string) : CreateCompilationJobRequest :=
  {| cc_CompilationJobName := job;
     cc_RoleArn := role cfg;
     cc_S3Uri := uri;
     cc_DataInputConfig := data_input_config;
     cc_Framework := "MXNET";
     cc_S3OutputLocation := s3_compilation_output_location;
     cc_Os := "LINUX";
     cc_Arch := "X86_64";
     cc_MaxRuntimeInSeconds := 900 |}.

(** Cell "Run SageMaker Neo compilation job". *)
Definition cell_compilation (fuel : nat) : M unit :=
  loc <- lift (get_latest_approved_s3_model_location
                 (sm_client cfg) model_package_group_name
                 (sm_client cfg) model_package_group_name) ;;
  assign s3_model_artifact_location loc ;;
  assign model_name "img-classification" ;;
  name <- get_var model_name ;;
  stamp <- time_ms ;;
  assign compilation_job_name (format_job_name name stamp) ;;
  job <- get_var compilation_job_name ;;
  uri <- get_var s3_model_artifact_location ;;
  emit (CreateCompilationJob (compilation_request job uri)) ;;
  resp <- poll_compilation_job fuel ;;
  if String.eqb (CompilationJobStatus resp) "COMPLETED"
  then assign s3_compiled_model_artifact_location_fullpath (S3ModelArtifacts resp)
  else ret tt.

(** The keyword arguments of [create_edge_packaging_job]. *)
Definition edge_packaging_request (pjob cjob mname mversion : string) :
    CreateEdgePackagingJobRequest :=
  {| ep_EdgePackagingJobName := pjob;
     ep_CompilationJobName := cjob;
     ep_ModelName := mname;
     ep_ModelVersion := mversion;
     ep_RoleArn := role cfg;
     ep_S3OutputLocation := s3_edgepackaging_output_location |}.

(** Cell "Running the SageMaker Edge Packaging job". *)
Definition cell_edge_packaging (fuel : nat) : M unit :=
  name <- get_var model_name ;;
  stamp <- time_ms ;;
  assign edge_packaging_job_name (format_job_name name stamp) ;;
  version <- lift (get_latest_approved_model_version
                     model_package_group_name
                     (sm_client cfg) model_package_group_name) ;;
  assign model_version (PyStr.of_int version) ;;
  pjob <- get_var edge_packaging_job_name ;;
  cjob <- get_var compilation_job_name ;;
  mname <- get_var model_name ;;
  mversion <- get_var model_version ;;
  emit (CreateEdgePackagingJob (edge_packaging_request pjob cjob mname mversion)) ;;
  resp <- poll_edge_packaging_job fuel ;;
  if String.eqb (EdgePackagingJobStatus resp) "COMPLETED"
  then assign s3_packaged_model_artifact_location_fullpath (ModelArtifact resp)
  else ret tt.

(** Cell defining [split_s3_path] and splitting the packaged artifact's URI. *)
Definition cell_split : M unit :=
  path <- get_var s3_packaged_model_artifact_location_fullpath ;;
  bk <- lift (split_s3_path path) ;;
  assign model_bucket (fst bk) ;;
  assign model_key (snd bk).

Definition thing_group_arn : string :=
  "arn:aws:iot:" ++ region cfg ++ ":" ++ account_id cfg ++
  ":thinggroup/defect-detection-" ++ PROJECT_NAME cfg ++ "-group".

(** The dict handed to [json.dumps] in the last cell. *)
Definition job_document (mversion mname mbucket mkey : string) : list (string * string) :=
  [ ("type", "new_model");
    ("model_version", mversion);
    ("model_name", mname);
    ("model_package_bucket", mbucket);
    ("model_package_key", mkey) ].

(** The keyword arguments of [iot_client.create_job]. *)
Definition iot_job_request (id mversion mname mbucket mkey : string) : CreateJobRequest :=
  {| jobId := id;
     targets := [thing_group_arn];
     document := Json.dumps (job_document mversion mname mbucket mkey);
     targetSelection := "SNAPSHOT" |}.

(** Cell "Running IoT Job for deplyoment onto the edge". *)
Definition cell_iot_job : M unit :=
  id <- uuid_uuid4 ;;
  mversion <- get_var model_version ;;
  mname <- get_var model_name ;;
  mbucket <- get_var model_bucket ;;
  mkey <- get_var model_key ;;
  emit (IotCreateJob (iot_job_request id mversion mname mbucket mkey)).

(** Running cells in order. A cell that raises leaves the state it reached;
    a cell that never finishes ends the run. *)
Fixpoint run_cells (mode : run_mode) (cells : list (M unit)) (st : State) : State :=
  match cells with
  | [] => st
  | c :: rest =>
      match c st with
      | (Ok _, st') => run_cells mode rest st'
      | (Raise _, st') =>
          match mode with
          | RunAll => st'
          | CellByCell => run_cells mode rest st'
          end
      | (Diverge, st') => st'
      end
  end.

Definition deployment_cells (fuel : nat) : list (M unit) :=
  [cell_compilation fuel; cell_edge_packaging fuel; cell_split; cell_iot_job].

(** The deployment part of the notebook, on a fresh kernel. *)
Definition run_notebook (mode : run_mode) (fuel : nat) : State :=
  run_cells mode (deployment_cells fuel) fresh_kernel.

End Notebook.

(** ** Reading a trace *)

(** The calls of one polling loop that sees [n] in-progress answers before
    it leaves: [n] times a poll and a sleep of five seconds, then the last
    poll. *)
Definition polling (d : event) (n : nat) : list event :=
  concat (repeat [d; Sleep 5] n) ++ [d].

Arguments polling : simpl never.

(** [busy] holds at [start], ..., [start + n - 1] and fails at [start + n]. *)
Fixpoint first_exit (busy : nat -> bool) (start n : nat) : bool :=
  match n with
  | O => negb (busy start)
  | S n' => busy start && first_exit busy (S start) n'
  end.

Definition compilation_busy (env : World) (i : nat) : bool :=
  in_progress (CompilationJobStatus (compilation_status env i)).

Definition packaging_busy (env : World) (i : nat) : bool :=
  in_progress (EdgePackagingJobStatus (packaging_status env i)).

Fixpoint iot_jobs (t : list event) : list CreateJobRequest :=
  match t with
  | [] => []
  | IotCreateJob r :: t' => r :: iot_jobs t'
  | _ :: t' => iot_jobs t'
  end.

Fixpoint packaging_requests (t : list event) : list CreateEdgePackagingJobRequest :=
  match t with
  | [] => []
  | CreateEdgePackagingJob r :: t' => r :: packaging_requests t'
  | _ :: t' => packaging_requests t'
  end.

Definition is_poll (e : event) : bool :=
  match e with
  | DescribeCompilationJob _ | DescribeEdgePackagingJob _ | Sleep _ => true
  | _ => false
  end.

Section TraceFacts.

Lemma first_exit_spec (busy : nat -> bool) (n : nat) :
  forall start,
    first_exit busy start n = true <->
    (forall i, i < n -> busy (start + i) = true) /\ busy (start + n) = false.
Proof.
  induction n as [|n IH]; intros start; cbn [first_exit].
  - rewrite Nat.add_0_r, negb_true_iff. split.
    + intros H. split; [intros i Hi; lia | exact H].
    + now intros [_ H].
  - rewrite andb_true_iff, IH. split.
    + intros [H0 [Hlt Hn]]. split.
      * intros [|i] Hi; [now rewrite Nat.add_0_r|].
        rewrite Nat.add_succ_r. apply (Hlt i). lia.
      * now rewrite Nat.add_succ_r.
    + intros [Hlt Hn]. split; [|split].
      * specialize (Hlt 0). rewrite Nat.add_0_r in Hlt. apply Hlt. lia.
      * intros i Hi. specialize (Hlt (S i)).
        rewrite Nat.add_succ_r in Hlt. apply Hlt. lia.
      * now rewrite Nat.add_succ_r in Hn.
Qed.

Lemma iot_jobs_app (t u : list event) : iot_jobs (t ++ u) = iot_jobs t ++ iot_jobs u.
Proof.
  induction t as [|e t IH]; [reflexivity|].
  destruct e; cbn [iot_jobs app]; now rewrite IH.
Qed.

Lemma iot_jobs_In (r : CreateJobRequest) (t : list event) :
  In (IotCreateJob r) t <-> In r (iot_jobs t).
Proof.
  induction t as [|e t IH]; [reflexivity|].
  destruct e; cbn [iot_jobs In]; rewrite IH;
    (split; [intros [H|H]; [try discriminate H|] | intros H]); auto.
  - left. now injection H.
  - destruct H as [H|H]; [left; now subst | now right].
Qed.

Lemma polling_succ (d : event) (n : nat) :
  polling d (S n) = d :: Sleep 5 :: polling d n.
Proof. reflexivity. Qed.

Lemma iot_jobs_polling (d : event) (n : nat) :
  is_poll d = true -> iot_jobs (polling d n) = [].
Proof.
  intros Hd. induction n as [|n IH].
  - destruct d; try discriminate; reflexivity.
  - rewrite polling_succ.
    destruct d; try discriminate; cbn [iot_jobs]; exact IH.
Qed.

End TraceFacts.

(** ** The polling loops *)

Section LoopFacts.

Variable env : World.

(** If the answers first leave the in-progress statuses after [n] polls and
    the budget allows [n + 1] polls, the loop returns that answer, having
    polled [n + 1] times and slept five seconds between two polls. *)
Lemma poll_compilation_job_exits (n : nat) :
  forall fuel st name,
    vars st compilation_job_name = Some name ->
    first_exit (compilation_busy env) (compilation_polls st) n = true ->
    n < fuel ->
    poll_compilation_job env fuel st =
      (Ok (compilation_status env (compilation_polls st + n)),
       {| vars := vars st;
          compilation_polls := S (compilation_polls st + n);
          packaging_polls := packaging_polls st;
          clock_reads := clock_reads st;
          uuid_draws := uuid_draws st;
          trace := trace st ++ polling (DescribeCompilationJob name) n |}).
Proof.
  induction n as [|n IH]; intros fuel st name Hname Hexit Hfuel;
    (destruct fuel as [|fuel]; [lia|]);
    cbn [poll_compilation_job first_exit] in *;
    unfold bind, get_var; rewrite Hname;
    unfold describe_compilation_job; cbn [CompilationJobStatus].
  - apply negb_true_iff in Hexit. unfold compilation_busy in Hexit.
    rewrite Hexit. unfold ret. now rewrite Nat.add_0_r.
  - apply andb_true_iff in Hexit as [Hbusy Hexit].
    unfold compilation_busy in Hbusy. rewrite Hbusy.
    unfold time_sleep, emit. cbn.
    rewrite (IH fuel _ name); cbn; [|exact Hname|exact Hexit|lia].
    rewrite polling_succ, Nat.add_succ_r, <- !app_assoc. reflexivity.
Qed.

Lemma poll_edge_packaging_job_exits (n : nat) :
  forall fuel st name,
    vars st edge_packaging_job_name = Some name ->
    first_exit (packaging_busy env) (packaging_polls st) n = true ->
    n < fuel ->
    poll_edge_packaging_job env fuel st =
      (Ok (packaging_status env (packaging_polls st + n)),
       {| vars := vars st;
          compilation_polls := compilation_polls st;
          packaging_polls := S (packaging_polls st + n);
          clock_reads := clock_reads st;
          uuid_draws := uuid_draws st;
          trace := trace st ++ polling (DescribeEdgePackagingJob name) n |}).
Proof.
  induction n as [|n IH]; intros fuel st name Hname Hexit Hfuel;
    (destruct fuel as [|fuel]; [lia|]);
    cbn [poll_edge_packaging_job first_exit] in *;
    unfold bind, get_var; rewrite Hname;
    unfold describe_edge_packaging_job; cbn [EdgePackagingJobStatus].
  - apply negb_true_iff in Hexit. unfold packaging_busy in Hexit.
    rewrite Hexit. unfold ret. now rewrite Nat.add_0_r.
  - apply andb_true_iff in Hexit as [Hbusy Hexit].
    unfold packaging_busy in Hbusy. rewrite Hbusy.
    unfold time_sleep, emit. cbn.
    rewrite (IH fuel _ name); cbn; [|exact Hname|exact Hexit|lia].
    rewrite polling_succ, Nat.add_succ_r, <- !app_assoc. reflexivity.
Qed.

(** A loop that returns has seen the answers leave the in-progress statuses,
    within its budget, and returns the first answer that did. *)
Lemma poll_compilation_job_returns (fuel : nat) :
  forall st r st',
    poll_compilation_job env fuel st = (Ok r, st') ->
    exists n, n < fuel /\
      first_exit (compilation_busy env) (compilation_polls st) n = true /\
      r = compilation_status env (compilation_polls st + n).
Proof.
  induction fuel as [|fuel IH]; intros st r st' H; [discriminate|].
  cbn [poll_compilation_job] in H. unfold bind, get_var in H.
  destruct (vars st compilation_job_name) as [name|]; [|discriminate].
  unfold describe_compilation_job in H. cbn [CompilationJobStatus] in H.
  destruct (in_progress (CompilationJobStatus
              (compilation_status env (compilation_polls st)))) eqn:Hb.
  - unfold time_sleep, emit in H. cbn in H.
    apply IH in H as (n & Hn & Hexit & Hr). cbn in Hexit, Hr.
    exists (S n). split; [lia|]. cbn [first_exit].
    unfold compilation_busy at 1. rewrite Hb, Nat.add_succ_r. now split.
  - exists 0. split; [lia|]. cbn [first_exit].
    unfold compilation_busy. rewrite Hb, Nat.add_0_r.
    unfold ret in H. injection H as H _. now split.
Qed.

Lemma poll_edge_packaging_job_returns (fuel : nat) :
  forall st r st',
    poll_edge_packaging_job env fuel st = (Ok r, st') ->
    exists n, n < fuel /\
      first_exit (packaging_busy env) (packaging_polls st) n = true /\
      r = packaging_status env (packaging_polls st + n).
Proof.
  induction fuel as [|fuel IH]; intros st r st' H; [discriminate|].
  cbn [poll_edge_packaging_job] in H. unfold bind, get_var in H.
  destruct (vars st edge_packaging_job_name) as [name|]; [|discriminate].
  unfold describe_edge_packaging_job in H. cbn [EdgePackagingJobStatus] in H.
  destruct (in_progress (EdgePackagingJobStatus
              (packaging_status env (packaging_polls st)))) eqn:Hb.
  - unfold time_sleep, emit in H. cbn in H.
    apply IH in H as (n & Hn & Hexit & Hr). cbn in Hexit, Hr.
    exists (S n). split; [lia|]. cbn [first_exit].
    unfold packaging_busy at 1. rewrite Hb, Nat.add_succ_r. now split.
  - exists 0. split; [lia|]. cbn [first_exit].
    unfold packaging_busy. rewrite Hb, Nat.add_0_r.
    unfold ret in H. injection H as H _. now split.
Qed.

(** While every answer is an in-progress status the loop goes on: no budget
    makes it return. *)
Lemma poll_compilation_job_spins (fuel : nat) :
  forall st name,
    vars st compilation_job_name = Some name ->
    (forall i, compilation_busy env (compilation_polls st + i) = true) ->
    fst (poll_compilation_job env fuel st) = Diverge.
Proof.
  induction fuel as [|fuel IH]; intros st name Hname Hbusy; [reflexivity|].
  cbn [poll_compilation_job]. unfold bind, get_var. rewrite Hname.
  unfold describe_compilation_job. cbn [CompilationJobStatus].
  pose proof (Hbusy 0) as H0. rewrite Nat.add_0_r in H0.
  unfold compilation_busy in H0. rewrite H0.
  unfold time_sleep, emit. cbn.
  apply (IH _ name); cbn; [exact Hname|].
  intros i. specialize (Hbusy (S i)). now rewrite Nat.add_succ_r in Hbusy.
Qed.

Lemma poll_edge_packaging_job_spins (fuel : nat) :
  forall st name,
    vars st edge_packaging_job_name = Some name ->
    (forall i, packaging_busy env (packaging_polls st + i) = true) ->
    fst (poll_edge_packaging_job env fuel st) = Diverge.
Proof.
  induction fuel as [|fuel IH]; intros st name Hname Hbusy; [reflexivity|].
  cbn [poll_edge_packaging_job]. unfold bind, get_var. rewrite Hname.
  unfold describe_edge_packaging_job. cbn [EdgePackagingJobStatus].
  pose proof (Hbusy 0) as H0. rewrite Nat.add_0_r in H0.
  unfold packaging_busy in H0. rewrite H0.
  unfold time_sleep, emit. cbn.
  apply (IH _ name); cbn; [exact Hname|].
  intros i. specialize (Hbusy (S i)). now rewrite Nat.add_succ_r in Hbusy.
Qed.

End LoopFacts.

(** ** The resolver *)

Section ResolverFacts.

Lemma fold_max_spec {A : Type} (key : A -> Z) (rest : list A) :
  forall x,
    let m := fold_left (fun best y => if (key best <? key y)%Z then y else best) rest x in
    In m (x :: rest) /\ forall y, In y (x :: rest) -> (key y <= key m)%Z.
Proof.
  induction rest as [|z rest IH]; intros x; cbn [fold_left].
  - split; [now left|]. intros y [<-|[]]. lia.
  - destruct (key x <? key z)%Z eqn:E.
    + destruct (IH z) as [Hin Hmax]. split.
      * right. exact Hin.
      * intros y [<-|Hy]; [|now apply Hmax].
        apply Z.ltb_lt in E. specialize (Hmax z (or_introl eq_refl)). lia.
    + destruct (IH x) as [Hin Hmax]. split.
      * destruct Hin as [<-|Hin]; [now left | right; now right].
      * intros y [<-|[<-|Hy]].
        -- apply Hmax. now left.
        -- apply Z.ltb_ge in E. specialize (Hmax x (or_introl eq_refl)). lia.
        -- apply Hmax. now right.
Qed.

(** [max] on a non-empty list returns one of its elements, of greatest key. *)
Lemma py_max_spec {A : Type} (key : A -> Z) (l : list A) :
  l <> [] ->
  exists m, py_max key l = Ok m /\ In m l /\ forall y, In y l -> (key y <= key m)%Z.
Proof.
  destruct l as [|x rest]; [congruence|]. intros _.
  eexists. split; [reflexivity|]. apply fold_max_spec.
Qed.

Lemma find_by_arn (reg : list ModelPackage) (p : ModelPackage) :
  NoDup (map mp_arn reg) -> In p reg ->
  find (fun q => String.eqb (mp_arn q) (mp_arn p)) reg = Some p.
Proof.
  induction reg as [|q reg IH]; intros Hnd Hin; [contradiction|].
  cbn [map] in Hnd. inversion Hnd as [|a l Hnotin Hnd']; subst.
  cbn [find]. destruct Hin as [->|Hin].
  - now rewrite String.eqb_refl.
  - destruct (String.eqb (mp_arn q) (mp_arn p)) eqn:E.
    + apply String.eqb_eq in E. elim Hnotin. rewrite E. now apply in_map.
    + now apply IH.
Qed.

Lemma listed_true (g st : string) (p : ModelPackage) :
  listed g st p = true <-> mp_group p = g /\ mp_status p = st.
Proof.
  unfold listed. now rewrite andb_true_iff, !String.eqb_eq.
Qed.

(** What both helpers compute against a registry whose listing is not
    empty: the package of greatest version among the approved packages of
    the group named by the global. *)
Lemma resolver_on_registry (reg : list ModelPackage) (gname g' : string) :
  NoDup (map mp_arn reg) ->
  list_model_packages (registry_client reg) gname "Approved" <> [] ->
  exists p,
    In p reg /\ mp_group p = gname /\ mp_status p = "Approved" /\
    (forall q, In q reg -> mp_group q = gname -> mp_status q = "Approved" ->
               (mp_version q <= mp_version p)%Z) /\
    get_latest_approved_s3_model_location
      (registry_client reg) gname (registry_client reg) g' = Ok (mp_model_data_url p) /\
    get_latest_approved_model_version gname (registry_client reg) g' = Ok (mp_version p).
Proof.
  intros Hnd Hne.
  destruct (py_max_spec ModelPackageVersion _ Hne) as (m & Hmax & Hin & Hge).
  cbn [list_model_packages registry_client] in Hin, Hge, Hmax.
  apply in_map_iff in Hin as (p & Hpm & Hp).
  apply filter_In in Hp as [Hp Hl]. apply listed_true in Hl as [Hg Hs].
  exists p. repeat split; try assumption.
  - intros q Hq Hqg Hqs.
    specialize (Hge (summary_of q)). rewrite <- Hpm in Hge. apply Hge.
    apply in_map, filter_In. split; [exact Hq|]. now apply listed_true.
  - unfold get_latest_approved_s3_model_location.
    cbn [list_model_packages registry_client]. rewrite Hmax.
    rewrite <- Hpm.
    cbn [bind_outcome describe_model_package registry_client
         summary_of ModelPackageArn].
    rewrite (find_by_arn reg p Hnd Hp). reflexivity.
  - unfold get_latest_approved_model_version.
    cbn [list_model_packages registry_client]. rewrite Hmax.
    cbn [bind_outcome]. now rewrite <- Hpm.
Qed.

(** What both helpers compute with any client whose listing is not empty:
    the first entry of greatest version in the listing, whatever else the
    entries say. *)
Lemma resolver_on_listing
    (smc client : SageMakerClient) (gname g' : string) :
  list_model_packages client gname "Approved" <> [] ->
  exists m,
    In m (list_model_packages client gname "Approved") /\
    (forall y, In y (list_model_packages client gname "Approved") ->
               (ModelPackageVersion y <= ModelPackageVersion m)%Z) /\
    get_latest_approved_model_version gname client g' = Ok (ModelPackageVersion m) /\
    get_latest_approved_s3_model_location smc gname client g' =
      bind_outcome (describe_model_package smc (ModelPackageArn m)) (fun d =>
      bind_outcome (list_index0 (Containers d)) (fun c => Ok (ModelDataUrl c))).
Proof.
  intros Hne.
  destruct (py_max_spec ModelPackageVersion _ Hne) as (m & Hmax & Hin & Hge).
  exists m. split; [exact Hin|]. split; [exact Hge|].
  unfold get_latest_approved_model_version, get_latest_approved_s3_model_location.
  rewrite Hmax. split; reflexivity.
Qed.

(** On an empty listing [max] raises, before any other request. *)
Lemma resolver_on_empty_listing
    (smc client : SageMakerClient) (gname g' : string) :
  list_model_packages client gname "Approved" = [] ->
  get_latest_approved_s3_model_location smc gname client g' =
    Raise (ValueError "max() arg is an empty sequence") /\
  get_latest_approved_model_version gname client g' =
    Raise (ValueError "max() arg is an empty sequence").
Proof.
  intros H. unfold get_latest_approved_s3_model_location,
    get_latest_approved_model_version. now rewrite H.
Qed.

(** A location can only be returned when a version is. *)
Lemma location_gives_version
    (smc client : SageMakerClient) (gname g1 g2 loc : string) :
  get_latest_approved_s3_model_location smc gname client g1 = Ok loc ->
  exists v, get_latest_approved_model_version gname client g2 = Ok v.
Proof.
  unfold get_latest_approved_s3_model_location, get_latest_approved_model_version.
  destruct (py_max _ _) as [m| |]; cbn [bind_outcome]; try discriminate.
  intros _. now eexists.
Qed.

End ResolverFacts.

(** ** The cells, when the outside cooperates *)

Definition completed (status : string) : bool := String.eqb status "COMPLETED".

(** [x = v] under [if b:]. *)
Definition set_var_if (b : bool) (x : var) (v : string) (ns : var -> option string) :
    var -> option string :=
  if b then set_var x v ns else ns.

Section CellFacts.

Variable cfg : Config.
Variable env : World.
Variable fuel : nat.

Lemma cell_compilation_runs (st : State) (loc : string) (nc : nat) :
  get_latest_approved_s3_model_location
    (sm_client cfg) (model_package_group_name cfg)
    (sm_client cfg) (model_package_group_name cfg) = Ok loc ->
  first_exit (compilation_busy env) (compilation_polls st) nc = true ->
  nc < fuel ->
  let cname := format_job_name "img-classification" (clock_ms env (clock_reads st)) in
  let last := compilation_status env (compilation_polls st + nc) in
  cell_compilation cfg env fuel st =
    (Ok tt,
     {| vars :=
          set_var_if (completed (CompilationJobStatus last))
            s3_compiled_model_artifact_location_fullpath (S3ModelArtifacts last)
            (set_var compilation_job_name cname
               (set_var model_name "img-classification"
                  (set_var s3_model_artifact_location loc (vars st))));
        compilation_polls := S (compilation_polls st + nc);
        packaging_polls := packaging_polls st;
        clock_reads := S (clock_reads st);
        uuid_draws := uuid_draws st;
        trace := trace st ++
                 CreateCompilationJob (compilation_request cfg cname loc) ::
                 polling (DescribeCompilationJob cname) nc |}).
Proof.
  intros Hloc Hexit Hfuel cname last.
  unfold cell_compilation, bind at 1, lift. rewrite Hloc.
  unfold bind, assign, get_var, time_ms, emit.
  cbn [vars set_var var_eqb clock_reads compilation_polls packaging_polls
       uuid_draws trace].
  rewrite (poll_compilation_job_exits env nc fuel _ cname);
    [|reflexivity|exact Hexit|exact Hfuel].
  cbn [vars set_var var_eqb clock_reads compilation_polls packaging_polls
       uuid_draws trace].
  fold last. unfold set_var_if, completed, ret.
  destruct (String.eqb (CompilationJobStatus last) "COMPLETED");
    cbn [vars set_var var_eqb clock_reads compilation_polls packaging_polls
         uuid_draws trace];
    rewrite <- app_assoc; reflexivity.
Qed.

Lemma cell_edge_packaging_runs (st : State) (v : Z) (np : nat) (mname cjob : string) :
  vars st model_name = Some mname ->
  vars st compilation_job_name = Some cjob ->
  get_latest_approved_model_version
    (model_package_group_name cfg)
    (sm_client cfg) (model_package_group_name cfg) = Ok v ->
  first_exit (packaging_busy env) (packaging_polls st) np = true ->
  np < fuel ->
  let pname := format_job_name mname (clock_ms env (clock_reads st)) in
  let last := packaging_status env (packaging_polls st + np) in
  cell_edge_packaging cfg env fuel st =
    (Ok tt,
     {| vars :=
          set_var_if (completed (EdgePackagingJobStatus last))
            s3_packaged_model_artifact_location_fullpath (ModelArtifact last)
            (set_var model_version (PyStr.of_int v)
               (set_var edge_packaging_job_name pname (vars st)));
        compilation_polls := compilation_polls st;
        packaging_polls := S (packaging_polls st + np);
        clock_reads := S (clock_reads st);
        uuid_draws := uuid_draws st;
        trace := trace st ++
                 CreateEdgePackagingJob
                   (edge_packaging_request cfg pname cjob mname (PyStr.of_int v)) ::
                 polling (DescribeEdgePackagingJob pname) np |}).
Proof.
  intros Hm Hc Hv Hexit Hfuel pname last.
  unfold cell_edge_packaging, bind at 1, get_var. rewrite Hm.
  unfold bind at 1, time_ms. unfold bind at 1, assign.
  unfold bind at 1, lift. rewrite Hv.
  unfold bind, assign, get_var, emit.
  cbn [vars set_var var_eqb clock_reads compilation_polls packaging_polls
       uuid_draws trace].
  rewrite Hc.
  cbn [vars set_var var_eqb clock_reads compilation_polls packaging_polls
       uuid_draws trace].
  rewrite Hm.
  cbn [vars set_var var_eqb clock_reads compilation_polls packaging_polls
       uuid_draws trace].
  rewrite (poll_edge_packaging_job_exits env np fuel _ pname);
    [|reflexivity|exact Hexit|exact Hfuel].
  cbn [vars set_var var_eqb clock_reads compilation_polls packaging_polls
       uuid_draws trace].
  fold last. unfold set_var_if, completed, ret.
  destruct (String.eqb (EdgePackagingJobStatus last) "COMPLETED");
    cbn [vars set_var var_eqb clock_reads compilation_polls packaging_polls
         uuid_draws trace];
    rewrite <- app_assoc; reflexivity.
Qed.

End CellFacts.

(** ** A whole run, when the resolver answers and both jobs end *)

(** [split_s3_path] never raises: the two components it returns. *)
Definition s3_bucket (path : string) : string :=
  match split_s3_path path with Ok (b, _) => b | _ => EmptyString end.

Definition s3_key (path : string) : string :=
  match split_s3_path path with Ok (_, k) => k | _ => EmptyString end.

Lemma split_s3_path_total (path : string) :
  split_s3_path path = Ok (s3_bucket path, s3_key path).
Proof.
  unfold s3_bucket, s3_key, split_s3_path.
  pose proof (split_nonempty "/" (PyStr.replace "s3://" EmptyString path)) as Hne.
  destruct (PyStr.split "/" (PyStr.replace "s3://" EmptyString path));
    [now elim Hne | reflexivity].
Qed.

(** The two job names of a run on a fresh kernel. *)
Definition compilation_name (env : World) : string :=
  format_job_name "img-classification" (clock_ms env 0).

Definition packaging_name (env : World) : string :=
  format_job_name "img-classification" (clock_ms env 1).

(** The IoT job of a run whose packaging job ended after [np] in-progress
    answers, for the resolved version [v]. *)
Definition dispatched_job (cfg : Config) (env : World) (v : Z) (np : nat) :
    CreateJobRequest :=
  let path := ModelArtifact (packaging_status env np) in
  iot_job_request cfg (uuid4 env 0) (PyStr.of_int v) "img-classification"
    (s3_bucket path) (s3_key path).

Definition submitted_compilation (cfg : Config) (env : World) (loc : string) : event :=
  CreateCompilationJob (compilation_request cfg (compilation_name env) loc).

Definition submitted_packaging (cfg : Config) (env : World) (v : Z) : event :=
  CreateEdgePackagingJob
    (edge_packaging_request cfg (packaging_name env) (compilation_name env)
       "img-classification" (PyStr.of_int v)).

Arguments split_s3_path : simpl never.
Arguments format_job_name : simpl never.
Arguments iot_job_request : simpl never.
Arguments compilation_request : simpl never.
Arguments edge_packaging_request : simpl never.

Section RunFacts.

Variable cfg : Config.
Variable env : World.
Variable mode : run_mode.
Variable fuel : nat.
Variable loc : string.
Variable v : Z.
Variables nc np : nat.

Hypothesis resolved_location :
  get_latest_approved_s3_model_location
    (sm_client cfg) (model_package_group_name cfg)
    (sm_client cfg) (model_package_group_name cfg) = Ok loc.
Hypothesis resolved_version :
  get_latest_approved_model_version
    (model_package_group_name cfg)
    (sm_client cfg) (model_package_group_name cfg) = Ok v.
Hypothesis compilation_ends : first_exit (compilation_busy env) 0 nc = true.
Hypothesis packaging_ends : first_exit (packaging_busy env) 0 np = true.
Hypothesis compilation_budget : nc < fuel.
Hypothesis packaging_budget : np < fuel.

Let last_c := compilation_status env nc.
Let last_p := packaging_status env np.

(** The state in which the third cell starts. *)
Lemma run_reaches_split :
  exists st,
    run_notebook cfg env mode fuel =
      run_cells mode [cell_split; cell_iot_job cfg env] st /\
    trace st = submitted_compilation cfg env loc ::
               polling (DescribeCompilationJob (compilation_name env)) nc ++
               submitted_packaging cfg env v ::
               polling (DescribeEdgePackagingJob (packaging_name env)) np /\
    uuid_draws st = 0 /\
    vars st =
      set_var_if (completed (EdgePackagingJobStatus last_p))
        s3_packaged_model_artifact_location_fullpath (ModelArtifact last_p)
        (set_var model_version (PyStr.of_int v)
           (set_var edge_packaging_job_name (packaging_name env)
              (set_var_if (completed (CompilationJobStatus last_c))
                 s3_compiled_model_artifact_location_fullpath (S3ModelArtifacts last_c)
                 (set_var compilation_job_name (compilation_name env)
                    (set_var model_name "img-classification"
                       (set_var s3_model_artifact_location loc (fun _ => None))))))).
Proof.
  unfold run_notebook, deployment_cells. cbn [run_cells].
  rewrite (cell_compilation_runs cfg env fuel fresh_kernel loc nc
             resolved_location compilation_ends compilation_budget).
  cbn [fresh_kernel vars compilation_polls packaging_polls clock_reads
       uuid_draws trace app Nat.add].
  erewrite (cell_edge_packaging_runs cfg env fuel _ v np
              "img-classification" (compilation_name env));
    [ | | | exact resolved_version | exact packaging_ends | exact packaging_budget ].
  - eexists. split; [reflexivity|]. cbn [trace uuid_draws vars Nat.add].
    repeat split; reflexivity.
  - cbn [vars]. unfold set_var_if.
    destruct (completed (CompilationJobStatus (compilation_status env nc)));
      reflexivity.
  - cbn [vars]. unfold set_var_if.
    destruct (completed (CompilationJobStatus (compilation_status env nc)));
      reflexivity.
Qed.

(** The calls of the whole run, and the names it leaves behind. *)
Lemma run_closed_form :
  let st := run_notebook cfg env mode fuel in
  trace st =
    submitted_compilation cfg env loc ::
    polling (DescribeCompilationJob (compilation_name env)) nc ++
    submitted_packaging cfg env v ::
    polling (DescribeEdgePackagingJob (packaging_name env)) np ++
    (if completed (EdgePackagingJobStatus last_p)
     then [IotCreateJob (dispatched_job cfg env v np)] else []) /\
  vars st compilation_job_name = Some (compilation_name env) /\
  vars st edge_packaging_job_name = Some (packaging_name env) /\
  vars st s3_compiled_model_artifact_location_fullpath =
    (if completed (CompilationJobStatus last_c)
     then Some (S3ModelArtifacts last_c) else None) /\
  vars st s3_packaged_model_artifact_location_fullpath =
    (if completed (EdgePackagingJobStatus last_p)
     then Some (ModelArtifact last_p) else None).
Proof.
  destruct run_reaches_split as (st2 & -> & Htrace & Huuid & Hvars).
  destruct st2 as [vs cp pp cr ud tr].
  cbn [trace uuid_draws vars] in Htrace, Huuid, Hvars. subst vs ud tr.
  unfold dispatched_job. fold last_p. unfold set_var_if.
  destruct (completed (EdgePackagingJobStatus last_p));
    destruct (completed (CompilationJobStatus last_c));
    destruct mode;
    cbv [run_cells cell_split cell_iot_job bind lift get_var assign emit
         uuid_uuid4 ret vars trace uuid_draws set_var var_eqb];
    rewrite ?split_s3_path_total;
    cbv [run_cells cell_split cell_iot_job bind lift get_var assign emit
         uuid_uuid4 ret vars trace uuid_draws set_var var_eqb fst snd];
    rewrite ?app_nil_r; cbn [app]; rewrite <- ?app_assoc; cbn [app];
    repeat split; reflexivity.
Qed.

End RunFacts.

(** ** Runs in which something goes wrong *)

Section LoopOutcomes.

Variable env : World.

(** A polling loop whose job name is bound either sees the answers leave
    the in-progress statuses within its budget, or exhausts the budget
    having made polls and sleeps only. *)
Lemma poll_compilation_job_outcome (fuel : nat) :
  forall st name,
    vars st compilation_job_name = Some name ->
    (exists n, n < fuel /\
       first_exit (compilation_busy env) (compilation_polls st) n = true) \/
    (exists st', poll_compilation_job env fuel st = (Diverge, st') /\
       iot_jobs (trace st') = iot_jobs (trace st)).
Proof.
  induction fuel as [|fuel IH]; intros st name Hname.
  - right. exists st. now split.
  - destruct (compilation_busy env (compilation_polls st)) eqn:Hb.
    + set (st1 := {| vars := vars st;
                     compilation_polls := S (compilation_polls st);
                     packaging_polls := packaging_polls st;
                     clock_reads := clock_reads st;
                     uuid_draws := uuid_draws st;
                     trace := (trace st ++ [DescribeCompilationJob name]) ++ [Sleep 5] |}).
      destruct (IH st1 name Hname) as [(n & Hn & Hexit)|(st' & E & Hiot)].
      * left. exists (S n). split; [lia|]. cbn [first_exit]. now rewrite Hb.
      * right. exists st'. split.
        -- cbn [poll_compilation_job]. unfold bind, get_var. rewrite Hname.
           unfold describe_compilation_job. cbn [CompilationJobStatus].
           unfold compilation_busy in Hb. rewrite Hb.
           unfold time_sleep, emit. cbn [vars compilation_polls packaging_polls
             clock_reads uuid_draws trace]. exact E.
        -- rewrite Hiot. unfold st1. cbn [trace].
           rewrite !iot_jobs_app. cbn [iot_jobs]. now rewrite !app_nil_r.
    + left. exists 0. split; [lia|]. cbn [first_exit]. now rewrite Hb.
Qed.

Lemma poll_edge_packaging_job_outcome (fuel : nat) :
  forall st name,
    vars st edge_packaging_job_name = Some name ->
    (exists n, n < fuel /\
       first_exit (packaging_busy env) (packaging_polls st) n = true) \/
    (exists st', poll_edge_packaging_job env fuel st = (Diverge, st') /\
       iot_jobs (trace st') = iot_jobs (trace st)).
Proof.
  induction fuel as [|fuel IH]; intros st name Hname.
  - right. exists st. now split.
  - destruct (packaging_busy env (packaging_polls st)) eqn:Hb.
    + set (st1 := {| vars := vars st;
                     compilation_polls := compilation_polls st;
                     packaging_polls := S (packaging_polls st);
                     clock_reads := clock_reads st;
                     uuid_draws := uuid_draws st;
                     trace := (trace st ++ [DescribeEdgePackagingJob name]) ++ [Sleep 5] |}).
      destruct (IH st1 name Hname) as [(n & Hn & Hexit)|(st' & E & Hiot)].
      * left. exists (S n). split; [lia|]. cbn [first_exit]. now rewrite Hb.
      * right. exists st'. split.
        -- cbn [poll_edge_packaging_job]. unfold bind, get_var. rewrite Hname.
           unfold describe_edge_packaging_job. cbn [EdgePackagingJobStatus].
           unfold packaging_busy in Hb. rewrite Hb.
           unfold time_sleep, emit. cbn [vars compilation_polls packaging_polls
             clock_reads uuid_draws trace]. exact E.
        -- rewrite Hiot. unfold st1. cbn [trace].
           rewrite !iot_jobs_app. cbn [iot_jobs]. now rewrite !app_nil_r.
    + left. exists 0. split; [lia|]. cbn [first_exit]. now rewrite Hb.
Qed.

End LoopOutcomes.

Section Cooperation.

Variable cfg : Config.
Variable env : World.
Variable fuel : nat.

(** The state in which the compilation cell starts polling. *)
Definition compilation_submitted (st : State) (loc : string) : State :=
  let cname := format_job_name "img-classification" (clock_ms env (clock_reads st)) in
  {| vars := set_var compilation_job_name cname
               (set_var model_name "img-classification"
                  (set_var s3_model_artifact_location loc (vars st)));
     compilation_polls := compilation_polls st;
     packaging_polls := packaging_polls st;
     clock_reads := S (clock_reads st);
     uuid_draws := uuid_draws st;
     trace := trace st ++ [CreateCompilationJob (compilation_request cfg cname loc)] |}.

Lemma cell_compilation_to_loop (st : State) (loc : string) :
  get_latest_approved_s3_model_location
    (sm_client cfg) (model_package_group_name cfg)
    (sm_client cfg) (model_package_group_name cfg) = Ok loc ->
  cell_compilation cfg env fuel st =
    bind (poll_compilation_job env fuel)
         (fun resp =>
            if String.eqb (CompilationJobStatus resp) "COMPLETED"
            then assign s3_compiled_model_artifact_location_fullpath
                        (S3ModelArtifacts resp)
            else ret tt)
         (compilation_submitted st loc).
Proof.
  intros Hloc. unfold cell_compilation, bind at 1, lift. rewrite Hloc.
  reflexivity.
Qed.

(** The state in which the packaging cell starts polling. *)
Definition packaging_submitted (st : State) (v : Z) (mname cjob : string) : State :=
  let pname := format_job_name mname (clock_ms env (clock_reads st)) in
  {| vars := set_var model_version (PyStr.of_int v)
               (set_var edge_packaging_job_name pname (vars st));
     compilation_polls := compilation_polls st;
     packaging_polls := packaging_polls st;
     clock_reads := S (clock_reads st);
     uuid_draws := uuid_draws st;
     trace := trace st ++
              [CreateEdgePackagingJob
                 (edge_packaging_request cfg pname cjob mname (PyStr.of_int v))] |}.

Lemma cell_edge_packaging_to_loop (st : State) (v : Z) (mname cjob : string) :
  vars st model_name = Some mname ->
  vars st compilation_job_name = Some cjob ->
  get_latest_approved_model_version
    (model_package_group_name cfg)
    (sm_client cfg) (model_package_group_name cfg) = Ok v ->
  cell_edge_packaging cfg env fuel st =
    bind (poll_edge_packaging_job env fuel)
         (fun resp =>
            if String.eqb (EdgePackagingJobStatus resp) "COMPLETED"
            then assign s3_packaged_model_artifact_location_fullpath
                        (ModelArtifact resp)
            else ret tt)
         (packaging_submitted st v mname cjob).
Proof.
  intros Hm Hc Hv.
  unfold cell_edge_packaging, bind at 1, get_var. rewrite Hm.
  unfold bind at 1, time_ms. unfold bind at 1, assign.
  unfold bind at 1, lift. rewrite Hv.
  unfold bind at 1, assign. unfold bind at 1, get_var.
  cbn [vars set_var var_eqb]. unfold bind at 1, get_var.
  cbn [vars set_var var_eqb]. rewrite Hc.
  unfold bind at 1, get_var. cbn [vars set_var var_eqb]. rewrite Hm.
  unfold bind at 1, get_var. cbn [vars set_var var_eqb].
  unfold bind at 1, emit. reflexivity.
Qed.

End Cooperation.

Section Safety.

Variable cfg : Config.
Variable env : World.
Variable mode : run_mode.
Variable fuel : nat.

(** An IoT job is only ever submitted by a run in which the resolver
    answered and both polling loops saw their job end. *)
Lemma dispatch_needs_cooperation :
  iot_jobs (trace (run_notebook cfg env mode fuel)) <> [] ->
  exists loc v nc np,
    get_latest_approved_s3_model_location
      (sm_client cfg) (model_package_group_name cfg)
      (sm_client cfg) (model_package_group_name cfg) = Ok loc /\
    get_latest_approved_model_version
      (model_package_group_name cfg)
      (sm_client cfg) (model_package_group_name cfg) = Ok v /\
    first_exit (compilation_busy env) 0 nc = true /\
    first_exit (packaging_busy env) 0 np = true /\
    nc < fuel /\ np < fuel.
Proof.
  intros H. unfold run_notebook, deployment_cells in H. cbn [run_cells] in H.
  destruct (get_latest_approved_s3_model_location
              (sm_client cfg) (model_package_group_name cfg)
              (sm_client cfg) (model_package_group_name cfg))
    as [loc|e|] eqn:Hloc.
  2,3: exfalso; apply H; unfold cell_compilation, bind at 1, lift;
       rewrite Hloc; destruct mode;
       cbv [run_cells cell_edge_packaging cell_split cell_iot_job bind lift
            get_var assign emit uuid_uuid4 ret vars trace uuid_draws set_var
            var_eqb fresh_kernel iot_jobs time_ms];
       reflexivity.
  destruct (location_gives_version _ _ _ _ (model_package_group_name cfg) _ Hloc)
    as [v Hv].
  destruct (poll_compilation_job_outcome env fuel
              (compilation_submitted cfg env fresh_kernel loc)
              (compilation_name env) eq_refl)
    as [(nc & Hnc & Hc)|(st' & E & Hiot)].
  2: { exfalso. apply H.
       rewrite (cell_compilation_to_loop cfg env fuel _ loc Hloc).
       unfold bind. rewrite E. cbn [run_cells]. rewrite Hiot. reflexivity. }
  cbn [compilation_submitted compilation_polls fresh_kernel] in Hc.
  rewrite (cell_compilation_runs cfg env fuel fresh_kernel loc nc Hloc Hc Hnc) in H.
  cbn [fresh_kernel vars compilation_polls packaging_polls clock_reads
       uuid_draws trace app Nat.add] in H.
  match type of H with
  | context [cell_edge_packaging cfg env fuel ?s] => set (st1 := s) in H
  end.
  assert (Hm : vars st1 model_name = Some "img-classification").
  { unfold st1, set_var_if. cbn [vars].
    destruct (completed _); reflexivity. }
  assert (Hcj : vars st1 compilation_job_name = Some (compilation_name env)).
  { unfold st1, set_var_if. cbn [vars].
    destruct (completed _); reflexivity. }
  destruct (poll_edge_packaging_job_outcome env fuel
              (packaging_submitted cfg env st1 v "img-classification"
                 (compilation_name env))
              (packaging_name env) eq_refl)
    as [(np & Hnp & Hp)|(st' & E & Hiot)].
  2: { exfalso. apply H.
       rewrite (cell_edge_packaging_to_loop cfg env fuel st1 v _ _ Hm Hcj Hv).
       unfold bind. rewrite E. cbn [run_cells]. rewrite Hiot.
       unfold packaging_submitted, st1. cbn [trace].
       rewrite iot_jobs_app. cbn [iot_jobs].
       now rewrite iot_jobs_polling. }
  exists loc, v, nc, np. repeat split; assumption.
Qed.

End Safety.

(** ** Nothing is ever taken back from the trace *)

Definition extends (st st' : State) : Prop :=
  exists l, trace st' = trace st ++ l.

Definition grows {A : Type} (m : M A) : Prop :=
  forall st, extends st (snd (m st)).

Section Growth.

Lemma extends_refl (st : State) : extends st st.
Proof. exists []. now rewrite app_nil_r. Qed.

Lemma extends_trans (a b c : State) : extends a b -> extends b c -> extends a c.
Proof.
  intros [l Hl] [l' Hl']. exists (l ++ l'). now rewrite Hl', Hl, app_assoc.
Qed.

Lemma grows_ret {A : Type} (a : A) : grows (ret a).
Proof. intros st. apply extends_refl. Qed.

Lemma grows_lift {A : Type} (o : outcome A) : grows (lift o).
Proof. intros st. apply extends_refl. Qed.

Lemma grows_get_var (x : var) : grows (get_var x).
Proof.
  intros st. unfold get_var. destruct (vars st x); apply extends_refl.
Qed.

Lemma grows_assign (x : var) (v : string) : grows (assign x v).
Proof. intros st. exists []. cbn. now rewrite app_nil_r. Qed.

Lemma grows_emit (e : event) : grows (emit e).
Proof. intros st. now exists [e]. Qed.

Lemma grows_time_sleep (s : Z) : grows (time_sleep s).
Proof. apply grows_emit. Qed.

Lemma grows_time_ms (env : World) : grows (time_ms env).
Proof. intros st. exists []. cbn. now rewrite app_nil_r. Qed.

Lemma grows_uuid_uuid4 (env : World) : grows (uuid_uuid4 env).
Proof. intros st. exists []. cbn. now rewrite app_nil_r. Qed.

Lemma grows_describe_compilation_job (env : World) (name : string) :
  grows (describe_compilation_job env name).
Proof. intros st. now exists [DescribeCompilationJob name]. Qed.

Lemma grows_describe_edge_packaging_job (env : World) (name : string) :
  grows (describe_edge_packaging_job env name).
Proof. intros st. now exists [DescribeEdgePackagingJob name]. Qed.

Lemma grows_bind {A B : Type} (m : M A) (k : A -> M B) :
  grows m -> (forall a, grows (k a)) -> grows (bind m k).
Proof.
  intros Hm Hk st. unfold bind. specialize (Hm st).
  destruct (m st) as [[a|e|] st1]; cbn [snd] in *; [|exact Hm|exact Hm].
  eapply extends_trans; [exact Hm | apply Hk].
Qed.

Lemma grows_if {A : Type} (b : bool) (m m' : M A) :
  grows m -> grows m' -> grows (if b then m else m').
Proof. now destruct b. Qed.

End Growth.

Create HintDb grows discriminated.
#[export] Hint Resolve grows_ret grows_lift grows_get_var grows_assign grows_emit
  grows_time_sleep grows_time_ms grows_uuid_uuid4
  grows_describe_compilation_job grows_describe_edge_packaging_job : grows.

Ltac grows_tac :=
  repeat first
    [ apply grows_bind; [|intros ?]
    | apply grows_if
    | solve [auto with grows] ].

Section GrowthOfCells.

Variable cfg : Config.
Variable env : World.

Lemma grows_poll_compilation_job (fuel : nat) : grows (poll_compilation_job env fuel).
Proof.
  induction fuel as [|fuel IH]; cbn [poll_compilation_job]; grows_tac.
Qed.

Lemma grows_poll_edge_packaging_job (fuel : nat) :
  grows (poll_edge_packaging_job env fuel).
Proof.
  induction fuel as [|fuel IH]; cbn [poll_edge_packaging_job]; grows_tac.
Qed.

Lemma grows_cell_compilation (fuel : nat) : grows (cell_compilation cfg env fuel).
Proof.
  pose proof (grows_poll_compilation_job fuel).
  unfold cell_compilation. grows_tac.
Qed.

Lemma grows_cell_edge_packaging (fuel : nat) : grows (cell_edge_packaging cfg env fuel).
Proof.
  pose proof (grows_poll_edge_packaging_job fuel).
  unfold cell_edge_packaging. grows_tac.
Qed.

Lemma grows_cell_split : grows cell_split.
Proof. unfold cell_split. grows_tac. Qed.

Lemma grows_cell_iot_job : grows (cell_iot_job cfg env).
Proof. unfold cell_iot_job. grows_tac. Qed.

Lemma run_cells_extends (mode : run_mode) (cells : list (M unit)) :
  Forall grows cells -> forall st, extends st (run_cells mode cells st).
Proof.
  induction 1 as [|c rest Hc _ IH]; intros st; cbn [run_cells].
  - apply extends_refl.
  - specialize (Hc st). destruct (c st) as [[[]|e|] st1]; cbn [snd] in Hc.
    + eapply extends_trans; [exact Hc | apply IH].
    + destruct mode; [exact Hc|].
      eapply extends_trans; [exact Hc | apply IH].
    + exact Hc.
Qed.

(** The cells after the compilation cell keep what they find in the trace. *)
Lemma later_cells_extend (mode : run_mode) (fuel : nat) (st : State) :
  extends st
    (run_cells mode [cell_edge_packaging cfg env fuel; cell_split; cell_iot_job cfg env] st).
Proof.
  apply run_cells_extends.
  repeat constructor;
    auto using grows_cell_edge_packaging, grows_cell_split, grows_cell_iot_job.
Qed.

End GrowthOfCells.

(** ** More about runs *)

Section RunCorollaries.

Variable cfg : Config.
Variable env : World.
Variable mode : run_mode.
Variable fuel : nat.

Lemma run_cells_ok (c : M unit) (rest : list (M unit)) (st st' : State) :
  c st = (Ok tt, st') ->
  run_cells mode (c :: rest) st = run_cells mode rest st'.
Proof. intros E. cbn [run_cells]. now rewrite E. Qed.

Lemma run_cells_from (c : M unit) (rest : list (M unit)) (m : M unit)
    (st st0 : State) :
  c st = m st0 -> grows m -> Forall grows rest ->
  extends st0 (run_cells mode (c :: rest) st).
Proof.
  intros E Hm Hrest. cbn [run_cells]. rewrite E. specialize (Hm st0).
  destruct (m st0) as [[[]|e|] st1]; cbn [snd] in Hm.
  - eapply extends_trans; [exact Hm | now apply run_cells_extends].
  - destruct mode; [exact Hm|].
    eapply extends_trans; [exact Hm | now apply run_cells_extends].
  - exact Hm.
Qed.

(** Once the compilation loop has left, the packaging request follows its
    last poll, whatever status that poll reported. *)
Lemma run_submits_packaging (loc : string) (nc : nat) :
  get_latest_approved_s3_model_location
    (sm_client cfg) (model_package_group_name cfg)
    (sm_client cfg) (model_package_group_name cfg) = Ok loc ->
  first_exit (compilation_busy env) 0 nc = true ->
  nc < fuel ->
  exists v post,
    get_latest_approved_model_version
      (model_package_group_name cfg)
      (sm_client cfg) (model_package_group_name cfg) = Ok v /\
    trace (run_notebook cfg env mode fuel) =
      submitted_compilation cfg env loc ::
      polling (DescribeCompilationJob (compilation_name env)) nc ++
      submitted_packaging cfg env v :: post.
Proof.
  intros Hloc Hc Hnc.
  destruct (location_gives_version _ _ _ _ (model_package_group_name cfg) _ Hloc)
    as [v Hv].
  exists v. unfold run_notebook, deployment_cells.
  rewrite (run_cells_ok _ _ _ _
             (cell_compilation_runs cfg env fuel fresh_kernel loc nc Hloc Hc Hnc)).
  cbn [fresh_kernel vars compilation_polls packaging_polls clock_reads
       uuid_draws trace app Nat.add].
  match goal with
  | |- context [run_cells mode _ ?s] => set (st1 := s)
  end.
  assert (Hm : vars st1 model_name = Some "img-classification").
  { unfold st1, set_var_if. cbn [vars]. destruct (completed _); reflexivity. }
  assert (Hcj : vars st1 compilation_job_name = Some (compilation_name env)).
  { unfold st1, set_var_if. cbn [vars]. destruct (completed _); reflexivity. }
  destruct (run_cells_from (cell_edge_packaging cfg env fuel)
              [cell_split; cell_iot_job cfg env] _ st1 _
              (cell_edge_packaging_to_loop cfg env fuel st1 v _ _ Hm Hcj Hv))
    as [post Hpost].
  - pose proof (grows_poll_edge_packaging_job env fuel). grows_tac.
  - repeat constructor; auto using grows_cell_split, grows_cell_iot_job.
  - exists post. split; [exact Hv|]. rewrite Hpost.
    unfold packaging_submitted, st1. cbn [trace clock_reads].
    rewrite <- !app_assoc. reflexivity.
Qed.

Lemma run_iot_jobs (loc : string) (v : Z) (nc np : nat) :
  get_latest_approved_s3_model_location
    (sm_client cfg) (model_package_group_name cfg)
    (sm_client cfg) (model_package_group_name cfg) = Ok loc ->
  get_latest_approved_model_version
    (model_package_group_name cfg)
    (sm_client cfg) (model_package_group_name cfg) = Ok v ->
  first_exit (compilation_busy env) 0 nc = true ->
  first_exit (packaging_busy env) 0 np = true ->
  nc < fuel -> np < fuel ->
  iot_jobs (trace (run_notebook cfg env mode fuel)) =
    if completed (EdgePackagingJobStatus (packaging_status env np))
    then [dispatched_job cfg env v np] else [].
Proof.
  intros Hloc Hv Hc Hp Hnc Hnp.
  destruct (run_closed_form cfg env mode fuel loc v nc np Hloc Hv Hc Hp Hnc Hnp)
    as (-> & _).
  unfold submitted_compilation, submitted_packaging. cbn [iot_jobs].
  rewrite iot_jobs_app, iot_jobs_polling by reflexivity. cbn [iot_jobs app].
  rewrite iot_jobs_app, iot_jobs_polling by reflexivity. cbn [app].
  now destruct (completed _).
Qed.

(** With no approved package listed, the first cell raises at its first
    statement and no later cell gets to a request. *)
Lemma run_on_empty_listing :
  list_model_packages (sm_client cfg) (model_package_group_name cfg) "Approved" = [] ->
  trace (run_notebook cfg env mode fuel) = [].
Proof.
  intros H.
  destruct (resolver_on_empty_listing (sm_client cfg) (sm_client cfg)
              (model_package_group_name cfg) (model_package_group_name cfg) H)
    as [Hloc _].
  unfold run_notebook, deployment_cells. cbn [run_cells].
  unfold cell_compilation, bind at 1, lift. rewrite Hloc.
  destruct mode;
    cbv [run_cells cell_edge_packaging cell_split cell_iot_job bind lift
         get_var assign emit uuid_uuid4 ret vars trace uuid_draws set_var
         var_eqb fresh_kernel time_ms];
    reflexivity.
Qed.

End RunCorollaries.

Section Formatting.

Lemma string_app_inv_head (p a b : string) : (p ++ a = p ++ b)%string -> a = b.
Proof.
  induction p as [|c p IH]; cbn [String.append]; intros H; [exact H|].
  injection H as H. now apply IH.
Qed.

Lemma of_int_inj (a b : Z) : PyStr.of_int a = PyStr.of_int b -> a = b.
Proof.
  unfold PyStr.of_int. intros H.
  apply (f_equal NilEmpty.int_of_string) in H. rewrite !NilEmpty.isi in H.
  injection H as H. apply (f_equal Z.of_int) in H.
  now rewrite !DecimalZ.of_to in H.
Qed.

Lemma format_job_name_inj (name : string) (a b : Z) :
  format_job_name name a = format_job_name name b <-> a = b.
Proof.
  split; [|now intros ->]. unfold format_job_name. intros H.
  apply string_app_inv_head in H. apply (string_app_inv_head "-") in H.
  now apply of_int_inj.
Qed.

End Formatting.

(** ** More about [replace] *)

Section ReplaceLaws.

Lemma string_app_assoc (a b c : string) : ((a ++ b) ++ c = a ++ (b ++ c))%string.
Proof.
  induction a as [|x a IH]; cbn [String.append]; [reflexivity|now rewrite IH].
Qed.

Lemma string_app_length (a b : string) :
  String.length (a ++ b) = String.length a + String.length b.
Proof.
  induction a as [|x a IH]; cbn [String.append String.length]; [reflexivity|].
  now rewrite IH.
Qed.

(** [startswith] only looks at as many characters as the pattern has. *)
Lemma starts_with_app_long (p a b : string) :
  String.length p <= String.length a ->
  PyStr.starts_with p (a ++ b) = PyStr.starts_with p a.
Proof.
  revert a. induction p as [|x p IH]; intros a Hlen; [reflexivity|].
  destruct a as [|y a]; cbn [String.length] in Hlen; [lia|].
  cbn [String.append PyStr.starts_with]. rewrite IH by lia. reflexivity.
Qed.

(** An occurrence of ["s3://"] whose start is the first one is dropped, and
    the scan goes on behind it. *)
Lemma replace_drops_occurrence (u w : string) :
  PyStr.contains "s3://" (u ++ "s3:/") = false ->
  PyStr.replace "s3://" EmptyString (u ++ "s3://" ++ w) =
    (u ++ PyStr.replace "s3://" EmptyString w)%string.
Proof.
  unfold PyStr.replace. induction u as [|c u IH]; intros H; [reflexivity|].
  cbn [String.append] in H. apply contains_cons_false in H as [Hs Hc].
  cbn [String.append PyStr.replace_from].
  rewrite <- (starts_with_app_long "s3://" (String c (u ++ "s3:/")) ("/" ++ w))
    in Hs
    by (cbn [String.length]; rewrite string_app_length; cbn [String.length]; lia).
  cbn [String.append] in Hs. rewrite string_app_assoc in Hs.
  cbn [String.append] in Hs.
  match goal with
  | |- context [if PyStr.starts_with ?p ?s then _ else _] =>
      assert (E : PyStr.starts_with p s = false) by exact Hs
  end.
  rewrite E. f_equal. now apply IH.
Qed.

(** A bucket name without ['/'] and [':'] cannot take part in an occurrence
    of ["s3://"]. *)
Lemma starts_with_scheme_in_bucket (b k : string) :
  PyStr.has_char ":" b = false ->
  PyStr.starts_with "s3://" (b ++ "/" ++ k) = false.
Proof.
  intros H.
  destruct b as [|c1 [|c2 [|c3 b]]]; cbn [String.append PyStr.starts_with].
  - reflexivity.
  - now rewrite andb_false_r.
  - cbn. now rewrite !andb_false_r.
  - cbn [PyStr.has_char] in H.
    apply orb_false_iff in H as [_ H]. apply orb_false_iff in H as [_ H].
    apply orb_false_iff in H as [H _].
    rewrite (Ascii.eqb_sym ":" c3), H. now rewrite !andb_false_r.
Qed.

(** A name without [':'] holds no occurrence of ["s3://"]. *)
Lemma scheme_absent_from_bucket (b : string) :
  PyStr.has_char ":" b = false -> PyStr.contains "s3://" b = false.
Proof.
  intros Hb. induction b as [|c b IH]; [reflexivity|].
  cbn [PyStr.contains].
  assert (E : PyStr.starts_with "s3://" (String c b) = false).
  { destruct b as [|c2 [|c3 b']]; cbn [PyStr.starts_with].
    - now rewrite andb_false_r.
    - now rewrite !andb_false_r.
    - cbn [PyStr.has_char] in Hb.
      apply orb_false_iff in Hb as [_ Hb]. apply orb_false_iff in Hb as [_ Hb].
      apply orb_false_iff in Hb as [Hb _].
      rewrite (Ascii.eqb_sym ":" c3), Hb. now rewrite !andb_false_r. }
  rewrite E. apply IH. cbn [PyStr.has_char] in Hb.
  now apply orb_false_iff in Hb as [_ Hb].
Qed.

Lemma scheme_absent_from_plain_uri (b k : string) :
  PyStr.has_char ":" b = false ->
  PyStr.contains "s3://" k = false ->
  PyStr.contains "s3://" (b ++ "/" ++ k) = false.
Proof.
  intros Hb Hk. induction b as [|c b IH].
  - cbn. exact Hk.
  - cbn [PyStr.has_char] in Hb. apply orb_false_iff in Hb as [Hc Hb'].
    change (String c b ++ "/" ++ k)%string with (String c (b ++ "/" ++ k))%string.
    cbn [PyStr.contains].
    change (String c (b ++ "/" ++ k))%string with (String c b ++ "/" ++ k)%string.
    rewrite starts_with_scheme_in_bucket.
    + now apply IH.
    + cbn [PyStr.has_char]. now rewrite Hc, Hb'.
Qed.

End ReplaceLaws.

(** ** Concrete registries and outsides *)

Module Demo.

Definition group : string := "defect-detection-img-classification-demo".
Definition other_group : string := "defect-detection-img-classification-other".

Definition location (v : Z) : string :=
  "s3://models/v" ++ PyStr.of_int v ++ "/model.tar.gz".

Definition package (g : string) (v : Z) (status : string) : ModelPackage :=
  {| mp_group := g;
     mp_version := v;
     mp_arn := "arn:aws:sagemaker:model-package/" ++ g ++ "/" ++ PyStr.of_int v;
     mp_status := status;
     mp_model_data_url := location v |}.

(** Versions 1, 2 and 5 of one group; version 5 is not approved. *)
Definition registry : list ModelPackage :=
  [ package group 1 "Approved";
    package group 2 "Approved";
    package group 5 "PendingManualApproval" ].

(** The same, and a second group with an approved version 9. *)
Definition two_groups : list ModelPackage :=
  registry ++ [ package other_group 9 "Approved" ].

(** A group in which nothing is approved. *)
Definition unapproved : list ModelPackage :=
  [ package group 5 "PendingManualApproval" ].

Definition cfg_on (reg : list ModelPackage) : Config :=
  {| PROJECT_NAME := "demo";
     account_id := "123456789012";
     region := "eu-west-1";
     role := "arn:aws:iam::123456789012:role/sagemaker";
     sm_client := registry_client reg |}.

Definition cfg : Config := cfg_on registry.

(** Two in-progress answers and then [cs] for the compilation job, one and
    then [ps] for the packaging job; the clock advances by [tick]
    milliseconds from one reading to the next. *)
Definition env_with (tick : Z) (cs ps : string) : World :=
  {| compilation_status := fun n =>
       if Nat.ltb n 2
       then {| CompilationJobStatus := "INPROGRESS"; S3ModelArtifacts := EmptyString |}
       else {| CompilationJobStatus := cs;
               S3ModelArtifacts := "s3://bucket-x/compiled/model.tar.gz" |};
     packaging_status := fun n =>
       if Nat.ltb n 1
       then {| EdgePackagingJobStatus := "STARTING"; ModelArtifact := EmptyString |}
       else {| EdgePackagingJobStatus := ps;
               ModelArtifact := "s3://bucket-x/path/to/model.tar.gz" |};
     clock_ms := fun n => (1700000000000 + tick * Z.of_nat n)%Z;
     uuid4 := fun _ => "7c9e6679-7425-40de-944b-e07fc1f90ae7" |}.

Definition env : string -> string -> World := env_with 1.

End Demo.

(** ** The splitter *)

(** C6, beyond its example: a key that itself contains the scheme is not
    returned as it stands. *)
Lemma split_s3_path_scheme_in_key :
  split_s3_path ("s3://" ++ "bucket-x" ++ "/" ++ "s3://model.tar.gz")
    = Ok ("bucket-x", "model.tar.gz") /\
  split_s3_path ("s3://" ++ "bucket-x" ++ "/" ++ "s3://model.tar.gz")
    <> Ok ("bucket-x", "s3://model.tar.gz").
Proof. split; [reflexivity | discriminate]. Qed.

(** C6, as the code has it: [split_s3_path] maps the URI
    [s3://bucket-x/path/to/model.tar.gz] to the pair of [bucket-x] and
    [path/to/model.tar.gz]; and for every bucket name without ['/'] and [':']
    and every key in which ["s3://"] does not occur, it maps
    ["s3://" + bucket + "/" + key] to the bucket name and the key. *)
Theorem split_s3_path_bucket_key :
  split_s3_path "s3://bucket-x/path/to/model.tar.gz"
    = Ok ("bucket-x", "path/to/model.tar.gz") /\
  forall b k : string,
    PyStr.has_char "/" b = false ->
    PyStr.has_char ":" b = false ->
    PyStr.contains "s3://" k = false ->
    split_s3_path ("s3://" ++ b ++ "/" ++ k) = Ok (b, k).
Proof.
  split; [reflexivity|]. intros b k Hslash Hcolon Hk.
  apply split_s3_path_built; [exact Hslash|].
  now apply scheme_absent_from_plain_uri.
Qed.

Lemma split_s3_path_bucket_key_witness :
  split_s3_path ("s3://" ++ "sm-edge-workshop" ++ "/" ++ "models/a.tar.gz")
    = Ok ("sm-edge-workshop", "models/a.tar.gz").
Proof.
  apply (proj2 split_s3_path_bucket_key "sm-edge-workshop" "models/a.tar.gz");
    reflexivity.
Defined.

(** C10. [split_s3_path] removes occurrences of ["s3://"] wherever they
    start, not only at the front: an occurrence that is the first one from
    the start of [u] on is dropped and the removal goes on behind it. For
    every bucket name [b] (a name holds no ['/'] and no [':'], so ["s3://"]
    cannot occur in it) and every key [k] in which ["s3://"] does not occur,
    the URI ["s3://" + b + "/" + k] is split into [(b, k)], and joining the
    two results again as ["s3://" + bucket + "/" + key] gives the URI back.
    For the key ["data/s3://x"] the returned key differs from the key in
    the URI. *)
Theorem split_s3_path_removes_every_scheme :
  (forall u w : string,
     PyStr.contains "s3://" (u ++ "s3:/") = false ->
     PyStr.replace "s3://" EmptyString (u ++ "s3://" ++ w) =
       (u ++ PyStr.replace "s3://" EmptyString w)%string) /\
  (forall b k : string,
     PyStr.has_char "/" b = false ->
     PyStr.has_char ":" b = false ->
     PyStr.contains "s3://" k = false ->
     PyStr.contains "s3://" b = false /\
     split_s3_path ("s3://" ++ b ++ "/" ++ k) = Ok (b, k) /\
     ("s3://" ++ s3_bucket ("s3://" ++ b ++ "/" ++ k) ++ "/" ++
        s3_key ("s3://" ++ b ++ "/" ++ k) = "s3://" ++ b ++ "/" ++ k)%string) /\
  (exists b k k' : string,
     PyStr.has_char "/" b = false /\ PyStr.has_char ":" b = false /\
     PyStr.contains "s3://" k = true /\
     split_s3_path ("s3://" ++ b ++ "/" ++ k) = Ok (b, k') /\ k' <> k).
Proof.
  split; [exact replace_drops_occurrence|]. split.
  - intros b k Hslash Hcolon Hk.
    pose proof (scheme_absent_from_plain_uri b k Hcolon Hk) as Hbk.
    pose proof (split_s3_path_built b k Hslash Hbk) as E.
    split; [now apply scheme_absent_from_bucket|].
    split; [exact E|]. unfold s3_bucket, s3_key. now rewrite E.
  - exists "bucket-x", "data/s3://x", "data/x".
    repeat split; try reflexivity. discriminate.
Qed.

Lemma split_s3_path_removes_every_scheme_witness :
  PyStr.replace "s3://" EmptyString ("a/" ++ "s3://" ++ "b/s3://c") = "a/b/c" /\
  split_s3_path ("s3://" ++ "bucket-x" ++ "/" ++ "path/to/model.tar.gz")
    = Ok ("bucket-x", "path/to/model.tar.gz") /\
  ("s3://" ++
   s3_bucket ("s3://" ++ "bucket-x" ++ "/" ++ "path/to/model.tar.gz") ++ "/" ++
   s3_key ("s3://" ++ "bucket-x" ++ "/" ++ "path/to/model.tar.gz")
   = "s3://" ++ "bucket-x" ++ "/" ++ "path/to/model.tar.gz")%string.
Proof.
  destruct split_s3_path_removes_every_scheme as (Hdrop & Hsplit & _).
  split.
  - rewrite (Hdrop "a/" "b/s3://c"); reflexivity.
  - apply (Hsplit "bucket-x" "path/to/model.tar.gz"); reflexivity.
Defined.

(** ** The resolver's claims *)

(** C2, as stated: with nothing approved in the group, what the two
    helpers raise is the [ValueError] of [max] on an empty sequence. *)
Lemma resolver_raises_value_error_of_max :
  list_model_packages (registry_client Demo.unapproved) Demo.group "Approved" = [] /\
  get_latest_approved_s3_model_location
    (registry_client Demo.unapproved) Demo.group
    (registry_client Demo.unapproved) Demo.group
    = Raise (ValueError "max() arg is an empty sequence") /\
  get_latest_approved_model_version
    Demo.group (registry_client Demo.unapproved) Demo.group
    = Raise (ValueError "max() arg is an empty sequence").
Proof. repeat split; reflexivity. Qed.

(** C2, as the code has it: when the registry query for approved model
    packages returns an empty list, [get_latest_approved_s3_model_location]
    and [get_latest_approved_model_version] raise the [ValueError] that [max]
    raises on an empty sequence, whatever client and group they are given. *)
Theorem resolver_on_empty_listing_raises
    (smc client : SageMakerClient) (gname g' : string) :
  list_model_packages client gname "Approved" = [] ->
  get_latest_approved_s3_model_location smc gname client g' =
    Raise (ValueError "max() arg is an empty sequence") /\
  get_latest_approved_model_version gname client g' =
    Raise (ValueError "max() arg is an empty sequence").
Proof.
  intros H. exact (resolver_on_empty_listing smc client gname g' H).
Qed.

Lemma resolver_on_empty_listing_raises_witness :
  get_latest_approved_s3_model_location
    (registry_client Demo.unapproved) Demo.group
    (registry_client Demo.unapproved) Demo.group
    = Raise (ValueError "max() arg is an empty sequence") /\
  get_latest_approved_model_version
    Demo.group (registry_client Demo.unapproved) Demo.group
    = Raise (ValueError "max() arg is an empty sequence").
Proof.
  apply (resolver_on_empty_listing_raises
           (registry_client Demo.unapproved) (registry_client Demo.unapproved)
           Demo.group Demo.group).
  reflexivity.
Defined.

(** A client whose listing does not apply the approval filter: every package
    of the group is in the response, with its status. *)
Definition unfiltered_client (reg : list ModelPackage) : SageMakerClient :=
  {| list_model_packages := fun g _ =>
       map summary_of (filter (fun p => String.eqb (mp_group p) g) reg);
     describe_model_package := describe_model_package (registry_client reg) |}.

(** C3, as stated: the response holds the versions 1, 2 and 5, the last one
    not approved; the two helpers return version 5 and its location, not
    version 2, the greatest approved one. *)
Lemma resolver_returns_unapproved_version :
  let client := unfiltered_client Demo.registry in
  map ModelPackageVersion (list_model_packages client Demo.group "Approved")
    = [1; 2; 5]%Z /\
  map ModelApprovalStatus (list_model_packages client Demo.group "Approved")
    = ["Approved"; "Approved"; "PendingManualApproval"] /\
  get_latest_approved_model_version Demo.group client Demo.group = Ok 5%Z /\
  get_latest_approved_s3_model_location client Demo.group client Demo.group
    = Ok (Demo.location 5) /\
  Demo.location 5 <> Demo.location 2.
Proof. cbv zeta. repeat split; try reflexivity. discriminate. Qed.

(** C3, as the code has it: the two helpers ask the registry for the
    packages of the group with [ModelApprovalStatus='Approved'] and never
    read the status of an entry of the response. For every non-empty
    response they return the version number and (through
    [describe_model_package]) the artifact URI of an entry of greatest
    version number in the response. For every registry that applies the
    filter and whose listing of approved packages of the group is not empty,
    that is the artifact URI and the version number of a package of that
    group whose approval status is [Approved] and whose version number is
    greatest among such packages; for versions 1, 2 and 5 with 5 not
    approved, that is version 2 and its location, not version 5's. *)
Theorem resolver_returns_latest_approved :
  (forall (smc client : SageMakerClient) (gname g' : string),
     list_model_packages client gname "Approved" <> [] ->
     exists m,
       In m (list_model_packages client gname "Approved") /\
       (forall y, In y (list_model_packages client gname "Approved") ->
                  (ModelPackageVersion y <= ModelPackageVersion m)%Z) /\
       get_latest_approved_model_version gname client g'
         = Ok (ModelPackageVersion m) /\
       get_latest_approved_s3_model_location smc gname client g' =
         bind_outcome (describe_model_package smc (ModelPackageArn m)) (fun d =>
         bind_outcome (list_index0 (Containers d)) (fun c => Ok (ModelDataUrl c)))) /\
  (forall (reg : list ModelPackage) (gname g' : string),
     NoDup (map mp_arn reg) ->
     list_model_packages (registry_client reg) gname "Approved" <> [] ->
     exists p,
       In p reg /\ mp_group p = gname /\ mp_status p = "Approved" /\
       (forall q, In q reg -> mp_group q = gname -> mp_status q = "Approved" ->
                  (mp_version q <= mp_version p)%Z) /\
       get_latest_approved_s3_model_location
         (registry_client reg) gname (registry_client reg) g'
         = Ok (mp_model_data_url p) /\
       get_latest_approved_model_version gname (registry_client reg) g'
         = Ok (mp_version p)) /\
  map mp_version Demo.registry = [1; 2; 5]%Z /\
  map mp_status Demo.registry = ["Approved"; "Approved"; "PendingManualApproval"] /\
  get_latest_approved_s3_model_location
    (registry_client Demo.registry) Demo.group
    (registry_client Demo.registry) Demo.group = Ok (Demo.location 2) /\
  get_latest_approved_model_version
    Demo.group (registry_client Demo.registry) Demo.group = Ok 2%Z /\
  Demo.location 2 <> Demo.location 5.
Proof.
  split; [exact resolver_on_listing|].
  split; [exact resolver_on_registry|].
  repeat split; try reflexivity. discriminate.
Qed.

Lemma resolver_returns_latest_approved_witness :
  exists p,
    In p Demo.two_groups /\ mp_group p = Demo.other_group /\
    mp_status p = "Approved" /\
    (forall q, In q Demo.two_groups -> mp_group q = Demo.other_group ->
               mp_status q = "Approved" -> (mp_version q <= mp_version p)%Z) /\
    get_latest_approved_s3_model_location
      (registry_client Demo.two_groups) Demo.other_group
      (registry_client Demo.two_groups) Demo.other_group
      = Ok (mp_model_data_url p) /\
    get_latest_approved_model_version
      Demo.other_group (registry_client Demo.two_groups) Demo.other_group
      = Ok (mp_version p).
Proof.
  apply (proj1 (proj2 resolver_returns_latest_approved)).
  - vm_compute. repeat constructor; cbn [In];
      intros H; repeat (destruct H as [H|H]; [discriminate H|]); exact H.
  - vm_compute. discriminate.
Defined.

(** C9: the results of [get_latest_approved_s3_model_location] and of
    [get_latest_approved_model_version] do not depend on the
    [model_package_group] argument: two calls with the same client and the
    same global [model_package_group_name] return the same result whatever
    group is passed; the group that is queried is the one the global names,
    as a registry with two groups shows. *)
Theorem resolver_ignores_group_argument :
  (forall (smc client : SageMakerClient) (gname g1 g2 : string),
     get_latest_approved_s3_model_location smc gname client g1 =
     get_latest_approved_s3_model_location smc gname client g2 /\
     get_latest_approved_model_version gname client g1 =
     get_latest_approved_model_version gname client g2) /\
  (let client := registry_client Demo.two_groups in
   get_latest_approved_model_version Demo.group client Demo.other_group = Ok 2%Z /\
   get_latest_approved_model_version Demo.other_group client Demo.other_group = Ok 9%Z /\
   get_latest_approved_s3_model_location client Demo.group client Demo.other_group
     = Ok (Demo.location 2) /\
   get_latest_approved_s3_model_location client Demo.other_group client Demo.other_group
     = Ok (Demo.location 9)).
Proof.
  split.
  - intros smc client gname g1 g2. split; reflexivity.
  - cbv zeta. repeat split; reflexivity.
Qed.

(** ** Runs on a kernel that is not fresh *)

Section RunsFromAnyKernel.

Variable cfg : Config.
Variable env : World.
Variable mode : run_mode.
Variable fuel : nat.

(** The calls that a run adds on a kernel in which neither
    [s3_packaged_model_artifact_location_fullpath] nor [model_bucket] is
    bound, whatever else it holds. *)
Lemma run_without_old_artifact (st : State) (loc : string) (v : Z) (nc np : nat) :
  vars st s3_packaged_model_artifact_location_fullpath = None ->
  vars st model_bucket = None ->
  get_latest_approved_s3_model_location
    (sm_client cfg) (model_package_group_name cfg)
    (sm_client cfg) (model_package_group_name cfg) = Ok loc ->
  get_latest_approved_model_version
    (model_package_group_name cfg)
    (sm_client cfg) (model_package_group_name cfg) = Ok v ->
  first_exit (compilation_busy env) (compilation_polls st) nc = true ->
  first_exit (packaging_busy env) (packaging_polls st) np = true ->
  nc < fuel -> np < fuel ->
  let cname := format_job_name "img-classification" (clock_ms env (clock_reads st)) in
  let pname := format_job_name "img-classification"
                 (clock_ms env (S (clock_reads st))) in
  let last := packaging_status env (packaging_polls st + np) in
  trace (run_cells mode (deployment_cells cfg env fuel) st) =
    trace st ++
    CreateCompilationJob (compilation_request cfg cname loc) ::
    polling (DescribeCompilationJob cname) nc ++
    CreateEdgePackagingJob
      (edge_packaging_request cfg pname cname "img-classification"
         (PyStr.of_int v)) ::
    polling (DescribeEdgePackagingJob pname) np ++
    (if completed (EdgePackagingJobStatus last)
     then [IotCreateJob
             (iot_job_request cfg (uuid4 env (uuid_draws st)) (PyStr.of_int v)
                "img-classification"
                (s3_bucket (ModelArtifact last)) (s3_key (ModelArtifact last)))]
     else []).
Proof.
  intros Hold Hmb Hloc Hv Hc Hp Hnc Hnp cname pname last.
  unfold deployment_cells.
  rewrite (run_cells_ok mode _ _ _ _
             (cell_compilation_runs cfg env fuel st loc nc Hloc Hc Hnc)).
  fold cname.
  match goal with
  | |- context [run_cells mode _ ?s] => set (st1 := s)
  end.
  assert (Hm : vars st1 model_name = Some "img-classification").
  { unfold st1, set_var_if. cbn [vars]. destruct (completed _); reflexivity. }
  assert (Hcj : vars st1 compilation_job_name = Some cname).
  { unfold st1, set_var_if. cbn [vars]. destruct (completed _); reflexivity. }
  rewrite (run_cells_ok mode _ _ _ _
             (cell_edge_packaging_runs cfg env fuel st1 v np _ _ Hm Hcj Hv Hp Hnp)).
  unfold st1. cbn [vars compilation_polls packaging_polls clock_reads
                   uuid_draws trace].
  fold pname last. unfold set_var_if, completed.
  destruct st as [vs cp pp cr ud tr]. cbn [vars trace uuid_draws] in *.
  destruct (String.eqb (EdgePackagingJobStatus last) "COMPLETED");
    destruct (String.eqb (CompilationJobStatus _) "COMPLETED");
    destruct mode;
    cbv [run_cells cell_split cell_iot_job bind lift get_var assign emit
         uuid_uuid4 ret vars trace uuid_draws set_var var_eqb];
    rewrite ?Hold;
    rewrite ?split_s3_path_total;
    cbv [run_cells cell_split cell_iot_job bind lift get_var assign emit
         uuid_uuid4 ret vars trace uuid_draws set_var var_eqb fst snd];
    rewrite ?Hmb;
    cbv [run_cells cell_split cell_iot_job bind lift get_var assign emit
         uuid_uuid4 ret vars trace uuid_draws set_var var_eqb fst snd];
    rewrite ?app_nil_r;
    rewrite <- ?app_assoc; cbn [app]; rewrite <- ?app_assoc; cbn [app];
    rewrite ?app_nil_r;
    reflexivity.
Qed.

End RunsFromAnyKernel.

(** ** The stages' claims *)

(** Splitting conjunctions only; closed goals are then evaluated. *)
Ltac conjuncts := repeat match goal with |- _ /\ _ => split end.
Ltac evaluate := vm_compute; reflexivity.

(** C1, as stated: the compilation job ends as [FAILED], the packaging job
    as [COMPLETED], and the IoT job is submitted. *)
Lemma dispatch_after_failed_compilation :
  let env := Demo.env "FAILED" "COMPLETED" in
  let st := run_notebook Demo.cfg env RunAll 10 in
  first_exit (compilation_busy env) 0 2 = true /\
  CompilationJobStatus (compilation_status env 2) = "FAILED" /\
  first_exit (packaging_busy env) 0 1 = true /\
  EdgePackagingJobStatus (packaging_status env 1) = "COMPLETED" /\
  iot_jobs (trace st) = [dispatched_job Demo.cfg env 2 1] /\
  In (IotCreateJob (dispatched_job Demo.cfg env 2 1)) (trace st).
Proof.
  cbv zeta. conjuncts; try evaluate.
  apply iot_jobs_In. vm_compute. now left.
Qed.

(** C1, as the code has it: on a kernel in which the names
    [s3_packaged_model_artifact_location_fullpath] and [model_bucket] are not
    bound, as on a fresh kernel, and in a run in which the resolver answers
    and both polling loops see their job end, an IoT job is among the calls
    that the run adds if and only if the edge-packaging job ended as
    [COMPLETED], whatever the status the compilation job ended with and in
    either way of running the cells; a packaging job that ends otherwise
    leaves no IoT job submitted. *)
Theorem dispatch_iff_packaging_completed
    (cfg : Config) (env : World) (mode : run_mode) (fuel : nat)
    (st : State) (loc : string) (nc np : nat) :
  vars st s3_packaged_model_artifact_location_fullpath = None ->
  vars st model_bucket = None ->
  get_latest_approved_s3_model_location
    (sm_client cfg) (model_package_group_name cfg)
    (sm_client cfg) (model_package_group_name cfg) = Ok loc ->
  first_exit (compilation_busy env) (compilation_polls st) nc = true ->
  first_exit (packaging_busy env) (packaging_polls st) np = true ->
  nc < fuel -> np < fuel ->
  exists added : list event,
    trace (run_cells mode (deployment_cells cfg env fuel) st) = trace st ++ added /\
    ((exists r, In (IotCreateJob r) added) <->
     EdgePackagingJobStatus (packaging_status env (packaging_polls st + np))
       = "COMPLETED").
Proof.
  intros Hold Hmb Hloc Hc Hp Hnc Hnp.
  destruct (location_gives_version _ _ _ _ (model_package_group_name cfg) _ Hloc)
    as [v Hv].
  pose proof (run_without_old_artifact cfg env mode fuel st loc v nc np
                Hold Hmb Hloc Hv Hc Hp Hnc Hnp) as E.
  cbv zeta in E. eexists. split; [exact E|].
  unfold completed. split.
  - intros [r Hr]. apply iot_jobs_In in Hr. cbn [iot_jobs] in Hr.
    rewrite iot_jobs_app, iot_jobs_polling in Hr by reflexivity.
    cbn [iot_jobs app] in Hr.
    rewrite iot_jobs_app, iot_jobs_polling in Hr by reflexivity.
    cbn [app] in Hr.
    destruct (String.eqb _ _) eqn:Es; [now apply String.eqb_eq|contradiction].
  - intros Hs. apply String.eqb_eq in Hs. rewrite Hs.
    eexists. right. apply in_or_app. right. right. apply in_or_app. right.
    now left.
Qed.

Lemma dispatch_iff_packaging_completed_witness :
  exists added : list event,
    trace (run_cells CellByCell
             (deployment_cells Demo.cfg (Demo.env "COMPLETED" "FAILED") 10)
             fresh_kernel) = trace fresh_kernel ++ added /\
    ((exists r, In (IotCreateJob r) added) <->
     EdgePackagingJobStatus
       (packaging_status (Demo.env "COMPLETED" "FAILED")
          (packaging_polls fresh_kernel + 1)) = "COMPLETED").
Proof.
  apply (dispatch_iff_packaging_completed Demo.cfg (Demo.env "COMPLETED" "FAILED")
           CellByCell 10 fresh_kernel (Demo.location 2) 2 1);
    [reflexivity | reflexivity | vm_compute; reflexivity | vm_compute; reflexivity
    | vm_compute; reflexivity | lia | lia].
Defined.

(** C4, as stated: the compilation loop leaves with [FAILED] and the
    packaging request is submitted right after the poll that said so. *)
Lemma packaging_submitted_after_failed_compilation :
  let env := Demo.env "FAILED" "COMPLETED" in
  let st := run_notebook Demo.cfg env RunAll 10 in
  CompilationJobStatus (compilation_status env 2) = "FAILED" /\
  exists post,
    trace st =
      submitted_compilation Demo.cfg env (Demo.location 2) ::
      polling (DescribeCompilationJob (compilation_name env)) 2 ++
      submitted_packaging Demo.cfg env 2 :: post.
Proof.
  cbv zeta. split; [vm_compute; reflexivity|].
  eexists. vm_compute. reflexivity.
Qed.

(** C4, as the code has it: in every run in which the resolver answers and
    the compilation polling loop leaves, be it with [FAILED] or any other
    status, the [create_edge_packaging_job] request is submitted right
    after the last compilation poll, and it names that compilation job. *)
Theorem packaging_submitted_whatever_compilation_status
    (cfg : Config) (env : World) (mode : run_mode) (fuel : nat)
    (loc : string) (nc : nat) :
  get_latest_approved_s3_model_location
    (sm_client cfg) (model_package_group_name cfg)
    (sm_client cfg) (model_package_group_name cfg) = Ok loc ->
  first_exit (compilation_busy env) 0 nc = true ->
  nc < fuel ->
  exists v r post,
    get_latest_approved_model_version
      (model_package_group_name cfg)
      (sm_client cfg) (model_package_group_name cfg) = Ok v /\
    trace (run_notebook cfg env mode fuel) =
      submitted_compilation cfg env loc ::
      polling (DescribeCompilationJob (compilation_name env)) nc ++
      CreateEdgePackagingJob r :: post /\
    ep_CompilationJobName r = compilation_name env /\
    ep_ModelVersion r = PyStr.of_int v.
Proof.
  intros Hloc Hc Hnc.
  destruct (run_submits_packaging cfg env mode fuel loc nc Hloc Hc Hnc)
    as (v & post & Hv & Htrace).
  exists v. eexists. exists post.
  split; [exact Hv|]. split; [exact Htrace|]. split; reflexivity.
Qed.

Lemma packaging_submitted_whatever_compilation_status_witness :
  exists v r post,
    get_latest_approved_model_version
      (model_package_group_name Demo.cfg)
      (sm_client Demo.cfg) (model_package_group_name Demo.cfg) = Ok v /\
    trace (run_notebook Demo.cfg (Demo.env "STOPPED" "FAILED") CellByCell 10) =
      submitted_compilation Demo.cfg (Demo.env "STOPPED" "FAILED") (Demo.location 2) ::
      polling (DescribeCompilationJob (compilation_name (Demo.env "STOPPED" "FAILED"))) 2 ++
      CreateEdgePackagingJob r :: post /\
    ep_CompilationJobName r = compilation_name (Demo.env "STOPPED" "FAILED") /\
    ep_ModelVersion r = PyStr.of_int v.
Proof.
  apply (packaging_submitted_whatever_compilation_status
           Demo.cfg (Demo.env "STOPPED" "FAILED") CellByCell 10 (Demo.location 2) 2);
    [vm_compute; reflexivity | vm_compute; reflexivity | lia].
Defined.

(** C5, as stated: with a clock that gives the same millisecond twice, the
    compilation job and the packaging job get the same name. *)
Lemma job_names_collide_within_a_millisecond :
  let env := Demo.env_with 0 "COMPLETED" "COMPLETED" in
  let st := run_notebook Demo.cfg env RunAll 10 in
  clock_ms env 0 = clock_ms env 1 /\
  vars st compilation_job_name = Some "img-classification-1700000000000" /\
  vars st edge_packaging_job_name = Some "img-classification-1700000000000".
Proof. cbv zeta. conjuncts; evaluate. Qed.

(** C5, as the code has it: both job names are the model name followed by
    ['-'] and the clock's millisecond reading, with no other suffix; in a run
    the compilation job name and the packaging job name are distinct if and
    only if the two clock readings differ. *)
Theorem job_names_differ_iff_clock_differs
    (cfg : Config) (env : World) (mode : run_mode) (fuel : nat)
    (loc : string) (nc np : nat) :
  get_latest_approved_s3_model_location
    (sm_client cfg) (model_package_group_name cfg)
    (sm_client cfg) (model_package_group_name cfg) = Ok loc ->
  first_exit (compilation_busy env) 0 nc = true ->
  first_exit (packaging_busy env) 0 np = true ->
  nc < fuel -> np < fuel ->
  let st := run_notebook cfg env mode fuel in
  vars st compilation_job_name =
    Some (format_job_name "img-classification" (clock_ms env 0)) /\
  vars st edge_packaging_job_name =
    Some (format_job_name "img-classification" (clock_ms env 1)) /\
  (format_job_name "img-classification" (clock_ms env 0) <>
   format_job_name "img-classification" (clock_ms env 1) <->
   clock_ms env 0 <> clock_ms env 1).
Proof.
  intros Hloc Hc Hp Hnc Hnp st.
  destruct (location_gives_version _ _ _ _ (model_package_group_name cfg) _ Hloc)
    as [v Hv].
  destruct (run_closed_form cfg env mode fuel loc v nc np Hloc Hv Hc Hp Hnc Hnp)
    as (_ & Hcn & Hpn & _).
  split; [exact Hcn|]. split; [exact Hpn|].
  now rewrite format_job_name_inj.
Qed.

Lemma job_names_differ_iff_clock_differs_witness :
  let st := run_notebook Demo.cfg (Demo.env "COMPLETED" "COMPLETED") RunAll 10 in
  vars st compilation_job_name =
    Some (format_job_name "img-classification"
            (clock_ms (Demo.env "COMPLETED" "COMPLETED") 0)) /\
  vars st edge_packaging_job_name =
    Some (format_job_name "img-classification"
            (clock_ms (Demo.env "COMPLETED" "COMPLETED") 1)) /\
  (format_job_name "img-classification"
     (clock_ms (Demo.env "COMPLETED" "COMPLETED") 0) <>
   format_job_name "img-classification"
     (clock_ms (Demo.env "COMPLETED" "COMPLETED") 1) <->
   clock_ms (Demo.env "COMPLETED" "COMPLETED") 0 <>
   clock_ms (Demo.env "COMPLETED" "COMPLETED") 1).
Proof.
  apply (job_names_differ_iff_clock_differs Demo.cfg
           (Demo.env "COMPLETED" "COMPLETED") RunAll 10 (Demo.location 2) 2 1);
    [vm_compute; reflexivity | vm_compute; reflexivity
    | vm_compute; reflexivity | lia | lia].
Defined.

(** C7, as stated: the compilation job ends as [FAILED]; the compilation
    cell returns without raising, its artifact variable stays unset, and the
    run goes on to submit the packaging request. *)
Lemma failed_compilation_surfaces_nothing :
  let env := Demo.env "FAILED" "COMPLETED" in
  let st := run_notebook Demo.cfg env RunAll 10 in
  CompilationJobStatus (compilation_status env 2) = "FAILED" /\
  fst (cell_compilation Demo.cfg env 10 fresh_kernel) = Ok tt /\
  vars st s3_compiled_model_artifact_location_fullpath = None /\
  packaging_requests (trace st) =
    [edge_packaging_request Demo.cfg (packaging_name env) (compilation_name env)
       "img-classification" "2"].
Proof. cbv zeta. conjuncts; evaluate. Qed.

(** C7, as the code has it. Each of the two job cells polls its job and
    sleeps five seconds after every in-progress answer; its loop returns
    exactly at the first answer whose status is neither [STARTING] nor
    [INPROGRESS] (a loop that returns has returned that answer), and never
    returns if there is no such answer. The cell's
    artifact variable is assigned only if that status is [COMPLETED], and
    then to the artifact location of that last answer; with any other
    status the variable is left as it was and the cell ends without
    raising. *)
Theorem polling_stages (cfg : Config) (env : World) (fuel : nat) :
  (forall (st : State) (loc : string) (nc : nat),
     get_latest_approved_s3_model_location
       (sm_client cfg) (model_package_group_name cfg)
       (sm_client cfg) (model_package_group_name cfg) = Ok loc ->
     first_exit (compilation_busy env) (compilation_polls st) nc = true ->
     nc < fuel ->
     let cname := format_job_name "img-classification"
                    (clock_ms env (clock_reads st)) in
     let last := compilation_status env (compilation_polls st + nc) in
     let st' := snd (cell_compilation cfg env fuel st) in
     fst (cell_compilation cfg env fuel st) = Ok tt /\
     trace st' = trace st ++
                 CreateCompilationJob (compilation_request cfg cname loc) ::
                 polling (DescribeCompilationJob cname) nc /\
     compilation_polls st' = S (compilation_polls st + nc) /\
     vars st' s3_compiled_model_artifact_location_fullpath =
       (if String.eqb (CompilationJobStatus last) "COMPLETED"
        then Some (S3ModelArtifacts last)
        else vars st s3_compiled_model_artifact_location_fullpath)) /\
  (forall (st : State) (v : Z) (np : nat) (mname cjob : string),
     vars st model_name = Some mname ->
     vars st compilation_job_name = Some cjob ->
     get_latest_approved_model_version
       (model_package_group_name cfg)
       (sm_client cfg) (model_package_group_name cfg) = Ok v ->
     first_exit (packaging_busy env) (packaging_polls st) np = true ->
     np < fuel ->
     let pname := format_job_name mname (clock_ms env (clock_reads st)) in
     let last := packaging_status env (packaging_polls st + np) in
     let st' := snd (cell_edge_packaging cfg env fuel st) in
     fst (cell_edge_packaging cfg env fuel st) = Ok tt /\
     trace st' = trace st ++
                 CreateEdgePackagingJob
                   (edge_packaging_request cfg pname cjob mname (PyStr.of_int v)) ::
                 polling (DescribeEdgePackagingJob pname) np /\
     packaging_polls st' = S (packaging_polls st + np) /\
     vars st' s3_packaged_model_artifact_location_fullpath =
       (if String.eqb (EdgePackagingJobStatus last) "COMPLETED"
        then Some (ModelArtifact last)
        else vars st s3_packaged_model_artifact_location_fullpath)) /\
  (forall (st st' : State) (r : CompilationJobDescription),
     poll_compilation_job env fuel st = (Ok r, st') ->
     exists n, n < fuel /\
       first_exit (compilation_busy env) (compilation_polls st) n = true /\
       r = compilation_status env (compilation_polls st + n)) /\
  (forall (st st' : State) (r : EdgePackagingJobDescription),
     poll_edge_packaging_job env fuel st = (Ok r, st') ->
     exists n, n < fuel /\
       first_exit (packaging_busy env) (packaging_polls st) n = true /\
       r = packaging_status env (packaging_polls st + n)) /\
  (forall (st : State) (name : string),
     vars st compilation_job_name = Some name ->
     (forall i, compilation_busy env (compilation_polls st + i) = true) ->
     fst (poll_compilation_job env fuel st) = Diverge) /\
  (forall (st : State) (name : string),
     vars st edge_packaging_job_name = Some name ->
     (forall i, packaging_busy env (packaging_polls st + i) = true) ->
     fst (poll_edge_packaging_job env fuel st) = Diverge).
Proof.
  split; [|split; [|split; [|split; [|split]]]].
  - intros st loc nc Hloc Hexit Hfuel cname last st'. subst st'.
    rewrite (cell_compilation_runs cfg env fuel st loc nc Hloc Hexit Hfuel).
    cbn [fst snd trace compilation_polls vars]. fold cname last.
    unfold set_var_if, completed.
    destruct (String.eqb (CompilationJobStatus last) "COMPLETED");
      repeat split; reflexivity.
  - intros st v np mname cjob Hm Hcj Hv Hexit Hfuel pname last st'. subst st'.
    rewrite (cell_edge_packaging_runs cfg env fuel st v np mname cjob
               Hm Hcj Hv Hexit Hfuel).
    cbn [fst snd trace packaging_polls vars]. fold pname last.
    unfold set_var_if, completed.
    destruct (String.eqb (EdgePackagingJobStatus last) "COMPLETED");
      repeat split; reflexivity.
  - intros st st' r. apply poll_compilation_job_returns.
  - intros st st' r. apply poll_edge_packaging_job_returns.
  - intros st name. apply poll_compilation_job_spins.
  - intros st name. apply poll_edge_packaging_job_spins.
Qed.

Lemma polling_stages_witness :
  fst (cell_compilation Demo.cfg (Demo.env "COMPLETED" "COMPLETED") 10 fresh_kernel)
    = Ok tt /\
  vars (snd (cell_compilation Demo.cfg (Demo.env "COMPLETED" "COMPLETED") 10
               fresh_kernel))
       s3_compiled_model_artifact_location_fullpath
    = Some "s3://bucket-x/compiled/model.tar.gz" /\
  fst (poll_compilation_job
         (Demo.env_with 1 "INPROGRESS" "COMPLETED") 10
         (compilation_submitted Demo.cfg (Demo.env_with 1 "INPROGRESS" "COMPLETED")
            fresh_kernel (Demo.location 2)))
    = Diverge.
Proof.
  destruct (polling_stages Demo.cfg (Demo.env "COMPLETED" "COMPLETED") 10)
    as (Hc & _).
  destruct (Hc fresh_kernel (Demo.location 2) 2) as (Hok & _ & _ & Hvar);
    [evaluate | evaluate | lia |].
  destruct (polling_stages Demo.cfg (Demo.env_with 1 "INPROGRESS" "COMPLETED") 10)
    as (_ & _ & _ & _ & Hspin & _).
  split; [exact Hok|]. split; [exact Hvar|].
  apply (Hspin _ (compilation_name (Demo.env_with 1 "INPROGRESS" "COMPLETED")));
    [evaluate|].
  intros i. unfold compilation_busy, Demo.env_with.
  cbn [compilation_status]. now destruct (Nat.ltb _ 2).
Defined.

(** An IoT job of a run on a fresh kernel: what its fields are made from. *)
Lemma iot_job_of_run
    (cfg : Config) (env : World) (mode : run_mode) (fuel : nat)
    (r : CreateJobRequest) :
  In (IotCreateJob r) (trace (run_notebook cfg env mode fuel)) ->
  exists (v : Z) (np : nat) (b k : string),
    get_latest_approved_model_version
      (model_package_group_name cfg)
      (sm_client cfg) (model_package_group_name cfg) = Ok v /\
    first_exit (packaging_busy env) 0 np = true /\
    EdgePackagingJobStatus (packaging_status env np) = "COMPLETED" /\
    split_s3_path (ModelArtifact (packaging_status env np)) = Ok (b, k) /\
    document r =
      Json.dumps [ ("type", "new_model");
                   ("model_version", PyStr.of_int v);
                   ("model_name", "img-classification");
                   ("model_package_bucket", b);
                   ("model_package_key", k) ] /\
    targetSelection r = "SNAPSHOT" /\
    targets r =
      [ ("arn:aws:iot:" ++ region cfg ++ ":" ++ account_id cfg ++
         ":thinggroup/defect-detection-" ++ PROJECT_NAME cfg ++ "-group")%string ] /\
    iot_jobs (trace (run_notebook cfg env mode fuel)) = [r].
Proof.
  intros Hin. apply iot_jobs_In in Hin.
  destruct (dispatch_needs_cooperation cfg env mode fuel)
    as (loc & v & nc & np & Hloc & Hv & Hc & Hp & Hnc & Hnp).
  { intros E. rewrite E in Hin. contradiction. }
  pose proof (run_iot_jobs cfg env mode fuel loc v nc np Hloc Hv Hc Hp Hnc Hnp) as E.
  rewrite E in Hin |- *. unfold completed in *.
  destruct (String.eqb _ _) eqn:Es; [|contradiction].
  destruct Hin as [<-|[]].
  exists v, np, (s3_bucket (ModelArtifact (packaging_status env np))),
    (s3_key (ModelArtifact (packaging_status env np))).
  split; [exact Hv|]. split; [exact Hp|].
  split; [now apply String.eqb_eq|].
  split; [apply split_s3_path_total|].
  repeat split; reflexivity.
Qed.

(** * Further properties of the deployment cells *)

(** ** The splitter on arbitrary input *)

Section SplitterShape.

Lemma split_head_has_no_sep (sep : ascii) (t : string) :
  exists b rest, PyStr.split sep t = b :: rest /\ PyStr.has_char sep b = false.
Proof.
  induction t as [|c t (b & rest & E & Hb)].
  - exists EmptyString, []. now split.
  - cbn [PyStr.split]. destruct (Ascii.eqb c sep) eqn:Ec.
    + exists EmptyString, (PyStr.split sep t). now split.
    + rewrite E. exists (String c b), rest. split; [reflexivity|].
      cbn [PyStr.has_char]. now rewrite Ec, Hb.
Qed.

Lemma has_char_app (c : ascii) (a b : string) :
  PyStr.has_char c (a ++ b) = (PyStr.has_char c a || PyStr.has_char c b)%bool.
Proof.
  induction a as [|x a IH]; cbn [String.append PyStr.has_char]; [reflexivity|].
  now rewrite IH, orb_assoc.
Qed.

(** X1. [split_s3_path] never raises. With [t] the input without its
    occurrences of ["s3://"]: the bucket is [t] up to its first ['/'] and
    the key is what follows that ['/'], empty when [t] has no ['/']. *)
Theorem split_s3_path_shape (s3_path : string) :
  let t := PyStr.replace "s3://" EmptyString s3_path in
  exists b k,
    split_s3_path s3_path = Ok (b, k) /\
    PyStr.has_char "/" b = false /\
    (if PyStr.has_char "/" t
     then t = (b ++ "/" ++ k)%string
     else b = t /\ k = EmptyString).
Proof.
  intros t. unfold split_s3_path. fold t.
  destruct (split_head_has_no_sep "/" t) as (b & rest & E & Hb).
  pose proof (join_split "/" t) as J. rewrite E in J |- *.
  cbn [list_pop0]. exists b, (PyStr.join "/" rest).
  split; [reflexivity|]. split; [exact Hb|].
  cbn [PyStr.join] in J. destruct rest as [|r rest].
  - subst t. rewrite <- J, Hb. now split.
  - rewrite <- J, has_char_app, Hb. reflexivity.
Qed.

(** X2. The scheme is optional: a path in which ["s3://"] does not occur is
    split the same way with and without the scheme in front. *)
Theorem split_s3_path_scheme_optional (p : string) :
  PyStr.contains "s3://" p = false ->
  split_s3_path ("s3://" ++ p) = split_s3_path p.
Proof.
  intros H. unfold split_s3_path.
  rewrite replace_s3_prefix. unfold PyStr.replace.
  now rewrite (replace_from_absent _ _ _ H).
Qed.

Lemma split_s3_path_scheme_optional_witness :
  split_s3_path ("s3://" ++ "bucket-x/path/to/model.tar.gz")
    = split_s3_path "bucket-x/path/to/model.tar.gz".
Proof.
  apply (split_s3_path_scheme_optional "bucket-x/path/to/model.tar.gz").
  reflexivity.
Defined.

End SplitterShape.

(** ** Every run, whatever the outside answers *)

(** [n] polls that were each answered by an in-progress status. *)
Definition waiting (d : event) (n : nat) : list event :=
  concat (repeat [d; Sleep 5] n).

Arguments waiting : simpl never.

Section Budget.

Variable env : World.

Lemma waiting_succ (d : event) (n : nat) :
  waiting d (S n) = d :: Sleep 5 :: waiting d n.
Proof. reflexivity. Qed.

Lemma waiting_In (d e : event) (n : nat) :
  In e (waiting d n) -> e = d \/ e = Sleep 5.
Proof.
  induction n as [|n IH]; [contradiction|]. rewrite waiting_succ.
  intros [<-|[<-|H]]; auto.
Qed.

(** Within a budget the answers either leave the in-progress statuses or
    are in progress throughout. *)
Lemma exit_or_busy (busy : nat -> bool) (fuel : nat) :
  forall start,
    (exists n, n < fuel /\ first_exit busy start n = true) \/
    (forall i, i < fuel -> busy (start + i) = true).
Proof.
  induction fuel as [|fuel IH]; intros start.
  - right. intros i Hi. lia.
  - destruct (busy start) eqn:Hb.
    + destruct (IH (S start)) as [(n & Hn & Hexit)|Hbusy].
      * left. exists (S n). split; [lia|]. cbn [first_exit]. now rewrite Hb.
      * right. intros [|i] Hi; [now rewrite Nat.add_0_r|].
        rewrite Nat.add_succ_r. apply Hbusy. lia.
    + left. exists 0. split; [lia|]. cbn [first_exit]. now rewrite Hb.
Qed.

(** A loop that is answered by in-progress statuses only uses up its budget
    polling and sleeping. *)
Lemma poll_compilation_job_exhausts (fuel : nat) :
  forall st name,
    vars st compilation_job_name = Some name ->
    (forall i, i < fuel -> compilation_busy env (compilation_polls st + i) = true) ->
    poll_compilation_job env fuel st =
      (Diverge,
       {| vars := vars st;
          compilation_polls := compilation_polls st + fuel;
          packaging_polls := packaging_polls st;
          clock_reads := clock_reads st;
          uuid_draws := uuid_draws st;
          trace := trace st ++ waiting (DescribeCompilationJob name) fuel |}).
Proof.
  induction fuel as [|fuel IH]; intros st name Hname Hbusy.
  - destruct st. cbn. unfold lift. now rewrite Nat.add_0_r, app_nil_r.
  - cbn [poll_compilation_job]. unfold bind, get_var. rewrite Hname.
    unfold describe_compilation_job. cbn [CompilationJobStatus].
    pose proof (Hbusy 0 (Nat.lt_0_succ _)) as H0. rewrite Nat.add_0_r in H0.
    unfold compilation_busy in H0. rewrite H0.
    unfold time_sleep, emit. cbn [vars compilation_polls packaging_polls
      clock_reads uuid_draws trace].
    rewrite (IH _ name); cbn [vars compilation_polls packaging_polls
      clock_reads uuid_draws trace].
    + rewrite waiting_succ, Nat.add_succ_r, <- !app_assoc. reflexivity.
    + exact Hname.
    + intros i Hi. specialize (Hbusy (S i)).
      rewrite Nat.add_succ_r in Hbusy. apply Hbusy. lia.
Qed.

Lemma poll_edge_packaging_job_exhausts (fuel : nat) :
  forall st name,
    vars st edge_packaging_job_name = Some name ->
    (forall i, i < fuel -> packaging_busy env (packaging_polls st + i) = true) ->
    poll_edge_packaging_job env fuel st =
      (Diverge,
       {| vars := vars st;
          compilation_polls := compilation_polls st;
          packaging_polls := packaging_polls st + fuel;
          clock_reads := clock_reads st;
          uuid_draws := uuid_draws st;
          trace := trace st ++ waiting (DescribeEdgePackagingJob name) fuel |}).
Proof.
  induction fuel as [|fuel IH]; intros st name Hname Hbusy.
  - destruct st. cbn. unfold lift. now rewrite Nat.add_0_r, app_nil_r.
  - cbn [poll_edge_packaging_job]. unfold bind, get_var. rewrite Hname.
    unfold describe_edge_packaging_job. cbn [EdgePackagingJobStatus].
    pose proof (Hbusy 0 (Nat.lt_0_succ _)) as H0. rewrite Nat.add_0_r in H0.
    unfold packaging_busy in H0. rewrite H0.
    unfold time_sleep, emit. cbn [vars compilation_polls packaging_polls
      clock_reads uuid_draws trace].
    rewrite (IH _ name); cbn [vars compilation_polls packaging_polls
      clock_reads uuid_draws trace].
    + rewrite waiting_succ, Nat.add_succ_r, <- !app_assoc. reflexivity.
    + exact Hname.
    + intros i Hi. specialize (Hbusy (S i)).
      rewrite Nat.add_succ_r in Hbusy. apply Hbusy. lia.
Qed.

End Budget.

Section RunShapes.

Variable cfg : Config.
Variable env : World.
Variable mode : run_mode.
Variable fuel : nat.

Lemma run_without_location :
  (forall loc,
     get_latest_approved_s3_model_location
       (sm_client cfg) (model_package_group_name cfg)
       (sm_client cfg) (model_package_group_name cfg) <> Ok loc) ->
  trace (run_notebook cfg env mode fuel) = [].
Proof.
  intros H. unfold run_notebook, deployment_cells. cbn [run_cells].
  unfold cell_compilation, bind at 1, lift.
  destruct (get_latest_approved_s3_model_location _ _ _ _) as [loc|e|];
    [now elim (H loc)| |];
    destruct mode;
    cbv [run_cells cell_edge_packaging cell_split cell_iot_job bind lift
         get_var assign emit uuid_uuid4 ret vars trace uuid_draws set_var
         var_eqb fresh_kernel time_ms];
    reflexivity.
Qed.

(** While the compilation job stays in progress the run only polls it. *)
Lemma run_waiting_for_compilation (loc : string) :
  get_latest_approved_s3_model_location
    (sm_client cfg) (model_package_group_name cfg)
    (sm_client cfg) (model_package_group_name cfg) = Ok loc ->
  (forall i, i < fuel -> compilation_busy env i = true) ->
  trace (run_notebook cfg env mode fuel) =
    submitted_compilation cfg env loc ::
    waiting (DescribeCompilationJob (compilation_name env)) fuel.
Proof.
  intros Hloc Hbusy. unfold run_notebook, deployment_cells. cbn [run_cells].
  rewrite (cell_compilation_to_loop cfg env fuel _ loc Hloc). unfold bind.
  rewrite (poll_compilation_job_exhausts env fuel _ (compilation_name env));
    [reflexivity | reflexivity | exact Hbusy].
Qed.

(** While the packaging job stays in progress the run only polls it. *)
Lemma run_waiting_for_packaging (loc : string) (v : Z) (nc : nat) :
  get_latest_approved_s3_model_location
    (sm_client cfg) (model_package_group_name cfg)
    (sm_client cfg) (model_package_group_name cfg) = Ok loc ->
  get_latest_approved_model_version
    (model_package_group_name cfg)
    (sm_client cfg) (model_package_group_name cfg) = Ok v ->
  first_exit (compilation_busy env) 0 nc = true ->
  nc < fuel ->
  (forall i, i < fuel -> packaging_busy env i = true) ->
  trace (run_notebook cfg env mode fuel) =
    submitted_compilation cfg env loc ::
    polling (DescribeCompilationJob (compilation_name env)) nc ++
    submitted_packaging cfg env v ::
    waiting (DescribeEdgePackagingJob (packaging_name env)) fuel.
Proof.
  intros Hloc Hv Hc Hnc Hbusy. unfold run_notebook, deployment_cells.
  rewrite (run_cells_ok mode _ _ _ _
             (cell_compilation_runs cfg env fuel fresh_kernel loc nc Hloc Hc Hnc)).
  cbn [fresh_kernel vars compilation_polls packaging_polls clock_reads
       uuid_draws trace app Nat.add].
  match goal with
  | |- context [run_cells mode _ ?s] => set (st1 := s)
  end.
  assert (Hm : vars st1 model_name = Some "img-classification").
  { unfold st1, set_var_if. cbn [vars]. destruct (completed _); reflexivity. }
  assert (Hcj : vars st1 compilation_job_name = Some (compilation_name env)).
  { unfold st1, set_var_if. cbn [vars]. destruct (completed _); reflexivity. }
  cbn [run_cells].
  rewrite (cell_edge_packaging_to_loop cfg env fuel st1 v _ _ Hm Hcj Hv).
  unfold bind.
  rewrite (poll_edge_packaging_job_exhausts env fuel _ (packaging_name env));
    [ | reflexivity | exact Hbusy ].
  unfold packaging_submitted, st1. cbn [trace clock_reads].
  rewrite <- !app_assoc. reflexivity.
Qed.

End RunShapes.

(** X3. A run on a fresh kernel, in either way of running the cells, for a
    registry that answers the two helpers in the same way throughout the run
    and job and IoT calls that do not raise. Whatever statuses the two job
    services report, the calls that the run makes to the job services and to
    the IoT service, and its sleeps (the registry queries are not part of
    the trace), have one of four shapes: none at all; the compilation
    request and polls of it that use up the budget; the compilation request,
    its polls up to the first answer that is not in progress, the packaging
    request and polls of it that use up the budget; or both requests with
    their polls up to the first such answer, followed by the IoT job if and
    only if the packaging job ended as [COMPLETED]. So none of the three
    create requests is made twice, a job is only polled after it was
    requested, the packaging request only follows a finished compilation
    poll, and the IoT job only a finished packaging poll. *)
Theorem run_call_order
    (cfg : Config) (env : World) (mode : run_mode) (fuel : nat) :
  let t := trace (run_notebook cfg env mode fuel) in
  t = [] \/
  (exists loc,
     t = submitted_compilation cfg env loc ::
         waiting (DescribeCompilationJob (compilation_name env)) fuel) \/
  (exists loc v nc,
     nc < fuel /\ first_exit (compilation_busy env) 0 nc = true /\
     t = submitted_compilation cfg env loc ::
         polling (DescribeCompilationJob (compilation_name env)) nc ++
         submitted_packaging cfg env v ::
         waiting (DescribeEdgePackagingJob (packaging_name env)) fuel) \/
  (exists loc v nc np,
     nc < fuel /\ first_exit (compilation_busy env) 0 nc = true /\
     np < fuel /\ first_exit (packaging_busy env) 0 np = true /\
     t = submitted_compilation cfg env loc ::
         polling (DescribeCompilationJob (compilation_name env)) nc ++
         submitted_packaging cfg env v ::
         polling (DescribeEdgePackagingJob (packaging_name env)) np ++
         (if String.eqb (EdgePackagingJobStatus (packaging_status env np)) "COMPLETED"
          then [IotCreateJob (dispatched_job cfg env v np)] else [])).
Proof.
  intros t. subst t.
  destruct (get_latest_approved_s3_model_location
              (sm_client cfg) (model_package_group_name cfg)
              (sm_client cfg) (model_package_group_name cfg))
    as [loc|e|] eqn:Hloc.
  2,3: left; apply run_without_location; intros loc; rewrite Hloc; discriminate.
  destruct (location_gives_version _ _ _ _ (model_package_group_name cfg) _ Hloc)
    as [v Hv].
  destruct (exit_or_busy (compilation_busy env) fuel 0) as [(nc & Hnc & Hc)|Hbusy].
  2: { right. left. exists loc.
       now apply run_waiting_for_compilation. }
  destruct (exit_or_busy (packaging_busy env) fuel 0) as [(np & Hnp & Hp)|Hbusy].
  2: { right. right. left. exists loc, v, nc. repeat split; try assumption.
       now apply run_waiting_for_packaging. }
  right. right. right. exists loc, v, nc, np.
  repeat split; try assumption.
  now destruct (run_closed_form cfg env mode fuel loc v nc np Hloc Hv Hc Hp Hnc Hnp)
    as (-> & _).
Qed.

(** X4. As long as the compilation job is reported as [STARTING] or
    [INPROGRESS], a run makes the compilation request and then only polls
    that job and sleeps, whatever its budget: no packaging request and no
    IoT job is submitted. *)
Theorem nothing_submitted_while_compiling
    (cfg : Config) (env : World) (mode : run_mode) (fuel : nat) (loc : string) :
  get_latest_approved_s3_model_location
    (sm_client cfg) (model_package_group_name cfg)
    (sm_client cfg) (model_package_group_name cfg) = Ok loc ->
  (forall i, compilation_busy env i = true) ->
  let t := trace (run_notebook cfg env mode fuel) in
  t = submitted_compilation cfg env loc ::
      waiting (DescribeCompilationJob (compilation_name env)) fuel /\
  packaging_requests t = [] /\ iot_jobs t = [] /\
  forall e, In e t ->
    e = submitted_compilation cfg env loc \/
    e = DescribeCompilationJob (compilation_name env) \/ e = Sleep 5.
Proof.
  intros Hloc Hbusy t.
  assert (E : t = submitted_compilation cfg env loc ::
                  waiting (DescribeCompilationJob (compilation_name env)) fuel).
  { apply run_waiting_for_compilation; [exact Hloc|]. intros i _. apply Hbusy. }
  assert (Hin : forall e, In e t ->
            e = submitted_compilation cfg env loc \/
            e = DescribeCompilationJob (compilation_name env) \/ e = Sleep 5).
  { rewrite E. intros e [<-|H]; [now left|]. right. now apply waiting_In in H. }
  split; [exact E|]. split; [|split; [|exact Hin]].
  - destruct (packaging_requests t) as [|r l] eqn:Er; [reflexivity|].
    exfalso. assert (Hr : In (CreateEdgePackagingJob r) t).
    { clear - Er. induction t as [|e t IH]; [discriminate|].
      destruct e; cbn [packaging_requests] in Er;
        try (right; now apply IH).
      injection Er as -> _. now left. }
    destruct (Hin _ Hr) as [H|[H|H]]; discriminate H.
  - destruct (iot_jobs t) as [|r l] eqn:Er; [reflexivity|].
    exfalso. assert (Hr : In (IotCreateJob r) t).
    { apply iot_jobs_In. rewrite Er. now left. }
    destruct (Hin _ Hr) as [H|[H|H]]; discriminate H.
Qed.

Lemma nothing_submitted_while_compiling_witness :
  let t := trace (run_notebook Demo.cfg (Demo.env "INPROGRESS" "COMPLETED")
                    CellByCell 7) in
  t = submitted_compilation Demo.cfg (Demo.env "INPROGRESS" "COMPLETED")
        (Demo.location 2) ::
      waiting (DescribeCompilationJob
                 (compilation_name (Demo.env "INPROGRESS" "COMPLETED"))) 7 /\
  packaging_requests t = [] /\ iot_jobs t = [] /\
  forall e, In e t ->
    e = submitted_compilation Demo.cfg (Demo.env "INPROGRESS" "COMPLETED")
          (Demo.location 2) \/
    e = DescribeCompilationJob
          (compilation_name (Demo.env "INPROGRESS" "COMPLETED")) \/
    e = Sleep 5.
Proof.
  apply (nothing_submitted_while_compiling Demo.cfg
           (Demo.env "INPROGRESS" "COMPLETED") CellByCell 7 (Demo.location 2)).
  - vm_compute. reflexivity.
  - intros i. unfold compilation_busy, Demo.env, Demo.env_with.
    cbn [compilation_status]. now destruct (Nat.ltb i 2).
Defined.

(** ** What a failed packaging job looks like downstream *)

(** X5. On a fresh kernel, when the resolver answers, both jobs end and the
    packaging job ends with any status but [COMPLETED], the two job cells
    end without an exception; the failure shows in the next cell as a
    [NameError] for [s3_packaged_model_artifact_location_fullpath], and, if
    the last cell is run all the same, as a [NameError] for [model_bucket]
    there, with nothing submitted. *)
Theorem failed_packaging_surfaces_as_name_error
    (cfg : Config) (env : World) (mode : run_mode) (fuel : nat)
    (loc : string) (nc np : nat) :
  get_latest_approved_s3_model_location
    (sm_client cfg) (model_package_group_name cfg)
    (sm_client cfg) (model_package_group_name cfg) = Ok loc ->
  first_exit (compilation_busy env) 0 nc = true ->
  first_exit (packaging_busy env) 0 np = true ->
  nc < fuel -> np < fuel ->
  EdgePackagingJobStatus (packaging_status env np) <> "COMPLETED" ->
  let st := snd (cell_edge_packaging cfg env fuel
                   (snd (cell_compilation cfg env fuel fresh_kernel))) in
  fst (cell_compilation cfg env fuel fresh_kernel) = Ok tt /\
  fst (cell_edge_packaging cfg env fuel
         (snd (cell_compilation cfg env fuel fresh_kernel))) = Ok tt /\
  cell_split st =
    (Raise (NameError "s3_packaged_model_artifact_location_fullpath"), st) /\
  fst (cell_iot_job cfg env st) = Raise (NameError "model_bucket") /\
  trace (snd (cell_iot_job cfg env st)) = trace st.
Proof.
  intros Hloc Hc Hp Hnc Hnp Hstatus.
  destruct (location_gives_version _ _ _ _ (model_package_group_name cfg) _ Hloc)
    as [v Hv].
  apply String.eqb_neq in Hstatus.
  rewrite (cell_compilation_runs cfg env fuel fresh_kernel loc nc Hloc Hc Hnc).
  cbn [fst snd fresh_kernel vars compilation_polls packaging_polls clock_reads
       uuid_draws trace app Nat.add].
  match goal with
  | |- context [cell_edge_packaging cfg env fuel ?s] => set (st1 := s)
  end.
  assert (Hm : vars st1 model_name = Some "img-classification").
  { unfold st1, set_var_if. cbn [vars]. destruct (completed _); reflexivity. }
  assert (Hcj : vars st1 compilation_job_name = Some (compilation_name env)).
  { unfold st1, set_var_if. cbn [vars]. destruct (completed _); reflexivity. }
  rewrite (cell_edge_packaging_runs cfg env fuel st1 v np _ _ Hm Hcj Hv Hp Hnp).
  cbn [fst snd]. unfold st1, set_var_if, completed.
  cbn [vars compilation_polls packaging_polls clock_reads uuid_draws trace Nat.add].
  rewrite Hstatus.
  destruct (String.eqb (CompilationJobStatus (compilation_status env nc)) "COMPLETED");
    cbv [cell_split cell_iot_job bind lift get_var assign emit uuid_uuid4 ret
         vars trace uuid_draws set_var var_eqb fst snd var_name];
    repeat split; reflexivity.
Qed.

Lemma failed_packaging_surfaces_as_name_error_witness :
  cell_split
    (snd (cell_edge_packaging Demo.cfg (Demo.env "COMPLETED" "FAILED") 10
            (snd (cell_compilation Demo.cfg (Demo.env "COMPLETED" "FAILED") 10
                    fresh_kernel)))) =
    (Raise (NameError "s3_packaged_model_artifact_location_fullpath"),
     snd (cell_edge_packaging Demo.cfg (Demo.env "COMPLETED" "FAILED") 10
            (snd (cell_compilation Demo.cfg (Demo.env "COMPLETED" "FAILED") 10
                    fresh_kernel)))).
Proof.
  apply (failed_packaging_surfaces_as_name_error Demo.cfg
           (Demo.env "COMPLETED" "FAILED") RunAll 10 (Demo.location 2) 2 1);
    [evaluate | evaluate | evaluate | lia | lia | vm_compute; discriminate].
Defined.

(** ** Running the cells again on a used kernel *)

(** X6. On a kernel in which [s3_packaged_model_artifact_location_fullpath] is
    still bound, say by an earlier run, a run in which the resolver answers
    and both jobs end always submits an IoT job: for the artifact of this
    run's packaging job if that ended as [COMPLETED], and otherwise for the
    artifact the name was bound to before, together with the version
    resolved in this run. *)
Theorem used_kernel_dispatches_old_artifact
    (cfg : Config) (env : World) (mode : run_mode) (fuel : nat)
    (st : State) (old loc : string) (nc np : nat) :
  vars st s3_packaged_model_artifact_location_fullpath = Some old ->
  get_latest_approved_s3_model_location
    (sm_client cfg) (model_package_group_name cfg)
    (sm_client cfg) (model_package_group_name cfg) = Ok loc ->
  first_exit (compilation_busy env) (compilation_polls st) nc = true ->
  first_exit (packaging_busy env) (packaging_polls st) np = true ->
  nc < fuel -> np < fuel ->
  let cname := format_job_name "img-classification" (clock_ms env (clock_reads st)) in
  let pname := format_job_name "img-classification"
                 (clock_ms env (S (clock_reads st))) in
  let last := packaging_status env (packaging_polls st + np) in
  let path := if String.eqb (EdgePackagingJobStatus last) "COMPLETED"
              then ModelArtifact last else old in
  exists v,
    get_latest_approved_model_version
      (model_package_group_name cfg)
      (sm_client cfg) (model_package_group_name cfg) = Ok v /\
    trace (run_cells mode (deployment_cells cfg env fuel) st) =
      trace st ++
      CreateCompilationJob (compilation_request cfg cname loc) ::
      polling (DescribeCompilationJob cname) nc ++
      CreateEdgePackagingJob
        (edge_packaging_request cfg pname cname "img-classification"
           (PyStr.of_int v)) ::
      polling (DescribeEdgePackagingJob pname) np ++
      [IotCreateJob
         (iot_job_request cfg (uuid4 env (uuid_draws st)) (PyStr.of_int v)
            "img-classification" (s3_bucket path) (s3_key path))].
Proof.
  intros Hold Hloc Hc Hp Hnc Hnp cname pname last path.
  destruct (location_gives_version _ _ _ _ (model_package_group_name cfg) _ Hloc)
    as [v Hv].
  exists v. split; [exact Hv|]. unfold deployment_cells.
  rewrite (run_cells_ok mode _ _ _ _
             (cell_compilation_runs cfg env fuel st loc nc Hloc Hc Hnc)).
  fold cname.
  match goal with
  | |- context [run_cells mode _ ?s] => set (st1 := s)
  end.
  assert (Hm : vars st1 model_name = Some "img-classification").
  { unfold st1, set_var_if. cbn [vars]. destruct (completed _); reflexivity. }
  assert (Hcj : vars st1 compilation_job_name = Some cname).
  { unfold st1, set_var_if. cbn [vars]. destruct (completed _); reflexivity. }
  rewrite (run_cells_ok mode _ _ _ _
             (cell_edge_packaging_runs cfg env fuel st1 v np _ _ Hm Hcj Hv Hp Hnp)).
  unfold st1. cbn [vars compilation_polls packaging_polls clock_reads
                   uuid_draws trace].
  fold pname last. unfold set_var_if, completed. subst path.
  destruct st as [vs cp pp cr ud tr]. cbn [vars trace uuid_draws] in *.
  destruct (String.eqb (EdgePackagingJobStatus last) "COMPLETED");
    destruct (String.eqb (CompilationJobStatus _) "COMPLETED");
    cbv [run_cells cell_split cell_iot_job bind lift get_var assign emit
         uuid_uuid4 ret vars trace uuid_draws set_var var_eqb];
    rewrite ?Hold;
    rewrite ?split_s3_path_total;
    cbv [run_cells cell_split cell_iot_job bind lift get_var assign emit
         uuid_uuid4 ret vars trace uuid_draws set_var var_eqb fst snd];
    rewrite <- ?app_assoc; cbn [app]; rewrite <- ?app_assoc; cbn [app];
    reflexivity.
Qed.

(** The kernel as a run with two completed jobs leaves it. *)
Definition used_kernel : State :=
  run_notebook Demo.cfg (Demo.env "COMPLETED" "COMPLETED") RunAll 10.

Lemma used_kernel_dispatches_old_artifact_witness :
  EdgePackagingJobStatus
    (packaging_status (Demo.env "COMPLETED" "FAILED") (packaging_polls used_kernel))
    = "FAILED" /\
  exists r,
    In (IotCreateJob r)
       (trace (run_cells CellByCell
                 (deployment_cells Demo.cfg (Demo.env "COMPLETED" "FAILED") 10)
                 used_kernel)) /\
    document r =
      Json.dumps (job_document "2" "img-classification"
                    "bucket-x" "path/to/model.tar.gz").
Proof.
  split; [evaluate|].
  destruct (used_kernel_dispatches_old_artifact Demo.cfg
              (Demo.env "COMPLETED" "FAILED") CellByCell 10 used_kernel
              "s3://bucket-x/path/to/model.tar.gz" (Demo.location 2) 0 0)
    as (v & Hv & Ht);
    [evaluate | evaluate | evaluate | evaluate | lia | lia |].
  vm_compute in Hv. injection Hv as <-.
  eexists. split.
  - rewrite Ht. apply in_or_app. right. right. apply in_or_app. right. right.
    apply in_or_app. right. now left.
  - vm_compute. reflexivity.
Defined.

(** * Data preparation

    The utilities and the two sorting loops of
    [src/cloud/data_preparation.ipynb]. What the disk holds is given from
    outside: the names in the training directory in the order the system
    lists them, the pixels [img_read] gets for a path (unsigned values, as
    [np.asarray] gives for 8-bit images and masks), and whether a copy goes
    through. The copies made are kept in a log, oldest first. *)

Module DataPrep.

Import QArith.

(** ** Paths and patterns *)

(** [s.endswith(c)] for one character *)
Fixpoint ends_with_char (c : ascii) (s : string) : bool :=
  match s with
  | EmptyString => false
  | String d s' =>
      match s' with
      | EmptyString => Ascii.eqb d c
      | String _ _ => ends_with_char c s'
      end
  end.

(** [os.path.join(a, b)] *)
Definition os_path_join (a b : string) : string :=
  if PyStr.starts_with "/" b then b
  else match a with
       | EmptyString => b
       | String _ _ =>
           if ends_with_char "/" a then (a ++ b)%string
           else (a ++ "/" ++ b)%string
       end.

(** [os.path.basename(p)]: what follows the last ['/']. *)
Fixpoint os_path_basename (p : string) : string :=
  match p with
  | EmptyString => EmptyString
  | String c p' =>
      if PyStr.has_char "/" (String c p') then os_path_basename p'
      else String c p'
  end.

(** [fnmatch] for patterns made of literal characters and ['*'], the only
    wildcard the notebook's patterns use. *)
Fixpoint fnmatch_pattern (pat : string) : string -> bool :=
  match pat with
  | EmptyString => fun name =>
      match name with EmptyString => true | String _ _ => false end
  | String c pat' =>
      if Ascii.eqb c "*"
      then fix star (name : string) : bool :=
             (fnmatch_pattern pat' name ||
              match name with
              | EmptyString => false
              | String _ name' => star name'
              end)%bool
      else fun name =>
             match name with
             | EmptyString => false
             | String d name' => (Ascii.eqb c d && fnmatch_pattern pat' name')%bool
             end
  end.

Definition fnmatch (name pat : string) : bool := fnmatch_pattern pat name.

(** [glob.glob(os.path.join(directory, pattern))] for a directory spelled
    with its final ['/'] and a pattern without ['/'] that starts with ['*']:
    the names of the directory that do not start with ['.'] and match,
    each behind the directory. *)
Definition glob (directory pattern : string) (names : list string) : list string :=
  map (fun name => (directory ++ name)%string)
      (filter (fun name => (negb (PyStr.starts_with "." name) && fnmatch name pattern)%bool)
              names).

(** ** Images *)

Fixpoint pixel_sum (img : list N) : N :=
  match img with
  | [] => 0%N
  | p :: img' => (p + pixel_sum img')%N
  end.

(** [np.mean(img)], exact; [None] is the [nan] of an image without pixels. *)
Definition np_mean (img : list N) : option Q :=
  match img with
  | [] => None
  | _ :: _ => Some (Z.of_N (pixel_sum img) # Pos.of_nat (List.length img))
  end.

Definition img_is_anomalous (img : list N) : bool :=
  match np_mean img with
  | Some m => if negb (Qle_bool m 0) then true else false
  | None => false
  end.

(** ** The disk and the copies *)

Record Disk : Type := {
  listdir : list string;
  image_at : string -> option (list N);
  copy_goes_through : string -> string -> bool
}.

Inductive copy : Type := CopyFile (src dst : string).

(** Where an exception came from. *)
Inductive failure : Type :=
| ImageNotRead (path : string)
| NotCopied (src dst : string).

Definition IO (A : Type) : Type := list copy -> (failure + A) * list copy.

Definition io_ret {A : Type} (a : A) : IO A := fun log => (inr a, log).

Definition io_bind {A B : Type} (m : IO A) (k : A -> IO B) : IO B :=
  fun log =>
    match m log with
    | (inr a, log') => k a log'
    | (inl f, log') => (inl f, log')
    end.

(** [for x in l: body(x)] *)
Fixpoint for_each {A : Type} (l : list A) (body : A -> IO unit) : IO unit :=
  match l with
  | [] => io_ret tt
  | x :: rest => io_bind (body x) (fun _ => for_each rest body)
  end.

Section OnDisk.

Variable disk : Disk.

Definition img_read (path : string) : IO (list N) :=
  fun log =>
    match image_at disk path with
    | Some img => (inr img, log)
    | None => (inl (ImageNotRead path), log)
    end.

Definition copyfile (src dst : string) : IO unit :=
  fun log =>
    if copy_goes_through disk src dst
    then (inr tt, log ++ [CopyFile src dst])
    else (inl (NotCopied src dst), log).

Definition sort_img_by_mask (mask_file dir_normal dir_anomalous : string) : IO unit :=
  io_bind (img_read mask_file) (fun mask_img =>
  let data_img := PyStr.replace "_GT" EmptyString mask_file in
  if img_is_anomalous mask_img
  then copyfile data_img (os_path_join dir_anomalous (os_path_basename data_img))
  else copyfile data_img (os_path_join dir_normal (os_path_basename data_img))).

Definition directory : string := "./data/kolektor/train/".

Definition mask_files : list string := glob directory "*_GT.png" (listdir disk).

Definition dir_normal : string :=
  "./data/kolektor-preprocessed/img-classification/normal".
Definition dir_anomalous : string :=
  "./data/kolektor-preprocessed/img-classification/anomalous".

(** The cell that sorts the images by their mask. *)
Definition cell_sort_by_mask : IO unit :=
  for_each mask_files (fun mask_file =>
    sort_img_by_mask mask_file dir_normal dir_anomalous).

Definition all_files : list string := glob directory "*.png" (listdir disk).

Definition dir_images : string :=
  "./data/kolektor-preprocessed/semantic-segmentation/images".
Definition dir_masks : string :=
  "./data/kolektor-preprocessed/semantic-segmentation/masks".

(** The body of the loop that sorts images and masks into two folders. *)
Definition sort_image_or_mask (img_path : string) : IO unit :=
  if PyStr.contains "_GT" img_path
  then copyfile img_path
         (os_path_join dir_masks
            (PyStr.replace "_GT" EmptyString (os_path_basename img_path)))
  else copyfile img_path (os_path_join dir_images (os_path_basename img_path)).

(** The cell that sorts images and masks into two folders. *)
Definition cell_sort_images_and_masks : IO unit :=
  for_each all_files sort_image_or_mask.

End OnDisk.

End DataPrep.

(** ** Facts about paths, patterns and the mean *)

Section DataPrepFacts.

Import DataPrep.

Lemma pixel_sum_positive (img : list N) :
  (0 <? pixel_sum img)%N = existsb (fun p => (0 <? p)%N) img.
Proof.
  induction img as [|p img IH]; [reflexivity|].
  cbn [pixel_sum existsb]. rewrite <- IH.
  destruct (N.ltb_spec 0 p), (N.ltb_spec 0 (pixel_sum img)),
    (N.ltb_spec 0 (p + pixel_sum img)); cbn; try reflexivity; lia.
Qed.

Lemma ends_with_char_has_char (c : ascii) (s : string) :
  ends_with_char c s = true -> PyStr.has_char c s = true.
Proof.
  induction s as [|d s IH]; [discriminate|].
  cbn [ends_with_char PyStr.has_char]. destruct s as [|e s].
  - intros ->. reflexivity.
  - intros H. rewrite (IH H). apply orb_true_r.
Qed.

Lemma basename_plain (n : string) :
  PyStr.has_char "/" n = false -> os_path_basename n = n.
Proof.
  destruct n as [|c n]; [reflexivity|]. cbn [os_path_basename]. now intros ->.
Qed.

(** [basename] undoes putting a directory in front of a name. *)
Lemma basename_behind_directory (d n : string) :
  ends_with_char "/" d = true -> PyStr.has_char "/" n = false ->
  os_path_basename (d ++ n) = n.
Proof.
  intros Hd Hn. induction d as [|c d IH]; [discriminate|].
  cbn [String.append os_path_basename].
  change (String c (d ++ n)) with (String c d ++ n)%string.
  rewrite has_char_app, (ends_with_char_has_char _ _ Hd). cbn [orb].
  destruct d as [|e d].
  - cbn [String.append]. now apply basename_plain.
  - apply IH. exact Hd.
Qed.

Lemma basename_has_no_sep (p : string) :
  PyStr.has_char "/" (os_path_basename p) = false.
Proof.
  induction p as [|c p IH]; [reflexivity|]. cbn [os_path_basename].
  destruct (PyStr.has_char "/" (String c p)) eqn:E; [exact IH|exact E].
Qed.

Lemma no_sep_no_leading_sep (b : string) :
  PyStr.has_char "/" b = false -> PyStr.starts_with "/" b = false.
Proof.
  destruct b as [|c b]; [reflexivity|]. cbn [PyStr.has_char PyStr.starts_with].
  intros H. apply orb_false_iff in H as [H _].
  rewrite Ascii.eqb_sym, H. reflexivity.
Qed.

(** Joining a directory that is not spelled with a final ['/'] and a plain
    name. *)
Lemma join_plain (a b : string) :
  a <> EmptyString -> ends_with_char "/" a = false ->
  PyStr.has_char "/" b = false ->
  os_path_join a b = (a ++ "/" ++ b)%string.
Proof.
  intros Ha He Hb. unfold os_path_join.
  rewrite (no_sep_no_leading_sep b Hb), He. destruct a; [now elim Ha|reflexivity].
Qed.

Lemma no_underscore_no_gt (s : string) :
  PyStr.has_char "_" s = false -> PyStr.contains "_GT" s = false.
Proof.
  induction s as [|c s IH]; [reflexivity|].
  cbn [PyStr.has_char PyStr.contains PyStr.starts_with].
  intros H. apply orb_false_iff in H as [Hc Hs].
  rewrite Ascii.eqb_sym, Hc. cbn [andb orb]. now apply IH.
Qed.

(** In front of the first ['_'] of a path, [replace('_GT', '')] changes
    nothing; a ["_GT"] right there is dropped. *)
Lemma replace_gt_behind_plain (u w : string) :
  PyStr.has_char "_" u = false ->
  PyStr.replace "_GT" EmptyString (u ++ "_GT" ++ w) =
    (u ++ PyStr.replace "_GT" EmptyString w)%string.
Proof.
  unfold PyStr.replace. induction u as [|c u IH]; intros H; [reflexivity|].
  cbn [PyStr.has_char] in H. apply orb_false_iff in H as [Hc Hu].
  cbn [String.append PyStr.replace_from PyStr.starts_with].
  rewrite Ascii.eqb_sym, Hc. cbn [andb]. f_equal. now apply IH.
Qed.

Lemma replace_gt_plain (s : string) :
  PyStr.has_char "_" s = false -> PyStr.replace "_GT" EmptyString s = s.
Proof.
  intros H. apply replace_from_absent. now apply no_underscore_no_gt.
Qed.

(** Replacing by the empty string brings in no character. *)
Lemma replace_from_keeps_absent (old : string) (c : ascii) (s : string) :
  forall skip,
    PyStr.has_char c s = false ->
    PyStr.has_char c (PyStr.replace_from old EmptyString skip s) = false.
Proof.
  induction s as [|d s IH]; intros skip H; [reflexivity|].
  cbn [PyStr.has_char] in H. apply orb_false_iff in H as [Hd Hs].
  cbn [PyStr.replace_from]. destruct skip as [|skip]; [|now apply IH].
  destruct (PyStr.starts_with old (String d s)).
  - cbn [String.append]. now apply IH.
  - cbn [PyStr.has_char]. rewrite Hd. now apply IH.
Qed.

Lemma contains_behind (p a b : string) :
  PyStr.contains p b = true -> PyStr.contains p (a ++ b) = true.
Proof.
  intros H. induction a as [|c a IH]; [exact H|].
  cbn [String.append PyStr.contains]. rewrite IH. apply orb_true_r.
Qed.

Lemma fnmatch_literal (s : string) :
  PyStr.has_char "*" s = false -> fnmatch_pattern s s = true.
Proof.
  induction s as [|c s IH]; [reflexivity|].
  cbn [PyStr.has_char fnmatch_pattern]. intros H.
  apply orb_false_iff in H as [Hc Hs].
  rewrite Hc, Ascii.eqb_refl. now apply IH.
Qed.

Lemma fnmatch_literal_only (s : string) :
  PyStr.has_char "*" s = false ->
  forall name, fnmatch_pattern s name = true -> name = s.
Proof.
  induction s as [|c s IH]; intros H name.
  - destruct name; [reflexivity|discriminate].
  - cbn [PyStr.has_char] in H. apply orb_false_iff in H as [Hc Hs].
    cbn [fnmatch_pattern]. rewrite Hc. destruct name as [|d name]; [discriminate|].
    intros Hm. apply andb_true_iff in Hm as [Hcd Hm].
    apply Ascii.eqb_eq in Hcd. subst d. f_equal. now apply IH.
Qed.

(** A pattern ['*'] followed by literal characters matches exactly the names
    that end with those characters. *)
Lemma fnmatch_star_suffix (s name : string) :
  PyStr.has_char "*" s = false ->
  fnmatch name (String "*" s) = true <-> exists u, name = (u ++ s)%string.
Proof.
  intros Hs. unfold fnmatch. cbn [fnmatch_pattern].
  change (Ascii.eqb "*" "*") with true. cbv iota.
  induction name as [|c name IH].
  - rewrite orb_false_r. split.
    + intros H. exists EmptyString. cbn [String.append].
      now apply fnmatch_literal_only.
    + intros [u Hu]. destruct u; [|discriminate]. cbn in Hu. subst s. reflexivity.
  - rewrite orb_true_iff, IH. split.
    + intros [H|[u Hu]].
      * exists EmptyString. cbn [String.append].
        now apply fnmatch_literal_only.
      * exists (String c u). now rewrite Hu.
    + intros [[|d u] Hu].
      * left. cbn in Hu. rewrite Hu. now apply fnmatch_literal.
      * right. injection Hu as -> Hu. now exists u.
Qed.

End DataPrepFacts.

(** ** The utilities *)

(** The sign test on the exact mean sees whether some pixel is not zero. *)
Lemma img_is_anomalous_nonzero (img : list N) :
  DataPrep.img_is_anomalous img = existsb (fun p => (0 <? p)%N) img.
Proof.
  rewrite <- pixel_sum_positive.
  destruct img as [|p img]; [reflexivity|].
  unfold DataPrep.img_is_anomalous, DataPrep.np_mean, QArith_base.Qle_bool.
  cbn [QArith_base.Qnum QArith_base.Qden].
  set (s := DataPrep.pixel_sum (p :: img)).
  destruct (N.ltb_spec 0 s) as [H|H];
    destruct (Z.leb_spec (Z.of_N s * 1) (0 * Z.pos (Pos.of_nat (List.length (p :: img)))));
    cbn; try reflexivity; lia.
Qed.

(** X8. [img_is_anomalous] holds exactly for the images with a pixel that is not
    zero; an all-black mask and an image without pixels are not
    anomalous. *)
Theorem img_is_anomalous_iff_nonzero_pixel (img : list N) :
  DataPrep.img_is_anomalous img = existsb (fun p => (0 <? p)%N) img /\
  DataPrep.img_is_anomalous [] = false /\
  (Forall (fun p => p = 0%N) img -> DataPrep.img_is_anomalous img = false).
Proof.
  split; [apply img_is_anomalous_nonzero|]. split; [reflexivity|].
  intros H. rewrite img_is_anomalous_nonzero.
  induction H as [|p img -> _ IH]; [reflexivity|exact IH].
Qed.

Lemma img_is_anomalous_iff_nonzero_pixel_witness :
  DataPrep.img_is_anomalous [0; 0; 0; 0]%N = false.
Proof.
  apply (proj2 (proj2 (img_is_anomalous_iff_nonzero_pixel [0; 0; 0; 0]%N))).
  repeat constructor.
Defined.

Section SortingFacts.

Import DataPrep.

Variable disk : Disk.

(** The directory a data image goes to, by the pixels of its mask. *)
Definition class_dir (mask_img : list N) : string :=
  if existsb (fun p => (0 <? p)%N) mask_img then dir_anomalous else dir_normal.

Lemma class_dir_plain (mask_img : list N) :
  class_dir mask_img <> EmptyString /\ ends_with_char "/" (class_dir mask_img) = false.
Proof.
  unfold class_dir. destruct (existsb _ _); split; (discriminate || reflexivity).
Qed.

Lemma dataset_mask_to_image (id : string) :
  PyStr.has_char "_" id = false ->
  PyStr.replace "_GT" EmptyString (directory ++ id ++ "_GT.png") =
    (directory ++ id ++ ".png")%string.
Proof.
  intros H.
  change (directory ++ id ++ "_GT.png")%string
    with (directory ++ id ++ "_GT" ++ ".png")%string.
  rewrite <- string_app_assoc, replace_gt_behind_plain.
  - now rewrite string_app_assoc.
  - now rewrite has_char_app, H.
Qed.

Lemma dataset_name_plain (id suffix : string) :
  PyStr.has_char "/" id = false -> PyStr.has_char "/" suffix = false ->
  os_path_basename (directory ++ id ++ suffix) = (id ++ suffix)%string.
Proof.
  intros Hid Hs. apply basename_behind_directory; [reflexivity|].
  now rewrite has_char_app, Hid, Hs.
Qed.

End SortingFacts.

(** X9. For a mask [<id>_GT.png] of the training directory, [id] without ['_']
    and ['/'], [sort_img_by_mask] copies the image [<id>.png] of that
    directory, under its own name, into [dir_anomalous] if the mask has a
    pixel that is not zero and into [dir_normal] otherwise; nothing else is
    copied. *)
Theorem sort_img_by_mask_copies_image
    (disk : DataPrep.Disk) (id : string) (mask_img : list N)
    (log : list DataPrep.copy) :
  PyStr.has_char "_" id = false ->
  PyStr.has_char "/" id = false ->
  DataPrep.image_at disk (DataPrep.directory ++ id ++ "_GT.png") = Some mask_img ->
  DataPrep.copy_goes_through disk
    (DataPrep.directory ++ id ++ ".png")
    (class_dir mask_img ++ "/" ++ id ++ ".png") = true ->
  DataPrep.sort_img_by_mask disk (DataPrep.directory ++ id ++ "_GT.png")
    DataPrep.dir_normal DataPrep.dir_anomalous log =
    (inr tt,
     log ++ [DataPrep.CopyFile (DataPrep.directory ++ id ++ ".png")
               (class_dir mask_img ++ "/" ++ id ++ ".png")]).
Proof.
  intros Hu Hs Himg Hcopy.
  unfold DataPrep.sort_img_by_mask, DataPrep.io_bind, DataPrep.img_read.
  rewrite Himg, (dataset_mask_to_image id Hu).
  rewrite (dataset_name_plain id ".png" Hs eq_refl).
  rewrite img_is_anomalous_nonzero.
  assert (Hdst : DataPrep.os_path_join (class_dir mask_img) (id ++ ".png")
                 = (class_dir mask_img ++ "/" ++ id ++ ".png")%string).
  { destruct (class_dir_plain mask_img) as [Hne Hend].
    apply join_plain; [exact Hne|exact Hend|].
    now rewrite has_char_app, Hs. }
  unfold class_dir in *.
  destruct (existsb _ mask_img); rewrite Hdst;
    unfold DataPrep.copyfile; rewrite Hcopy; reflexivity.
Qed.

(** ** A small training directory *)

Module DemoDisk.

Definition path (name : string) : string := (DataPrep.directory ++ name)%string.

(** Two samples, the first with a black mask; a hidden file and a file with
    ["_GT"] inside its name. Every copy goes through. *)
Definition disk : DataPrep.Disk :=
  {| DataPrep.listdir :=
       ["10000.png"; "10000_GT.png"; "10001_GT.png"; "10001.png";
        ".cache_GT.png"; "a_GTb.png"];
     DataPrep.image_at := fun p =>
       if String.eqb p (path "10000_GT.png") then Some [0; 0; 0; 0]%N
       else if String.eqb p (path "10001_GT.png") then Some [0; 255; 0; 0]%N
       else Some [17; 4]%N;
     DataPrep.copy_goes_through := fun _ _ => true |}.

(** The same directory when the second mask cannot be read. *)
Definition broken : DataPrep.Disk :=
  {| DataPrep.listdir := DataPrep.listdir disk;
     DataPrep.image_at := fun p =>
       if String.eqb p (path "10001_GT.png") then None
       else DataPrep.image_at disk p;
     DataPrep.copy_goes_through := fun _ _ => true |}.

End DemoDisk.

Lemma sort_img_by_mask_copies_image_witness :
  DataPrep.sort_img_by_mask DemoDisk.disk
    (DataPrep.directory ++ "10001" ++ "_GT.png")
    DataPrep.dir_normal DataPrep.dir_anomalous [] =
    (inr tt,
     [] ++ [DataPrep.CopyFile (DataPrep.directory ++ "10001" ++ ".png")
              (class_dir [0; 255; 0; 0]%N ++ "/" ++ "10001" ++ ".png")]).
Proof.
  apply (sort_img_by_mask_copies_image DemoDisk.disk "10001" [0; 255; 0; 0]%N []);
    reflexivity.
Defined.

(** ** The two loops *)

Section LoopFacts2.

Import DataPrep.

(** A loop whose body either logs one copy or raises, leaving the log as it
    is: the elements before the first that raises are done, nothing is
    undone and nothing after it is tried. *)
Lemma for_each_until_failure {A : Type}
    (body : A -> IO unit) (intended : A -> copy) (ok : A -> bool) :
  (forall x log, ok x = true -> body x log = (inr tt, log ++ [intended x])) ->
  (forall x log, ok x = false -> exists e, body x log = (inl e, log)) ->
  forall done rest log,
    (forall x, In x done -> ok x = true) ->
    match rest with [] => True | x :: _ => ok x = false end ->
    snd (for_each (done ++ rest) body log) = log ++ map intended done /\
    (fst (for_each (done ++ rest) body log) = inr tt <-> rest = []).
Proof.
  intros Hok Hfail done. induction done as [|x done IH]; intros rest log Hdone Hrest.
  - cbn [app map]. rewrite app_nil_r. destruct rest as [|x rest].
    + split; [reflexivity|]. now split.
    + cbn [for_each]. unfold io_bind.
      destruct (Hfail x log Hrest) as [e ->]. cbn [fst snd].
      split; [reflexivity|]. split; discriminate.
  - cbn [app for_each map]. unfold io_bind.
    rewrite (Hok x log (Hdone x (or_introl eq_refl))).
    destruct (IH rest (log ++ [intended x])) as [Hs Hf].
    + intros y Hy. apply Hdone. now right.
    + exact Hrest.
    + split; [|exact Hf]. rewrite Hs, <- app_assoc. reflexivity.
Qed.

(** A loop whose body only ever adds copies with a property adds only such
    copies. *)
Lemma for_each_adds {A : Type} (body : A -> IO unit) (P : copy -> Prop) :
  (forall x log, exists l, snd (body x log) = log ++ l /\ Forall P l) ->
  forall items log,
    exists l, snd (for_each items body log) = log ++ l /\ Forall P l.
Proof.
  intros Hbody items. induction items as [|x items IH]; intros log.
  - exists []. split; [cbn; now rewrite app_nil_r | constructor].
  - cbn [for_each]. unfold io_bind.
    destruct (Hbody x log) as (l & Hl & HP).
    destruct (body x log) as [[e|[]] log1]; cbn [snd] in Hl; subst log1.
    + exists l. now split.
    + destruct (IH (log ++ l)) as (l' & Hl' & HP').
      exists (l ++ l'). split; [now rewrite Hl', app_assoc|].
      apply Forall_app. now split.
Qed.

Variable disk : Disk.

(** What [sort_img_by_mask] copies for a mask file, and whether it gets
    through reading the mask and copying. *)
Definition mask_copy (mask_file : string) : copy :=
  let mask_img := match image_at disk mask_file with
                  | Some img => img
                  | None => []
                  end in
  let data_img := PyStr.replace "_GT" EmptyString mask_file in
  CopyFile data_img
    (os_path_join (if img_is_anomalous mask_img then dir_anomalous else dir_normal)
       (os_path_basename data_img)).

Definition copy_ok (c : copy) : bool :=
  match c with CopyFile src dst => copy_goes_through disk src dst end.

Definition mask_sorted (mask_file : string) : bool :=
  match image_at disk mask_file with
  | Some _ => copy_ok (mask_copy mask_file)
  | None => false
  end.

Lemma sort_img_by_mask_ok (m : string) (log : list copy) :
  mask_sorted m = true ->
  sort_img_by_mask disk m dir_normal dir_anomalous log =
    (inr tt, log ++ [mask_copy m]).
Proof.
  unfold mask_sorted, mask_copy, sort_img_by_mask, io_bind, img_read, copy_ok.
  destruct (image_at disk m) as [img|]; [|discriminate].
  destruct (img_is_anomalous img); unfold copyfile; intros ->; reflexivity.
Qed.

Lemma sort_img_by_mask_fails (m : string) (log : list copy) :
  mask_sorted m = false ->
  exists e, sort_img_by_mask disk m dir_normal dir_anomalous log = (inl e, log).
Proof.
  unfold mask_sorted, mask_copy, sort_img_by_mask, io_bind, img_read, copy_ok.
  destruct (image_at disk m) as [img|]; [|intros _; now eexists].
  destruct (img_is_anomalous img); unfold copyfile; intros ->; now eexists.
Qed.

(** What the second loop copies for a path. *)
Definition image_or_mask_copy (img_path : string) : copy :=
  if PyStr.contains "_GT" img_path
  then CopyFile img_path
         (os_path_join dir_masks
            (PyStr.replace "_GT" EmptyString (os_path_basename img_path)))
  else CopyFile img_path (os_path_join dir_images (os_path_basename img_path)).

Lemma sort_image_or_mask_ok (p : string) (log : list copy) :
  copy_ok (image_or_mask_copy p) = true ->
  sort_image_or_mask disk p log = (inr tt, log ++ [image_or_mask_copy p]).
Proof.
  unfold image_or_mask_copy, sort_image_or_mask, copy_ok.
  destruct (PyStr.contains "_GT" p); unfold copyfile; intros ->; reflexivity.
Qed.

Lemma sort_image_or_mask_fails (p : string) (log : list copy) :
  copy_ok (image_or_mask_copy p) = false ->
  exists e, sort_image_or_mask disk p log = (inl e, log).
Proof.
  unfold image_or_mask_copy, sort_image_or_mask, copy_ok.
  destruct (PyStr.contains "_GT" p); unfold copyfile; intros ->; now eexists.
Qed.

End LoopFacts2.

(** X10. Both sorting loops stop at the first file that cannot be read or
    copied: the files listed before it have been copied, one copy each and
    in the order of the listing, these copies stay, and no file after it is
    touched; the cell ends without an exception exactly when no file
    fails. *)
Theorem sorting_stops_at_first_failure
    (disk : DataPrep.Disk) (log : list DataPrep.copy) :
  (forall done rest,
     DataPrep.mask_files disk = done ++ rest ->
     (forall m, In m done -> mask_sorted disk m = true) ->
     match rest with [] => True | m :: _ => mask_sorted disk m = false end ->
     snd (DataPrep.cell_sort_by_mask disk log) = log ++ map (mask_copy disk) done /\
     (fst (DataPrep.cell_sort_by_mask disk log) = inr tt <-> rest = [])) /\
  (forall done rest,
     DataPrep.all_files disk = done ++ rest ->
     (forall p, In p done -> copy_ok disk (image_or_mask_copy p) = true) ->
     match rest with
     | [] => True
     | p :: _ => copy_ok disk (image_or_mask_copy p) = false
     end ->
     snd (DataPrep.cell_sort_images_and_masks disk log) =
       log ++ map image_or_mask_copy done /\
     (fst (DataPrep.cell_sort_images_and_masks disk log) = inr tt <-> rest = [])).
Proof.
  split; intros done rest E Hdone Hrest.
  - unfold DataPrep.cell_sort_by_mask. rewrite E.
    apply (for_each_until_failure _ (mask_copy disk) (mask_sorted disk));
      auto using sort_img_by_mask_ok, sort_img_by_mask_fails.
  - unfold DataPrep.cell_sort_images_and_masks. rewrite E.
    apply (for_each_until_failure _ image_or_mask_copy
             (fun p => copy_ok disk (image_or_mask_copy p)));
      auto using sort_image_or_mask_ok, sort_image_or_mask_fails.
Qed.

Lemma sorting_stops_at_first_failure_witness :
  snd (DataPrep.cell_sort_by_mask DemoDisk.broken []) =
    [] ++ map (mask_copy DemoDisk.broken) [DemoDisk.path "10000_GT.png"] /\
  (fst (DataPrep.cell_sort_by_mask DemoDisk.broken []) = inr tt <->
   [DemoDisk.path "10001_GT.png"] = []).
Proof.
  apply (proj1 (sorting_stops_at_first_failure DemoDisk.broken [])
           [DemoDisk.path "10000_GT.png"] [DemoDisk.path "10001_GT.png"]).
  - reflexivity.
  - intros m [<-|[]]. reflexivity.
  - reflexivity.
Defined.

(** ** Images and their masks in the segmentation folders *)

(** X11. For a sample [id] (without ['_'] and ['/']) of the training directory,
    the second loop copies the image [<id>.png] to [dir_images] and the mask
    [<id>_GT.png] to [dir_masks], both under the name [<id>.png]: an image
    and its mask get the same file name in the two folders. *)
Theorem image_and_mask_get_the_same_name
    (disk : DataPrep.Disk) (id : string) (log : list DataPrep.copy) :
  PyStr.has_char "_" id = false ->
  PyStr.has_char "/" id = false ->
  (DataPrep.copy_goes_through disk
     (DataPrep.directory ++ id ++ ".png")
     (DataPrep.dir_images ++ "/" ++ id ++ ".png") = true ->
   DataPrep.sort_image_or_mask disk (DataPrep.directory ++ id ++ ".png") log =
     (inr tt,
      log ++ [DataPrep.CopyFile (DataPrep.directory ++ id ++ ".png")
                (DataPrep.dir_images ++ "/" ++ id ++ ".png")])) /\
  (DataPrep.copy_goes_through disk
     (DataPrep.directory ++ id ++ "_GT.png")
     (DataPrep.dir_masks ++ "/" ++ id ++ ".png") = true ->
   DataPrep.sort_image_or_mask disk (DataPrep.directory ++ id ++ "_GT.png") log =
     (inr tt,
      log ++ [DataPrep.CopyFile (DataPrep.directory ++ id ++ "_GT.png")
                (DataPrep.dir_masks ++ "/" ++ id ++ ".png")])).
Proof.
  intros Hu Hs. split; intros Hcopy; unfold DataPrep.sort_image_or_mask.
  - rewrite no_underscore_no_gt
      by (now rewrite !has_char_app, Hu).
    rewrite (dataset_name_plain id ".png" Hs eq_refl).
    rewrite join_plain;
      [ | discriminate | reflexivity | now rewrite has_char_app, Hs ].
    unfold DataPrep.copyfile. now rewrite Hcopy.
  - rewrite contains_behind by (now apply contains_behind).
    rewrite (dataset_name_plain id "_GT.png" Hs eq_refl).
    change (id ++ "_GT.png")%string with (id ++ "_GT" ++ ".png")%string.
    rewrite (replace_gt_behind_plain id ".png" Hu).
    change (PyStr.replace "_GT" EmptyString ".png") with ".png".
    change (id ++ "_GT" ++ ".png")%string with (id ++ "_GT.png")%string.
    rewrite join_plain;
      [ | discriminate | reflexivity | now rewrite has_char_app, Hs ].
    unfold DataPrep.copyfile. now rewrite Hcopy.
Qed.

Lemma image_and_mask_get_the_same_name_witness :
  DataPrep.sort_image_or_mask DemoDisk.disk
    (DataPrep.directory ++ "10000" ++ "_GT.png") [] =
    (inr tt,
     [] ++ [DataPrep.CopyFile (DataPrep.directory ++ "10000" ++ "_GT.png")
              (DataPrep.dir_masks ++ "/" ++ "10000" ++ ".png")]).
Proof.
  apply (proj2 (image_and_mask_get_the_same_name DemoDisk.disk "10000" []
                  eq_refl eq_refl)).
  reflexivity.
Defined.

(** X12. The first loop takes as masks the visible names that end with
    ["_GT.png"]; the second loop takes as a mask every file with ["_GT"]
    anywhere in its path. A listed file whose name ends with [".png"] and
    contains ["_GT"] without ending with ["_GT.png"], such as [a_GTb.png],
    is therefore not among the mask files of the first loop, but the second
    loop copies it to [dir_masks], under its name without any ["_GT"]. *)
Theorem masks_are_told_apart_differently
    (disk : DataPrep.Disk) (name : string) (log : list DataPrep.copy) :
  In name (DataPrep.listdir disk) ->
  PyStr.starts_with "." name = false ->
  PyStr.has_char "/" name = false ->
  (exists u, name = (u ++ ".png")%string) ->
  PyStr.contains "_GT" name = true ->
  (forall u, name <> (u ++ "_GT.png")%string) ->
  DataPrep.copy_goes_through disk
    (DataPrep.directory ++ name)
    (DataPrep.dir_masks ++ "/" ++ PyStr.replace "_GT" EmptyString name) = true ->
  ~ In (DataPrep.directory ++ name)%string (DataPrep.mask_files disk) /\
  In (DataPrep.directory ++ name)%string (DataPrep.all_files disk) /\
  DataPrep.sort_image_or_mask disk (DataPrep.directory ++ name) log =
    (inr tt,
     log ++ [DataPrep.CopyFile (DataPrep.directory ++ name)
               (DataPrep.dir_masks ++ "/" ++
                PyStr.replace "_GT" EmptyString name)]).
Proof.
  intros Hin Hvis Hs Hpng Hgt Hnot Hcopy. split; [|split].
  - unfold DataPrep.mask_files, DataPrep.glob. intros H.
    apply in_map_iff in H as (n & En & Hn).
    apply string_app_inv_head in En. subst n.
    apply filter_In in Hn as [_ Hn]. apply andb_true_iff in Hn as [_ Hn].
    apply (fnmatch_star_suffix "_GT.png" name eq_refl) in Hn as [u Hu].
    exact (Hnot u Hu).
  - unfold DataPrep.all_files, DataPrep.glob. apply in_map.
    apply filter_In. split; [exact Hin|].
    rewrite Hvis. cbn [negb andb].
    now apply (fnmatch_star_suffix ".png" name eq_refl).
  - unfold DataPrep.sort_image_or_mask.
    rewrite (contains_behind _ _ _ Hgt).
    rewrite (basename_behind_directory DataPrep.directory name eq_refl Hs).
    rewrite join_plain; [ | discriminate | reflexivity | ].
    + unfold DataPrep.copyfile. now rewrite Hcopy.
    + now apply replace_from_keeps_absent.
Qed.

Lemma masks_are_told_apart_differently_witness :
  ~ In (DataPrep.directory ++ "a_GTb.png")%string
       (DataPrep.mask_files DemoDisk.disk) /\
  In (DataPrep.directory ++ "a_GTb.png")%string
     (DataPrep.all_files DemoDisk.disk) /\
  DataPrep.sort_image_or_mask DemoDisk.disk (DataPrep.directory ++ "a_GTb.png") [] =
    (inr tt,
     [] ++ [DataPrep.CopyFile (DataPrep.directory ++ "a_GTb.png")
              (DataPrep.dir_masks ++ "/" ++
               PyStr.replace "_GT" EmptyString "a_GTb.png")]).
Proof.
  apply (masks_are_told_apart_differently DemoDisk.disk "a_GTb.png" []).
  - cbn. auto 10.
  - reflexivity.
  - reflexivity.
  - now exists "a_GTb".
  - reflexivity.
  - intros u Hu. pose proof (f_equal String.length Hu) as Hl.
    rewrite string_app_length in Hl. cbn [String.length] in Hl.
    destruct u as [|a [|b [|c u]]]; cbn [String.length] in Hl; try lia.
    cbn [String.append] in Hu. discriminate Hu.
  - reflexivity.
Defined.

(** ** Where the copies go *)

(** [dst] is a file directly in the directory [dir]. *)
Definition directly_in (dir dst : string) : Prop :=
  exists b, dst = (dir ++ "/" ++ b)%string /\ PyStr.has_char "/" b = false.

Definition copied_into (dir1 dir2 : string) (c : DataPrep.copy) : Prop :=
  match c with
  | DataPrep.CopyFile _ dst => directly_in dir1 dst \/ directly_in dir2 dst
  end.

(** X13. Whatever the training directory holds and whatever the file names are,
    every copy of the first loop goes to a file directly in [dir_normal] or
    [dir_anomalous], and every copy of the second loop to a file directly
    in [dir_images] or [dir_masks]: no file name makes a loop write
    anywhere else. *)
Theorem copies_stay_in_their_folders
    (disk : DataPrep.Disk) (log : list DataPrep.copy) :
  (exists added,
     snd (DataPrep.cell_sort_by_mask disk log) = log ++ added /\
     Forall (copied_into DataPrep.dir_normal DataPrep.dir_anomalous) added) /\
  (exists added,
     snd (DataPrep.cell_sort_images_and_masks disk log) = log ++ added /\
     Forall (copied_into DataPrep.dir_images DataPrep.dir_masks) added).
Proof.
  assert (Hjoin : forall dir p,
            dir <> EmptyString -> DataPrep.ends_with_char "/" dir = false ->
            PyStr.has_char "/" p = false ->
            directly_in dir (DataPrep.os_path_join dir p)).
  { intros dir p Hne Hend Hp. exists p. split; [now apply join_plain|exact Hp]. }
  split.
  - apply for_each_adds. intros m l0.
    unfold DataPrep.sort_img_by_mask, DataPrep.io_bind, DataPrep.img_read.
    destruct (DataPrep.image_at disk m) as [img|].
    2: { exists []. split; [cbn; now rewrite app_nil_r|constructor]. }
    destruct (DataPrep.img_is_anomalous img); unfold DataPrep.copyfile;
      destruct (DataPrep.copy_goes_through disk _ _); cbn [snd];
      try (exists []; split; [now rewrite app_nil_r|constructor]);
      eexists; (split; [reflexivity|]);
      (apply Forall_cons; [cbn [copied_into]|apply Forall_nil]).
    + right. apply Hjoin; [discriminate|reflexivity|apply basename_has_no_sep].
    + left. apply Hjoin; [discriminate|reflexivity|apply basename_has_no_sep].
  - apply for_each_adds. intros p l0. unfold DataPrep.sort_image_or_mask.
    destruct (PyStr.contains "_GT" p); unfold DataPrep.copyfile;
      destruct (DataPrep.copy_goes_through disk _ _); cbn [snd];
      try (exists []; split; [now rewrite app_nil_r|constructor]);
      eexists; (split; [reflexivity|]);
      (apply Forall_cons; [cbn [copied_into]|apply Forall_nil]).
    + right. apply Hjoin; [discriminate|reflexivity|].
      apply replace_from_keeps_absent, basename_has_no_sep.
    + left. apply Hjoin; [discriminate|reflexivity|apply basename_has_no_sep].
Qed.

(** * The job document can be read back *)

Module JsonRead.

Definition hex_value (c : ascii) : nat :=
  let n := nat_of_ascii c in
  if Nat.leb 97 n then n - 87 else n - 48.

Definition add_char (c : ascii) (r : option (string * string)) :
    option (string * string) :=
  match r with
  | Some (t, rest) => Some (String c t, rest)
  | None => None
  end.

(** Reading the characters of a string literal up to its closing quote:
    the characters read and what follows the quote. *)
Fixpoint chars (s : string) : option (string * string) :=
  match s with
  | EmptyString => None
  | String c s1 =>
      if Ascii.eqb c Json.quote then Some (EmptyString, s1)
      else if Ascii.eqb c Json.backslash then
        match s1 with
        | EmptyString => None
        | String e s2 =>
            if Ascii.eqb e "u" then
              match s2 with
              | String _ (String _ (String h1 (String h2 s6))) =>
                  add_char (ascii_of_nat (16 * hex_value h1 + hex_value h2)) (chars s6)
              | _ => None
              end
            else if Ascii.eqb e "b" then add_char "008"%char (chars s2)
            else if Ascii.eqb e "t" then add_char "009"%char (chars s2)
            else if Ascii.eqb e "n" then add_char "010"%char (chars s2)
            else if Ascii.eqb e "f" then add_char "012"%char (chars s2)
            else if Ascii.eqb e "r" then add_char "013"%char (chars s2)
            else add_char e (chars s2)
        end
      else add_char c (chars s1)
  end.

(** Reading a string literal from the front of [s]. *)
Definition literal (s : string) : option (string * string) :=
  match s with
  | EmptyString => None
  | String c s1 => if Ascii.eqb c Json.quote then chars s1 else None
  end.

End JsonRead.

Section JsonFacts.

Lemma chars_escape_char (c : ascii) (rest : string) :
  JsonRead.chars (Json.escape_char c ++ rest) =
    JsonRead.add_char c (JsonRead.chars rest).
Proof.
  destruct c as [[] [] [] [] [] [] [] []]; reflexivity.
Qed.

Lemma chars_escape (s rest : string) :
  JsonRead.chars (Json.escape s ++ String Json.quote rest) = Some (s, rest).
Proof.
  induction s as [|c s IH]; [reflexivity|].
  cbn [Json.escape]. rewrite string_app_assoc, chars_escape_char, IH.
  reflexivity.
Qed.

(** What [json.dumps] writes for a string is read back as that string. *)
Lemma literal_dumps_str (s rest : string) :
  JsonRead.literal (Json.dumps_str s ++ rest) = Some (s, rest).
Proof.
  unfold Json.dumps_str, JsonRead.literal. cbn [String.append].
  change (Ascii.eqb Json.quote Json.quote) with true. cbv iota.
  rewrite string_app_assoc. cbn [String.append]. apply chars_escape.
Qed.

Lemma dumps_str_inj (a b r1 r2 : string) :
  (Json.dumps_str a ++ r1 = Json.dumps_str b ++ r2)%string -> a = b /\ r1 = r2.
Proof.
  intros H. apply (f_equal JsonRead.literal) in H.
  rewrite !literal_dumps_str in H. injection H as -> ->. now split.
Qed.

End JsonFacts.

(** * The job document *)

(** [s] between two quotes, as it stands. *)
Definition quoted (s : string) : string :=
  String Json.quote (s ++ String Json.quote EmptyString).

(** The text of the JSON object with the five keys of the job document, for
    the texts of its four string values. *)
Definition document_text (version name bucket key : string) : string :=
  "{" ++ quoted "type" ++ ": " ++ quoted "new_model" ++ ", " ++
  quoted "model_version" ++ ": " ++ quoted version ++ ", " ++
  quoted "model_name" ++ ": " ++ quoted name ++ ", " ++
  quoted "model_package_bucket" ++ ": " ++ quoted bucket ++ ", " ++
  quoted "model_package_key" ++ ": " ++ quoted key ++ "}".

(** The printable ASCII characters other than the quote and the backslash. *)
Definition plain_char (c : ascii) : bool :=
  (Nat.leb 32 (nat_of_ascii c) && Nat.leb (nat_of_ascii c) 126 &&
   negb (Ascii.eqb c Json.quote) && negb (Ascii.eqb c Json.backslash))%bool.

Fixpoint plain (s : string) : bool :=
  match s with
  | EmptyString => true
  | String c s' => (plain_char c && plain s')%bool
  end.

(** A packaging job that fails and reports no artifact. *)
Definition env_without_artifact : World :=
  {| compilation_status := compilation_status (Demo.env "COMPLETED" "FAILED");
     packaging_status := fun _ =>
       {| EdgePackagingJobStatus := "FAILED"; ModelArtifact := EmptyString |};
     clock_ms := clock_ms (Demo.env "COMPLETED" "FAILED");
     uuid4 := uuid4 (Demo.env "COMPLETED" "FAILED") |}.

Section DocumentFacts.

Lemma escape_char_plain (c : ascii) :
  plain_char c = true -> Json.escape_char c = String c EmptyString.
Proof.
  destruct c as [[] [] [] [] [] [] [] []]; intros H; vm_compute in H;
    first [discriminate H | reflexivity].
Qed.

Lemma escape_plain (s : string) : plain s = true -> Json.escape s = s.
Proof.
  induction s as [|c s IH]; [reflexivity|]. cbn [plain Json.escape].
  intros H. apply andb_true_iff in H as [Hc Hs].
  now rewrite (escape_char_plain c Hc), (IH Hs).
Qed.

Lemma plain_of_uint (d : Decimal.uint) : plain (NilEmpty.string_of_uint d) = true.
Proof. induction d; cbn [NilEmpty.string_of_uint plain]; [reflexivity|..]; exact IHd. Qed.

(** [str] of an integer is written into the document as it is. *)
Lemma escape_of_int (z : Z) : Json.escape (PyStr.of_int z) = PyStr.of_int z.
Proof.
  apply escape_plain. unfold PyStr.of_int.
  destruct (Z.to_int z) as [d|d]; cbn [NilEmpty.string_of_int plain].
  - apply plain_of_uint.
  - apply plain_of_uint.
Qed.

Lemma dumps_str_quoted (s : string) : Json.dumps_str s = quoted (Json.escape s).
Proof. reflexivity. Qed.

(** What [json.dumps] writes for the dict of the last cell. *)
Lemma dumps_job_document (v n b k : string) :
  Json.dumps (job_document v n b k) =
    document_text (Json.escape v) (Json.escape n) (Json.escape b) (Json.escape k).
Proof.
  unfold Json.dumps, job_document, document_text. cbn [Json.dumps_items].
  rewrite !dumps_str_quoted.
  change (Json.escape "type") with "type".
  change (Json.escape "new_model") with "new_model".
  change (Json.escape "model_version") with "model_version".
  change (Json.escape "model_name") with "model_name".
  change (Json.escape "model_package_bucket") with "model_package_bucket".
  change (Json.escape "model_package_key") with "model_package_key".
  rewrite !string_app_assoc. reflexivity.
Qed.

(** The last cell in any state of the kernel. *)
Lemma cell_iot_job_bound (cfg : Config) (env : World) (st : State)
    (mv mn mb mk : string) :
  vars st model_version = Some mv -> vars st model_name = Some mn ->
  vars st model_bucket = Some mb -> vars st model_key = Some mk ->
  cell_iot_job cfg env st =
    (Ok tt,
     {| vars := vars st;
        compilation_polls := compilation_polls st;
        packaging_polls := packaging_polls st;
        clock_reads := clock_reads st;
        uuid_draws := S (uuid_draws st);
        trace := trace st ++
                 [IotCreateJob
                    (iot_job_request cfg (uuid4 env (uuid_draws st)) mv mn mb mk)] |}).
Proof.
  intros Hv Hn Hb Hk.
  cbv [cell_iot_job bind lift get_var assign emit uuid_uuid4 ret vars trace
       uuid_draws compilation_polls packaging_polls clock_reads].
  destruct st as [vs cp pp cr ud tr]. cbn [vars] in *.
  now rewrite Hv, Hn, Hb, Hk.
Qed.

Lemma cell_iot_job_unbound (cfg : Config) (env : World) (st : State) :
  vars st model_version = None \/ vars st model_name = None \/
  vars st model_bucket = None \/ vars st model_key = None ->
  trace (snd (cell_iot_job cfg env st)) = trace st /\
  exists name, fst (cell_iot_job cfg env st) = Raise (NameError name).
Proof.
  intros H.
  cbv [cell_iot_job bind lift get_var assign emit uuid_uuid4 ret vars trace
       uuid_draws compilation_polls packaging_polls clock_reads].
  destruct st as [vs cp pp cr ud tr]. cbn [vars] in *.
  destruct (vs model_version); [|cbn; eauto].
  destruct (vs model_name); [|cbn; eauto].
  destruct (vs model_bucket); [|cbn; eauto].
  destruct (vs model_key); [|cbn; eauto].
  destruct H as [H|[H|[H|H]]]; discriminate H.
Qed.

End DocumentFacts.

(** C8, as stated: on a kernel that an earlier run has used, a run whose
    packaging job fails and reports no artifact still submits an IoT job;
    its document names the bucket and the key of the earlier run's artifact,
    which are not what [split_s3_path] gives for anything this run's
    packaging job reported. And when the cells are run one by one after the
    approval has been withdrawn, the resolver raises, no job is requested,
    and the only call of the run is an IoT job whose document carries the
    version and the artifact of the earlier run. *)
Lemma rerun_dispatches_earlier_artifact :
  let env := env_without_artifact in
  let last := packaging_status env (packaging_polls used_kernel) in
  let r := iot_job_request Demo.cfg (uuid4 env (uuid_draws used_kernel))
             "2" "img-classification" "bucket-x" "path/to/model.tar.gz" in
  let cfg' := Demo.cfg_on Demo.unapproved in
  let r' := iot_job_request cfg' (uuid4 env (uuid_draws used_kernel))
              "2" "img-classification" "bucket-x" "path/to/model.tar.gz" in
  first_exit (packaging_busy env) (packaging_polls used_kernel) 0 = true /\
  EdgePackagingJobStatus last = "FAILED" /\
  split_s3_path (ModelArtifact last) = Ok (EmptyString, EmptyString) /\
  iot_jobs (trace used_kernel) =
    [dispatched_job Demo.cfg (Demo.env "COMPLETED" "COMPLETED") 2 1] /\
  iot_jobs (trace (run_cells RunAll (deployment_cells Demo.cfg env 10) used_kernel)) =
    [dispatched_job Demo.cfg (Demo.env "COMPLETED" "COMPLETED") 2 1; r] /\
  document r =
    document_text "2" "img-classification" "bucket-x" "path/to/model.tar.gz" /\
  get_latest_approved_model_version
    (model_package_group_name cfg') (sm_client cfg') (model_package_group_name cfg')
    = Raise (ValueError "max() arg is an empty sequence") /\
  trace (run_cells CellByCell (deployment_cells cfg' env 10) used_kernel) =
    trace used_kernel ++ [IotCreateJob r'] /\
  document r' =
    document_text "2" "img-classification" "bucket-x" "path/to/model.tar.gz".
Proof. cbv zeta. conjuncts; evaluate. Qed.

(** C8, as the code has it. Whenever the last cell submits an IoT job, in
    whatever state the kernel is, the job's document is the text of the JSON
    object with the five keys [type], [model_version], [model_name],
    [model_package_bucket] and [model_package_key] in this order, the first
    with the value [new_model] and the other four with the strings that the
    names [model_version], [model_name], [model_bucket] and [model_key] are
    bound to at that moment, written as [json.dumps] writes strings; the job
    has [targetSelection] equal to [SNAPSHOT], one target, the ARN of the
    project's thing group, and a fresh [uuid4] as its id. If one of the four
    names is not bound, the cell raises a [NameError] and submits nothing.
    In a run on a fresh kernel the four strings are [str] of the version the
    resolver returned in this run, [img-classification], and the bucket and
    the key that [split_s3_path] returns for the artifact URI that the
    packaging job of this run reported with [COMPLETED], and the job is the
    only IoT job of the run. A string of printable ASCII characters without
    quote and backslash is written as it stands; a quote and a backslash
    get a backslash in front, a line feed is written as backslash and [n],
    the character U+00E9 as backslash and [u00e9]; and what is written for
    a string is read back as that string. *)
Theorem iot_job_document :
  (forall (cfg : Config) (env : World) (st : State) (mv mn mb mk : string),
     vars st model_version = Some mv -> vars st model_name = Some mn ->
     vars st model_bucket = Some mb -> vars st model_key = Some mk ->
     fst (cell_iot_job cfg env st) = Ok tt /\
     trace (snd (cell_iot_job cfg env st)) =
       trace st ++
       [IotCreateJob
          {| jobId := uuid4 env (uuid_draws st);
             targets :=
               [ ("arn:aws:iot:" ++ region cfg ++ ":" ++ account_id cfg ++
                  ":thinggroup/defect-detection-" ++ PROJECT_NAME cfg ++
                  "-group")%string ];
             document :=
               document_text (Json.escape mv) (Json.escape mn)
                 (Json.escape mb) (Json.escape mk);
             targetSelection := "SNAPSHOT" |}]) /\
  (forall (cfg : Config) (env : World) (st : State),
     vars st model_version = None \/ vars st model_name = None \/
     vars st model_bucket = None \/ vars st model_key = None ->
     trace (snd (cell_iot_job cfg env st)) = trace st /\
     exists name, fst (cell_iot_job cfg env st) = Raise (NameError name)) /\
  (forall (cfg : Config) (env : World) (mode : run_mode) (fuel : nat)
          (r : CreateJobRequest),
     In (IotCreateJob r) (trace (run_notebook cfg env mode fuel)) ->
     exists (v : Z) (np : nat) (b k : string),
       get_latest_approved_model_version
         (model_package_group_name cfg)
         (sm_client cfg) (model_package_group_name cfg) = Ok v /\
       first_exit (packaging_busy env) 0 np = true /\
       EdgePackagingJobStatus (packaging_status env np) = "COMPLETED" /\
       split_s3_path (ModelArtifact (packaging_status env np)) = Ok (b, k) /\
       document r =
         document_text (PyStr.of_int v) "img-classification"
           (Json.escape b) (Json.escape k) /\
       targetSelection r = "SNAPSHOT" /\
       targets r =
         [ ("arn:aws:iot:" ++ region cfg ++ ":" ++ account_id cfg ++
            ":thinggroup/defect-detection-" ++ PROJECT_NAME cfg ++
            "-group")%string ] /\
       iot_jobs (trace (run_notebook cfg env mode fuel)) = [r]) /\
  (forall s : string, plain s = true -> Json.escape s = s) /\
  Json.escape (String Json.quote EmptyString)
    = String Json.backslash (String Json.quote EmptyString) /\
  Json.escape (String Json.backslash EmptyString)
    = String Json.backslash (String Json.backslash EmptyString) /\
  Json.escape (String "010"%char EmptyString) = String Json.backslash "n" /\
  Json.escape (String "233"%char EmptyString) = String Json.backslash "u00e9" /\
  (forall s rest : string,
     JsonRead.literal (quoted (Json.escape s) ++ rest) = Some (s, rest)).
Proof.
  split; [|split; [exact cell_iot_job_unbound|split; [|split]]].
  - intros cfg env st mv mn mb mk Hv Hn Hb Hk.
    rewrite (cell_iot_job_bound cfg env st mv mn mb mk Hv Hn Hb Hk).
    cbn [fst snd trace]. split; [reflexivity|].
    unfold iot_job_request, thing_group_arn.
    now rewrite dumps_job_document.
  - intros cfg env mode fuel r Hin.
    destruct (iot_job_of_run cfg env mode fuel r Hin)
      as (v & np & b & k & Hv & Hp & Hs & Hsplit & Hdoc & Hsel & Htg & Hjobs).
    exists v, np, b, k. rewrite Hdoc.
    change (Json.dumps _)
      with (Json.dumps (job_document (PyStr.of_int v) "img-classification" b k)).
    rewrite dumps_job_document, escape_of_int.
    change (Json.escape "img-classification") with "img-classification".
    conjuncts; try assumption. reflexivity.
  - exact escape_plain.
  - conjuncts; try reflexivity.
    intros s rest. rewrite <- dumps_str_quoted. apply literal_dumps_str.
Qed.

Lemma iot_job_document_witness :
  document (dispatched_job Demo.cfg (Demo.env "COMPLETED" "COMPLETED") 2 1) =
    document_text "2" "img-classification" "bucket-x" "path/to/model.tar.gz" /\
  targets (dispatched_job Demo.cfg (Demo.env "COMPLETED" "COMPLETED") 2 1) =
    [ "arn:aws:iot:eu-west-1:123456789012:thinggroup/defect-detection-demo-group" ] /\
  targetSelection (dispatched_job Demo.cfg (Demo.env "COMPLETED" "COMPLETED") 2 1)
    = "SNAPSHOT" /\
  iot_jobs (trace (run_notebook Demo.cfg (Demo.env "COMPLETED" "COMPLETED") RunAll 10))
    = [dispatched_job Demo.cfg (Demo.env "COMPLETED" "COMPLETED") 2 1] /\
  trace (snd (cell_iot_job Demo.cfg env_without_artifact used_kernel)) =
    trace used_kernel ++
    [IotCreateJob
       {| jobId := "7c9e6679-7425-40de-944b-e07fc1f90ae7";
          targets :=
            [ "arn:aws:iot:eu-west-1:123456789012:thinggroup/defect-detection-demo-group" ];
          document :=
            document_text "2" "img-classification" "bucket-x"
              "path/to/model.tar.gz";
          targetSelection := "SNAPSHOT" |}].
Proof.
  destruct iot_job_document as (Hcell & _ & Hrun & Hplain & _).
  assert (Hin : In (IotCreateJob
                      (dispatched_job Demo.cfg (Demo.env "COMPLETED" "COMPLETED") 2 1))
                   (trace (run_notebook Demo.cfg (Demo.env "COMPLETED" "COMPLETED")
                             RunAll 10))).
  { apply iot_jobs_In. vm_compute. now left. }
  destruct (Hrun _ _ _ _ _ Hin)
    as (v & np & b & k & Hv & Hp & Hs & Hsplit & Hdoc & Hsel & Htg & Hjobs).
  vm_compute in Hv. injection Hv as <-.
  destruct np as [|np]; [vm_compute in Hs; discriminate Hs|].
  vm_compute in Hsplit. injection Hsplit as <- <-.
  split; [rewrite Hdoc; evaluate|].
  split; [rewrite Htg; evaluate|].
  split; [exact Hsel|]. split; [exact Hjobs|].
  destruct (Hcell Demo.cfg env_without_artifact used_kernel
              "2" "img-classification" "bucket-x" "path/to/model.tar.gz")
    as [_ Ht]; [evaluate | evaluate | evaluate | evaluate |].
  rewrite Ht. evaluate.
Defined.
